(** * Vastu-Netra-AI: the client-side conversation orchestrator

    A shallow embedding of [src/pages/Index.tsx]: the response sanitizer
    [cleanThinkingContent], the stream frame decoder and the round loop of
    [generateResponse] (hook [useServerLLM]), and the watchdog fallback of
    [handleSend]; then the callback and the direct tool call of
    [handleSend], the hook [useLocalStorage] and the room handlers that
    keep the rooms in it.

    Conventions of the embedding.
    - A JavaScript string is the list of its UTF-16 code units ([jsstring]).
    - The JavaScript runtime is not part of the repository: [JSON.parse],
      [JSON.stringify], [String(x)], number formatting and IEEE arithmetic
      are section variables, so every theorem holds for any behaviour of
      them.
    - [String(x)] and [Number(x)] are total functions here.  In
      JavaScript they throw on an object whose [toString] and [valueOf]
      give no primitive; the theorems about the payload of the layout tool
      are stated for arguments whose converted entries are primitives
      ([primitive_entries]), and the callback of the page, where the
      throw changes what the user sees, has it ([conversion_error]).
    - The table of room presets is an object literal: a lookup in it also
      finds the members of [Object.prototype] ([object_prototype]).
    - Network calls are answered by an arbitrary environment [W]; a
      computation returns the events it performed, in program order.
    - The callbacks [onToken] and [onToolCall] are events of the loop.
      [onToolCall] is called inside a [try] with an empty handler, so the
      loop does not see what it throws; [onToken] is taken not to throw.
    - [console.*] calls are recorded only for the warnings and errors the
      properties below talk about. *)

From Stdlib Require Import List NArith ZArith Bool Arith Lia.
From Stdlib.Strings Require Import String Ascii Byte.
From Stdlib Require Import DecimalString DecimalNat.
Import ListNotations.

Set Implicit Arguments.
Set Warnings "-register-all".

(** ** JavaScript strings *)

Module Js.

Definition jsstring := list N.

(** An ASCII literal of the source, as code units. *)
Definition lit (s : string) : jsstring :=
  map N_of_ascii (list_ascii_of_string s).
Arguments lit s%_string.

Definition LF : N := 10%N.
Definition CR : N := 13%N.
Definition DQUOTE : N := 34%N.

Definition code_eqb (a b : N) : bool := N.eqb a b.

Fixpoint str_eqb (a b : jsstring) : bool :=
  match a, b with
  | [], [] => true
  | x :: a', y :: b' => code_eqb x y && str_eqb a' b'
  | _, _ => false
  end.

(** [!s] for a string [s]. *)
Definition is_empty (s : jsstring) : bool :=
  match s with [] => true | _ :: _ => false end.

(** [if (s)] for a string [s]. *)
Definition truthy (s : jsstring) : bool := negb (is_empty s).

(** ECMAScript WhiteSpace and LineTerminator code points: what
    [String.prototype.trim] strips and what [\s] matches. *)
Definition is_white_space (c : N) : bool :=
  ((9 <=? c) && (c <=? 13) || (c =? 32) || (c =? 160) || (c =? 5760)
   || (8192 <=? c) && (c <=? 8202) || (c =? 8232) || (c =? 8233)
   || (c =? 8239) || (c =? 8287) || (c =? 12288) || (c =? 65279))%N.

(** LineTerminator: where [^] matches under the [m] flag. *)
Definition is_line_terminator (c : N) : bool :=
  ((c =? 10) || (c =? 13) || (c =? 8232) || (c =? 8233))%N.

Fixpoint trimStart (s : jsstring) : jsstring :=
  match s with
  | c :: s' => if is_white_space c then trimStart s' else s
  | [] => []
  end.

Definition trimEnd (s : jsstring) : jsstring := rev (trimStart (rev s)).

Definition trim (s : jsstring) : jsstring := trimEnd (trimStart s).

(** Canonicalize of a regular expression with the [i] flag and without the
    [u] flag, restricted to what the patterns of this file need: every
    pattern character is ASCII, and a non-ASCII code unit never
    canonicalizes to an ASCII one, so only the ASCII letters fold. *)
Definition canonicalize (c : N) : N :=
  if ((97 <=? c) && (c <=? 122))%N then (c - 32)%N else c.

Definition ci_eqb (a b : N) : bool := N.eqb (canonicalize a) (canonicalize b).

(** The pattern [p] matches case-insensitively at the head of [s]; the
    result is the text after the match. *)
Fixpoint strip_prefix_ci (p s : jsstring) : option jsstring :=
  match p, s with
  | [], _ => Some s
  | a :: p', b :: s' => if ci_eqb a b then strip_prefix_ci p' s' else None
  | _ :: _, [] => None
  end.

Fixpoint strip_prefix (p s : jsstring) : option jsstring :=
  match p, s with
  | [], _ => Some s
  | a :: p', b :: s' => if code_eqb a b then strip_prefix p' s' else None
  | _ :: _, [] => None
  end.

(** [s.startsWith(p)] *)
Definition startsWith (s p : jsstring) : bool :=
  match strip_prefix p s with Some _ => true | None => false end.

(** Leftmost case-insensitive occurrence of the literal [p] in [s]: the text
    before it and the text after it. *)
Fixpoint find_ci (p s : jsstring) : option (jsstring * jsstring) :=
  match strip_prefix_ci p s with
  | Some rest => Some ([], rest)
  | None =>
      match s with
      | [] => None
      | c :: s' =>
          match find_ci p s' with
          | Some (before, rest) => Some (c :: before, rest)
          | None => None
          end
      end
  end.

(** [s.includes(p)] *)
Fixpoint includes (s p : jsstring) : bool :=
  match strip_prefix p s with
  | Some _ => true
  | None => match s with [] => false | _ :: s' => includes s' p end
  end.

(** Decimal digits of a natural number, as [String(n)] prints an array
    length, a status code or a loop index. *)
Definition decimal (n : nat) : jsstring :=
  lit (NilZero.string_of_uint (Nat.to_uint n)).

End Js.

Import Js.

(** ** ResponseSanitizer: [cleanThinkingContent] *)

Module Sanitizer.

Definition open_tag : jsstring := lit "<think>".
Definition close_tag : jsstring := lit "</think>".

(** [text.match(/<think>([\s\S]*?)<\/think>/i)]: the capture group of the
    leftmost match.  The lazy group stops at the first closing tag after
    the leftmost opening tag; if that opening tag is never closed no later
    one is either, so the match fails. *)
Definition think_match (text : jsstring) : option jsstring :=
  match find_ci open_tag text with
  | None => None
  | Some (_, after_open) =>
      match find_ci close_tag after_open with
      | None => None
      | Some (captured, _) => Some captured
      end
  end.

(** [text.replace(/<think>[\s\S]*?<\/think>/gi, '')]: every match is
    removed, scanning resumes after the closing tag.  Each iteration
    consumes at least the two tags, so [length text] iterations suffice. *)
Fixpoint remove_think_fuel (fuel : nat) (text : jsstring) : jsstring :=
  match fuel with
  | O => text
  | S f =>
      match find_ci open_tag text with
      | None => text
      | Some (before, after_open) =>
          match find_ci close_tag after_open with
          | None => text
          | Some (_, after_close) => before ++ remove_think_fuel f after_close
          end
      end
  end.

Definition remove_think (text : jsstring) : jsstring :=
  remove_think_fuel (List.length text) text.

(** The three entries of [thinkingPatterns]; each is [/^(a|b|...)/im]. *)
Definition thinkingPatterns : list (list jsstring) :=
  [ map lit ["Okay,"; "Wait,"; "Hmm,"; "Let me think"; "Let me check";
             "I need to"; "First,"; "So,"; "Actually,"];
    map lit ["The user"; "They didn't"; "Since they"; "I should";
             "I have to"; "I'll"; "Maybe I"];
    map lit ["Looking at"; "Checking"; "Analyzing"; "Processing";
             "Thinking about"] ]%string.

Definition alt_at (alts : list jsstring) (s : jsstring) : bool :=
  existsb (fun p => match strip_prefix_ci p s with
                    | Some _ => true | None => false end) alts.

(** [p.test(s)] for [p = /^(alts)/im]: some alternative matches at the start
    of the string or right after a line terminator.  [at_start] tells
    whether the head of [s] is such a position. *)
Fixpoint test_multiline (alts : list jsstring) (at_start : bool)
         (s : jsstring) : bool :=
  (at_start && alt_at alts s)
  || match s with
     | [] => false
     | c :: s' => test_multiline alts (is_line_terminator c) s'
     end.

Definition looksLikeThinking (mainContent : jsstring) : bool :=
  existsb (fun alts => test_multiline alts true mainContent) thinkingPatterns.

(** The thought-balloon emoji U+1F4AD as a surrogate pair. *)
Definition balloon : jsstring := [55357; 56493]%N.

Definition details_block (thinkingContent : jsstring) : jsstring :=
  lit "<details class=" ++ [DQUOTE] ++ lit "thinking-container"
  ++ [DQUOTE] ++ lit ">" ++ [LF]
  ++ lit "<summary>" ++ balloon ++ lit " View AI Reasoning</summary>"
  ++ [LF; LF] ++ thinkingContent ++ [LF; LF] ++ lit "</details>" ++ [LF; LF].

Definition fallback_sentence : jsstring :=
  lit "I've processed your request. The floor plan has been generated and is displayed in the viewer.".

(** The two parts of the text after the tags and the patterns have been
    applied: [(mainContent, thinkingContent)]. *)
Definition separate (text : jsstring) : jsstring * jsstring :=
  let '(mainContent, thinkingContent) :=
    match think_match text with
    | Some captured => (trim (remove_think text), trim captured)
    | None => (text, [])
    end in
  if looksLikeThinking mainContent && is_empty thinkingContent
  then ([], mainContent)
  else (mainContent, thinkingContent).

Definition cleanThinkingContent (text : jsstring) : jsstring :=
  if is_empty text then []
  else
    let '(mainContent, thinkingContent) := separate text in
    let result :=
      (if truthy thinkingContent then details_block thinkingContent else [])
      ++ (if truthy mainContent then mainContent else []) in
    let result := if is_empty (trim result) then fallback_sentence else result in
    trim result.

End Sanitizer.

(** ** StreamFrameDecoder: [TextDecoder] and the line buffer *)

Module Frame.

(** *** [new TextDecoder().decode(value)]

    The UTF-8 decoder of the Encoding standard, in replacement mode.  The
    source calls [decode] on every chunk without [{stream: true}], so each
    chunk is decoded on its own: the decoder starts in its initial state, a
    sequence still incomplete at the end of the chunk is flushed as U+FFFD,
    and a byte order mark at the head of the chunk is dropped. *)

Record utf8_state := {
  code_point : N;
  bytes_seen : nat;
  bytes_needed : nat;
  lower_boundary : N;
  upper_boundary : N
}.

Definition utf8_initial : utf8_state :=
  {| code_point := 0; bytes_seen := 0; bytes_needed := 0;
     lower_boundary := 128; upper_boundary := 191 |}.

Definition REPLACEMENT : N := 65533%N.
Definition BOM : N := 65279%N.

(** A byte read while no sequence is pending. *)
Definition lead_byte (v : N) : list N * utf8_state :=
  if (v <=? 127)%N then ([v], utf8_initial)
  else if ((194 <=? v) && (v <=? 223))%N then
    ([], {| code_point := N.land v 31; bytes_seen := 0; bytes_needed := 1;
            lower_boundary := 128; upper_boundary := 191 |})
  else if ((224 <=? v) && (v <=? 239))%N then
    ([], {| code_point := N.land v 15; bytes_seen := 0; bytes_needed := 2;
            lower_boundary := if (v =? 224)%N then 160 else 128;
            upper_boundary := if (v =? 237)%N then 159 else 191 |})
  else if ((240 <=? v) && (v <=? 244))%N then
    ([], {| code_point := N.land v 7; bytes_seen := 0; bytes_needed := 3;
            lower_boundary := if (v =? 240)%N then 144 else 128;
            upper_boundary := if (v =? 244)%N then 143 else 191 |})
  else ([REPLACEMENT], utf8_initial).

Fixpoint utf8_decode (st : utf8_state) (bytes : list byte) : list N :=
  match bytes with
  | [] => match bytes_needed st with O => [] | S _ => [REPLACEMENT] end
  | b :: rest =>
      let v := Byte.to_N b in
      match bytes_needed st with
      | O => let '(out, st') := lead_byte v in out ++ utf8_decode st' rest
      | S _ =>
          if ((lower_boundary st <=? v) && (v <=? upper_boundary st))%N then
            let cp := N.lor (N.shiftl (code_point st) 6) (N.land v 63) in
            if Nat.eqb (S (bytes_seen st)) (bytes_needed st)
            then cp :: utf8_decode utf8_initial rest
            else utf8_decode {| code_point := cp;
                                bytes_seen := S (bytes_seen st);
                                bytes_needed := bytes_needed st;
                                lower_boundary := 128;
                                upper_boundary := 191 |} rest
          else
            (* the pending sequence is replaced, the byte is read again *)
            let '(out, st') := lead_byte v in
            REPLACEMENT :: out ++ utf8_decode st' rest
      end
  end.

(** A scalar value as UTF-16 code units. *)
Definition utf16_units (cp : N) : jsstring :=
  if (cp <? 65536)%N then [cp]
  else [(55296 + N.shiftr (cp - 65536) 10)%N; (56320 + N.land (cp - 65536) 1023)%N].

Definition strip_bom (cps : list N) : list N :=
  match cps with
  | c :: rest => if (c =? BOM)%N then rest else cps
  | [] => []
  end.

Definition decode (value : list byte) : jsstring :=
  flat_map utf16_units (strip_bom (utf8_decode utf8_initial value)).

(** *** [s.split(/\r?\n/)]

    A separator is a line feed together with the carriage return right
    before it, if any; the result always has at least one segment. *)
Fixpoint split_lines (s : jsstring) : list jsstring :=
  match s with
  | [] => [[]]
  | c :: rest =>
      if (c =? LF)%N then [] :: split_lines rest
      else if (c =? CR)%N && match rest with
                             | c' :: _ => (c' =? LF)%N
                             | [] => false
                             end
      then split_lines rest
      else match split_lines rest with
           | seg :: segs => (c :: seg) :: segs
           | [] => [[c]]
           end
  end.

(** One iteration of the read loop on the buffer: [streamBuffer += chunk],
    [segments = streamBuffer.split(/\r?\n/)],
    [streamBuffer = segments.pop() || '']; the result is the complete lines
    and the new buffer. *)
Definition feed (streamBuffer chunk : jsstring) : list jsstring * jsstring :=
  let segments := split_lines (streamBuffer ++ chunk) in
  (removelast segments, last segments []).

(** A residual buffer is parsed after the stream ends when
    [streamBuffer && streamBuffer.trim().length > 0]. *)
Definition has_residual (streamBuffer : jsstring) : bool :=
  truthy streamBuffer && negb (is_empty (trim streamBuffer)).

(** The text records of a stream of already decoded chunks: the lines handed
    to the line parser, in order, and the residual handed to the residual
    parser ([None] when it is blank). *)
Fixpoint feed_all (streamBuffer : jsstring) (chunks : list jsstring)
  : list jsstring * option jsstring :=
  match chunks with
  | [] => ([], if has_residual streamBuffer then Some streamBuffer else None)
  | chunk :: rest =>
      let '(lines, buffer') := feed streamBuffer chunk in
      let '(more, residual) := feed_all buffer' rest in
      (lines ++ more, residual)
  end.

(** The records of a byte stream delivered as [chunks]. *)
Definition records (chunks : list (list byte)) : list jsstring * option jsstring :=
  feed_all [] (map decode chunks).

End Frame.

(** ** Exceptions, events and the effect monad *)

Module Effects.

(** The outcome of a statement: a value, or a thrown [Error] with its
    [message]. *)
Inductive Res (A : Type) : Type :=
| Ok (a : A)
| Throws (message : jsstring).
Arguments Ok {A} a.
Arguments Throws {A} message.

Section Monad.

Variables (W E : Type).

(** A computation runs in an environment [W] (the servers it talks to),
    returns the environment after it, the events it performed, oldest first,
    and its outcome. *)
Definition M (A : Type) : Type := W -> W * list E * Res A.

Definition ret {A} (a : A) : M A := fun w => (w, [], Ok a).

Definition throw {A} (message : jsstring) : M A :=
  fun w => (w, [], Throws message).

Definition bind {A B} (m : M A) (k : A -> M B) : M B :=
  fun w =>
    match m w with
    | (w1, ev1, Ok a) =>
        match k a w1 with (w2, ev2, r) => (w2, ev1 ++ ev2, r) end
    | (w1, ev1, Throws message) => (w1, ev1, Throws message)
    end.

Definition emit (e : E) : M unit := fun w => (w, [e], Ok tt).

Definition lift {A} (r : Res A) : M A := fun w => (w, [], r).

(** [try { m } catch (e) { handler e.message }]: what [m] did before it
    threw stays done. *)
Definition try_catch {A} (m : M A) (handler : jsstring -> M A) : M A :=
  fun w =>
    match m w with
    | (w1, ev1, Ok a) => (w1, ev1, Ok a)
    | (w1, ev1, Throws message) =>
        match handler message w1 with (w2, ev2, r) => (w2, ev1 ++ ev2, r) end
    end.

(** [try { m } finally { f }] for an [f] that does not throw. *)
Definition finally {A} (m : M A) (f : M unit) : M A :=
  fun w =>
    match m w with
    | (w1, ev1, r) =>
        match f w1 with (w2, ev2, _) => (w2, ev1 ++ ev2, r) end
    end.

(** [for (const x of xs) { body }] over a threaded state. *)
Fixpoint for_each {A S} (body : S -> A -> M S) (xs : list A) (s : S) : M S :=
  match xs with
  | [] => ret s
  | x :: rest => bind (body s x) (for_each body rest)
  end.

Definition when (b : bool) (m : M unit) : M unit := if b then m else ret tt.

End Monad.

Arguments ret {W E A} a.
Arguments throw {W E A} message.
Arguments emit {W E} e.
Arguments lift {W E A} r.
Arguments when {W E} b m.

Definition events {W E A} (x : W * list E * Res A) : list E := snd (fst x).
Definition outcome {W E A} (x : W * list E * Res A) : Res A := snd x.
Definition world {W E A} (x : W * list E * Res A) : W := fst (fst x).

End Effects.

Import Effects.

Declare Scope js_scope.
Delimit Scope js_scope with js.
Notation "x <- m ;; k" := (bind m (fun x => k))
  (at level 61, m at next level, right associativity) : js_scope.
Notation "' p <- m ;; k" := (bind m (fun x => let p := x in k))
  (at level 61, p pattern, m at next level, right associativity) : js_scope.
Notation "m ;;; k" := (bind m (fun _ => k))
  (at level 61, right associativity) : js_scope.

(** ** ConversationOrchestrator: [useServerLLM] and [generateResponse] *)

Local Open Scope js_scope.

Section Model.

(** *** Data model *)

(** JavaScript numbers.  IEEE arithmetic is not modelled: the type and the
    operations on it that the source uses are variables. *)
Variable num : Type.

Inductive json : Type :=
| JNull
| JBool (b : bool)
| JNum (n : num)
| JStr (s : jsstring)
| JArr (items : list json)
| JObj (fields : list (jsstring * json)).

Fixpoint lookup (k : jsstring) (fields : list (jsstring * json)) : option json :=
  match fields with
  | [] => None
  | (k', v) :: rest => if str_eqb k k' then Some v else lookup k rest
  end.

(** [j.k] for an own property [k]; [undefined] is [None]. *)
Definition get (j : json) (k : jsstring) : option json :=
  match j with
  | JObj fields => lookup k fields
  | _ => None
  end.

Inductive Role := user | assistant | system | tool.

(** [interface Message] *)
Record Message := {
  msg_role : Role;
  msg_content : jsstring;
  msg_timestamp : N
}.

(** An element of [rollingMessages]. *)
Record ChatMessage := {
  cm_role : Role;
  cm_content : jsstring;
  cm_name : option jsstring
}.

Inductive LLMType := ollama | openai | llamacpp | lmstudio | browser.

(** [interface ServerLLMConfig] *)
Record ServerLLMConfig := {
  cfg_endpoint : jsstring;
  cfg_model : option jsstring;
  cfg_type : option LLMType
}.

(** [interface ToolDefinition] *)
Record ToolDefinition := {
  td_name : jsstring;
  td_description : option jsstring;
  td_parameters : option json
}.

(** An element of [ollamaTools]; its [type] is always ['function']. *)
Record OllamaTool := {
  ot_name : jsstring;
  ot_description : jsstring;
  ot_parameters : json
}.

(** [interface ToolCall]: the nested shape carries [function], the flat one
    [name] and [arguments].  An absent field is [None]. *)
Record FunctionCall := {
  fn_name : jsstring;
  fn_arguments : option json
}.

Record ToolCall := {
  tc_function : option FunctionCall;
  tc_name : option jsstring;
  tc_arguments : option json
}.

(** The value of [JSON.parse] on a line of the stream (or of
    [response.json()]), seen through the fields the source reads.  Text
    fields hold strings, as the source's annotations say. *)
Record MessageObj := {
  m_content : option jsstring;
  m_thinking : option jsstring;
  m_tool_calls : option (list ToolCall)
}.

Record Parsed := {
  p_message : option MessageObj;
  p_response : option jsstring;
  p_thinking : option jsstring;
  p_content : option jsstring;
  p_text : option jsstring;
  p_tool_calls : option (list ToolCall);
  p_done : bool;
  p_delta_content : option jsstring;      (* choices[0].delta.content *)
  p_choice_content : option jsstring      (* choices[0].message.content *)
}.

(** The body of a chat request after [JSON.stringify], which drops the
    fields that are [undefined]. *)
Record Request := {
  rq_url : jsstring;
  rq_model : jsstring;
  rq_messages : list ChatMessage;
  rq_stream : bool;
  rq_tools : option (list OllamaTool);
  rq_tool_choice : option jsstring;
  rq_ollama : bool           (* carries [options] and [think: false] *)
}.

Inductive StreamEnd :=
| EndOfStream                          (* [reader.read()] yields [done] *)
| ReadRejects (message : jsstring).    (* [reader.read()] rejects *)

Record Response := {
  resp_ok : bool;
  resp_status : nat;
  resp_body : option (list (list byte) * StreamEnd);
  resp_json : Res Parsed
}.

Inductive Solver := constraint | graph.

(** A room of the payload; a field whose value is [undefined] is left out
    of the JSON text. *)
Record Room := {
  room_id : jsstring;
  room_name : option json;
  room_type : option jsstring;
  room_width : option num;
  room_height : option num;
  room_x : num;
  room_y : num
}.

(** The body posted to [/api/solvers/generate]. *)
Record Payload := {
  pl_rooms : list Room;
  pl_plotWidth : num;
  pl_plotLength : num;
  pl_plotShape : jsstring;
  pl_solver_type : Solver;
  pl_constraints : option (list (jsstring * jsstring))
}.

Definition with_solver (p : Payload) (s : Solver) : Payload :=
  {| pl_rooms := pl_rooms p; pl_plotWidth := pl_plotWidth p;
     pl_plotLength := pl_plotLength p; pl_plotShape := pl_plotShape p;
     pl_solver_type := s; pl_constraints := pl_constraints p |}.

Record BackendResponse := {
  gen_ok : bool;
  gen_status : nat;
  gen_json : Res json
}.

Inductive Level := Warn | Error.

Inductive Event :=
| EvFetch (rq : Request)                        (* [fetch(endpoint, ...)] *)
| EvGenerate (p : Payload)                      (* [fetch] of the backend *)
| EvToken (token : jsstring)                    (* [onToken(content)] *)
| EvOnToolCall (tc : ToolCall) (result : json)  (* [onToolCall(tc, result)] *)
| EvToolMessage (m : ChatMessage)               (* tool message pushed *)
| EvConsole (level : Level) (tag : jsstring)
| EvSetIsLoading (b : bool)
| EvSetError (e : option jsstring)
| EvSetRooms (rooms : list json)                (* [setRooms(...)] *)
| EvToast (title : jsstring) (destructive : bool).

(** *** The runtime and the environment *)

Variable JSON_parse : jsstring -> Res json.         (* [Throws]: SyntaxError *)
Variable JSON_stringify : json -> jsstring.
Variable js_String : json -> jsstring.              (* [String(v)] *)
Variable js_Number : option json -> num.            (* [Number(v)] *)
Variable toLowerCase : jsstring -> jsstring.
Variable num_truthy : num -> bool.
Variable num_of_N : N -> num.                       (* a numeric literal *)
Variable Math_round : num -> num.
Variable num_to_string : num -> jsstring.
Variable parse_number : jsstring -> num.            (* [Number(text)] *)
Variable num_mul num_div num_max : num -> num -> num.
(** The message of the TypeError thrown when a property of [null] or
    [undefined] is read. *)
Variable type_error : jsstring.

(** [JSON.parse(line)] through the [Parsed] view; [None] when it throws or
    yields [null], on which the first field access throws. *)
Variable parse_record : jsstring -> option Parsed.

Variable W : Type.
Variable fetch_llm : W -> Request -> W * Res Response.
Variable fetch_backend : W -> Payload -> W * Res BackendResponse.
(** [localStorage.getItem('llm_disable_tools') === 'true'] *)
Variable llm_disable_tools : W -> bool.

Definition Act (A : Type) : Type := Effects.M W Event A.

Definition do_fetch (rq : Request) : Act Response :=
  fun w => let '(w', r) := fetch_llm w rq in (w', [EvFetch rq], r).

Definition do_generate (p : Payload) : Act BackendResponse :=
  fun w => let '(w', r) := fetch_backend w p in (w', [EvGenerate p], r).

Definition forceDisableToolsDebug : Act bool :=
  fun w => (w, [], Ok (llm_disable_tools w)).

Definition console (level : Level) (tag : string) : Act unit :=
  emit (EvConsole level (lit tag)).

(** *** Values *)

Definition json_truthy (j : json) : bool :=
  match j with
  | JNull => false
  | JBool b => b
  | JNum n => num_truthy n
  | JStr s => truthy s
  | JArr _ | JObj _ => true
  end.

(** [a ?? b] *)
Definition nullish_or (a : option json) (b : json) : json :=
  match a with
  | None | Some JNull => b
  | Some v => v
  end.

(** [a || b] on an optional string. *)
Definition text_or (a : option jsstring) (b : jsstring) : jsstring :=
  match a with
  | Some (c :: s) => c :: s
  | _ => b
  end.

(** String conversion in a template literal, where it returns. *)
Definition to_string (j : json) : jsstring :=
  match j with
  | JStr s => s
  | _ => js_String j
  end.

Definition to_number (v : option json) : num :=
  match v with
  | Some (JNum n) => n
  | _ => js_Number v
  end.

(** [j.k] in a place where a [null] is not guarded against. *)
Definition member (j : json) (k : string) : Res (option json) :=
  match j with
  | JNull => Throws type_error
  | _ => Ok (get j (lit k))
  end.

(** *** The layout tool: [generate_layout_hybrid] *)

(** What [defaults[k]] can be: the fields [w], [h], [type] and [name] of
    the value, each [None] where the value has no such property. *)
Record RoomPreset := {
  rp_w : option N;
  rp_h : option N;
  rp_type : option jsstring;
  rp_name : option json
}.

Definition mk_preset (w h : N) (type name : string) : RoomPreset :=
  {| rp_w := Some w; rp_h := Some h; rp_type := Some (lit type);
     rp_name := Some (JStr (lit name)) |}.

(** The own properties of the table [defaults]. *)
Definition defaults : list (jsstring * RoomPreset) :=
  [ (lit "living_room", mk_preset 10 10 "living" "Living Room");
    (lit "living", mk_preset 10 10 "living" "Living Room");
    (lit "kitchen", mk_preset 8 8 "kitchen" "Kitchen");
    (lit "master_bedroom", mk_preset 14 12 "master_bedroom" "Master Bedroom");
    (lit "bedroom", mk_preset 12 10 "bedroom" "Bedroom");
    (lit "bathroom", mk_preset 6 6 "bathroom" "Bathroom");
    (lit "pooja_room", mk_preset 6 6 "pooja" "Pooja Room") ].

(** A method of [Object.prototype]: a function, which is truthy and has a
    [name] and none of [w], [h] and [type]. *)
Definition method (name : string) : jsstring * RoomPreset :=
  (lit name,
   {| rp_w := None; rp_h := None; rp_type := None;
      rp_name := Some (JStr (lit name)) |}).

(** What [defaults] inherits, being an object literal: the members of
    [Object.prototype].  [constructor] is the function [Object];
    [__proto__] reads as [Object.prototype] itself, an object without
    [name]. *)
Definition object_prototype : list (jsstring * RoomPreset) :=
  [ (lit "constructor",
     {| rp_w := None; rp_h := None; rp_type := None;
        rp_name := Some (JStr (lit "Object")) |});
    (lit "__proto__",
     {| rp_w := None; rp_h := None; rp_type := None; rp_name := None |});
    method "hasOwnProperty"; method "isPrototypeOf";
    method "propertyIsEnumerable"; method "toLocaleString";
    method "toString"; method "valueOf";
    method "__defineGetter__"; method "__defineSetter__";
    method "__lookupGetter__"; method "__lookupSetter__" ].

Fixpoint preset (k : jsstring) (table : list (jsstring * RoomPreset))
  : option RoomPreset :=
  match table with
  | [] => None
  | (k', d) :: rest => if str_eqb k k' then Some d else preset k rest
  end.

(** [defaults[k]]: an own property, or else an inherited one; each of
    them is truthy. *)
Definition defaults_at (k : jsstring) : option RoomPreset :=
  preset k (defaults ++ object_prototype).

(** [k.split(' ').join('_')] *)
Definition underscored (k : jsstring) : jsstring :=
  map (fun c => if (c =? 32)%N then 95%N else c) k.

Definition baseRoom (key : json) (idx : nat) : Room :=
  let k := toLowerCase (js_String key) in
  let def :=
    match defaults_at k with
    | Some d => d
    | None =>
        match defaults_at (underscored k) with
        | Some d => d
        | None => {| rp_w := Some 8%N; rp_h := Some 8%N; rp_type := Some k;
                     rp_name := Some key |}
        end
    end in
  {| room_id := k ++ lit "_" ++ decimal (idx + 1);
     room_name := rp_name def; room_type := rp_type def;
     room_width := option_map num_of_N (rp_w def);
     room_height := option_map num_of_N (rp_h def);
     room_x := num_of_N 0; room_y := num_of_N 0 |}.

(** [xs.map((x, idx) => f x idx)] *)
Fixpoint map_indexed {A B} (f : A -> nat -> B) (idx : nat) (xs : list A) : list B :=
  match xs with
  | [] => []
  | x :: rest => f x idx :: map_indexed f (S idx) rest
  end.

(** [Number(v) || 30] *)
Definition number_or_30 (v : option json) : num :=
  let n := to_number v in
  if num_truthy n then n else num_of_N 30.

(** The payload of the tool, built before its [try] from arguments on
    which [Number(dims[i])] and [String(key)] return. *)
Definition layout_payload (args : json) : Payload :=
  let dims :=
    match get args (lit "plot_dimensions") with
    | Some (JArr items) => items
    | _ => [JNum (num_of_N 30); JNum (num_of_N 30)]
    end in
  let width := number_or_30 (nth_error dims 0) in
  let length := number_or_30 (nth_error dims 1) in
  let orientation :=
    match get args (lit "orientation") with
    | Some (JStr s) => Some s
    | _ => None
    end in
  let roomsNeeded :=
    match get args (lit "rooms_needed") with
    | Some (JArr items) => items
    | _ => []
    end in
  {| pl_rooms := map_indexed baseRoom 0 roomsNeeded;
     pl_plotWidth := width;
     pl_plotLength := length;
     pl_plotShape := lit "rectangular";
     pl_solver_type := constraint;
     pl_constraints :=
       match orientation with
       | Some (c :: s) => Some [(lit "house_facing", c :: s)]
       | _ => None
       end |}.

Definition error_result (message : jsstring) : json :=
  JObj [(lit "status", JStr (lit "error")); (lit "message", JStr message)].

(** The backend call of the tool: the constraint solver first, the graph
    solver once when the first response is not [ok]; whatever is thrown,
    also by the log line that reads [genJson.solver_type], becomes an error
    result. *)
Definition execute_generate (args : json) : Act json :=
  let payload := layout_payload args in
  try_catch
    (genRes <- do_generate payload ;;
     genRes <- (if gen_ok genRes then ret genRes
                else console Warn "[ServerLLM][ConstraintSolverFailed]" ;;;
                     do_generate (with_solver payload graph)) ;;
     genJson <- lift (gen_json genRes) ;;
     _ <- lift (member genJson "solver_type") ;;
     ret genJson)
    (fun message =>
       console Error "[ServerLLM][ToolError]" ;;;
       ret (error_result (text_or (Some message) (lit "Backend generation failed")))).

(** *** Tool calls met in the stream *)

(** The variables of [generateResponse] that live across rounds. *)
Record TurnState := {
  fullResponse : jsstring;
  rollingMessages : list ChatMessage;
  rounds : nat;
  haveToolResults : bool;
  lastToolResult : option json
}.

(** The variables of one round. *)
Record RoundState := {
  encounteredToolCall : bool;
  streamedCharsThisRound : nat;
  streamBuffer : jsstring
}.

(** [toolCall.function?.arguments ?? toolCall.arguments ?? '{}'] *)
Definition rawArgs (toolCall : ToolCall) : json :=
  nullish_or
    (match tc_function toolCall with
     | Some f => fn_arguments f
     | None => None
     end)
    (nullish_or (tc_arguments toolCall) (JStr (lit "{}"))).

(** The resolution of the arguments, up to and including the
    [Object.keys(args)] of the log line, which throws on [null]. *)
Definition resolve_args (toolCall : ToolCall) : Res json :=
  let args :=
    match rawArgs toolCall with
    | JStr s => JSON_parse s
    | JObj fields => Ok (JObj fields)
    | JArr items => Ok (JArr items)
    | _ => Ok (JObj [])
    end in
  match args with
  | Ok JNull => Throws type_error
  | r => r
  end.

(** [toolCall.function.name], which throws on the flat shape. *)
Definition function_name (toolCall : ToolCall) : Res jsstring :=
  match tc_function toolCall with
  | Some f => Ok (fn_name f)
  | None => Throws type_error
  end.

Definition no_handler : json := error_result (lit "No handler").

Definition tool_message (name : jsstring) (result : json) : ChatMessage :=
  {| cm_role := tool; cm_content := JSON_stringify result; cm_name := Some name |}.

(** The body of [for (const toolCall of toolCalls)] in the read loop. *)
Definition handle_tool_call (onToolCall : bool) (ts : TurnState)
           (toolCall : ToolCall) : Act TurnState :=
  try_catch
    (args <- lift (resolve_args toolCall) ;;
     name <- lift (function_name toolCall) ;;
     result <- (if str_eqb name (lit "generate_layout_hybrid")
                then execute_generate args
                else ret no_handler) ;;
     when onToolCall (emit (EvOnToolCall toolCall result)) ;;;
     emit (EvToolMessage (tool_message name result)) ;;;
     ret {| fullResponse := fullResponse ts;
            rollingMessages := rollingMessages ts ++ [tool_message name result];
            rounds := rounds ts;
            haveToolResults := true;
            lastToolResult := Some result |})
    (fun _ =>
       console Error "[ServerLLM][ToolArgsParseError]" ;;;
       ret ts).

(** *** One round: the stream *)

Definition Vars : Type := TurnState * RoundState.

Definition set_fullResponse (ts : TurnState) (text : jsstring) : TurnState :=
  {| fullResponse := text; rollingMessages := rollingMessages ts;
     rounds := rounds ts; haveToolResults := haveToolResults ts;
     lastToolResult := lastToolResult ts |}.

Definition set_encountered (rs : RoundState) : RoundState :=
  {| encounteredToolCall := true;
     streamedCharsThisRound := streamedCharsThisRound rs;
     streamBuffer := streamBuffer rs |}.

Definition set_streamBuffer (rs : RoundState) (buffer : jsstring) : RoundState :=
  {| encounteredToolCall := encounteredToolCall rs;
     streamedCharsThisRound := streamedCharsThisRound rs;
     streamBuffer := buffer |}.

(** [if (content) { fullResponse += content; if (onToken) onToken(content);
    streamedCharsThisRound += content.length; }] *)
Definition deliver (onToken : bool) (content : jsstring) (v : Vars) : Act Vars :=
  let '(ts, rs) := v in
  if truthy content then
    when onToken (emit (EvToken content)) ;;;
    ret (set_fullResponse ts (fullResponse ts ++ content),
         {| encounteredToolCall := encounteredToolCall rs;
            streamedCharsThisRound := streamedCharsThisRound rs + List.length content;
            streamBuffer := streamBuffer rs |})
  else ret v.

(** [parsed.message?.tool_calls || parsed.tool_calls] *)
Definition tool_calls_of (parsed : Parsed) : option (list ToolCall) :=
  match p_message parsed with
  | Some m =>
      match m_tool_calls m with
      | Some calls => Some calls
      | None => p_tool_calls parsed
      end
  | None => p_tool_calls parsed
  end.

Definition message_content (parsed : Parsed) : option jsstring :=
  match p_message parsed with Some m => m_content m | None => None end.

Definition message_thinking (parsed : Parsed) : option jsstring :=
  match p_message parsed with Some m => m_thinking m | None => None end.

(** The text of a line of the Ollama dialect inside the read loop. *)
Definition line_content (parsed : Parsed) : jsstring :=
  text_or (message_content parsed)
    (text_or (p_response parsed)
       (text_or (p_content parsed) (text_or (p_text parsed) []))).

(** The text of the residual line and of the non-streaming reply, which
    also look at the thinking fields. *)
Definition residual_content (parsed : Parsed) : jsstring :=
  text_or (message_content parsed)
    (text_or (message_thinking parsed)
       (text_or (p_response parsed)
          (text_or (p_thinking parsed)
             (text_or (p_content parsed) (text_or (p_text parsed) []))))).

Definition handle_line_ollama (onToken onToolCall : bool) (v : Vars)
           (line : jsstring) : Act Vars :=
  match parse_record line with
  | None => ret v
  | Some parsed =>
      ' (ts, rs) <- deliver onToken (line_content parsed) v ;;
      ' (ts, rs) <-
        match tool_calls_of parsed with
        | Some (toolCall :: more) =>
            ts' <- for_each (handle_tool_call onToolCall) (toolCall :: more) ts ;;
            ret (ts', set_encountered rs)
        | _ => ret (ts, rs)
        end ;;
      when (p_done parsed && Nat.eqb (streamedCharsThisRound rs) 0)
           (console Warn "[ServerLLM][StreamDoneNoContent]") ;;;
      ret (ts, rs)
  end.

Definition handle_line_sse (onToken : bool) (v : Vars) (line : jsstring) : Act Vars :=
  match strip_prefix (lit "data: ") line with
  | None => ret v
  | Some data =>
      if str_eqb data (lit "[DONE]") then ret v
      else
        match parse_record data with
        | None => ret v
        | Some parsed => deliver onToken (text_or (p_delta_content parsed) []) v
        end
  end.

Definition handle_line (isOllama onToken onToolCall : bool) : Vars -> jsstring -> Act Vars :=
  if isOllama then handle_line_ollama onToken onToolCall
  else handle_line_sse onToken.

(** [while (true) { const { done, value } = await reader.read(); ... }] *)
Fixpoint read_loop (isOllama onToken onToolCall : bool)
         (chunks : list (list byte)) (ending : StreamEnd) (v : Vars) : Act Vars :=
  match chunks with
  | [] =>
      match ending with
      | EndOfStream => ret v
      | ReadRejects message => throw message
      end
  | value :: rest =>
      let '(ts, rs) := v in
      let '(segments, buffer) := Frame.feed (streamBuffer rs) (Frame.decode value) in
      v' <- for_each (handle_line isOllama onToken onToolCall) segments
                     (ts, set_streamBuffer rs buffer) ;;
      read_loop isOllama onToken onToolCall rest ending v'
  end.

(** What the residual parser does with one tool call: the arguments are
    resolved and logged, and that is all. *)
Definition inspect_residual_call (u : unit) (toolCall : ToolCall) : Act unit :=
  try_catch (_ <- lift (resolve_args toolCall) ;; ret tt) (fun _ => ret tt).

(** The block after the read loop that parses what is left in the buffer. *)
Definition handle_residual (isOllama onToken : bool) (v : Vars) : Act Vars :=
  let '(ts, rs) := v in
  if Frame.has_residual (streamBuffer rs) then
    if isOllama then
      match parse_record (streamBuffer rs) with
      | None => ret v
      | Some parsed =>
          ' (ts, rs) <- deliver onToken (residual_content parsed) v ;;
          match tool_calls_of parsed with
          | Some (toolCall :: more) =>
              for_each inspect_residual_call (toolCall :: more) tt ;;;
              ret (ts, set_encountered rs)
          | _ => ret (ts, rs)
          end
      end
    else
      match strip_prefix (lit "data: ") (streamBuffer rs) with
      | None => ret v
      | Some data =>
          if str_eqb data (lit "[DONE]") then ret v
          else
            match parse_record data with
            | None => ret v
            | Some parsed =>
                deliver onToken
                  (text_or (p_delta_content parsed)
                     (text_or (p_choice_content parsed) [])) v
            end
      end
  else ret v.

(** ** FallbackController: the watchdog of [handleSend] *)

Definition is_digit (c : N) : bool := ((48 <=? c) && (c <=? 57))%N.

(** [\s*]: the blanks at the head are skipped. *)
Definition skip_blanks (s : jsstring) : jsstring := trimStart s.

(** The leftmost position at which [matcher] succeeds. *)
Fixpoint search {A} (matcher : jsstring -> option A) (s : jsstring) : option A :=
  match matcher s with
  | Some a => Some a
  | None => match s with [] => None | _ :: s' => search matcher s' end
  end.

(** [(\d)\s*bhk] at the head of [s], case-insensitively: the digit. *)
Definition bhk_at (s : jsstring) : option nat :=
  match s with
  | d :: rest =>
      if is_digit d then
        match strip_prefix_ci (lit "bhk") (skip_blanks rest) with
        | Some _ => Some (N.to_nat (d - 48))
        | None => None
        end
      else None
  | [] => None
  end.

Fixpoint take_digits (s : jsstring) : jsstring * jsstring :=
  match s with
  | c :: rest =>
      if is_digit c then let '(ds, tl) := take_digits rest in (c :: ds, tl)
      else ([], s)
  | [] => ([], [])
  end.

(** The group [\d+\.?\d*] at the head of [s]: the number text and what
    follows.
    The group is greedy, and giving characters back never helps the
    patterns below, which continue with a blank or a letter. *)
Definition number_at (s : jsstring) : option (jsstring * jsstring) :=
  match take_digits s with
  | ([], _) => None
  | (int, 46%N :: rest) =>
      let '(frac, tl) := take_digits rest in Some (int ++ [46%N] ++ frac, tl)
  | (int, tl) => Some (int, tl)
  end.

(** A number, [\s*], then [sq\s*ft] or [ft\^2], at the head of [s]: the
    number text. *)
Definition area_at (s : jsstring) : option jsstring :=
  match number_at s with
  | None => None
  | Some (text, rest) =>
      let unit := skip_blanks rest in
      match strip_prefix_ci (lit "sq") unit with
      | Some after_sq =>
          match strip_prefix_ci (lit "ft") (skip_blanks after_sq) with
          | Some _ => Some text
          | None => None
          end
      | None =>
          match strip_prefix_ci (lit "ft^2") unit with
          | Some _ => Some text
          | None => None
          end
      end
  end.

(** A number, then [\s*ft\s*width], at the head of [s]: the number text. *)
Definition width_at (s : jsstring) : option jsstring :=
  match number_at s with
  | None => None
  | Some (text, rest) =>
      match strip_prefix_ci (lit "ft") (skip_blanks rest) with
      | Some after_ft =>
          match strip_prefix_ci (lit "width") (skip_blanks after_ft) with
          | Some _ => Some text
          | None => None
          end
      | None => None
      end
  end.

(** [word\s*facing] at the head of [s]. *)
Definition facing_at (word : string) (s : jsstring) : option unit :=
  match strip_prefix_ci (lit word) s with
  | Some rest =>
      match strip_prefix_ci (lit "facing") (skip_blanks rest) with
      | Some _ => Some tt
      | None => None
      end
  | None => None
  end.

Definition facingMatch (content : jsstring) : option jsstring :=
  match search (facing_at "west") content with
  | Some _ => Some (lit "west")
  | None =>
      match search (facing_at "east") content with
      | Some _ => Some (lit "east")
      | None => None
      end
  end.

Definition fixed_room (id name type : jsstring) (w h : N) : Room :=
  {| room_id := id; room_name := Some (JStr name); room_type := Some type;
     room_width := Some (num_of_N w); room_height := Some (num_of_N h);
     room_x := num_of_N 0; room_y := num_of_N 0 |}.

(** [for (let i = 1; i <= n; i++) rooms.push(f i)] *)
Definition for_1_to {A} (n : nat) (f : nat -> A) : list A := map f (seq 1 n).

Definition bedroom (i : nat) : Room :=
  fixed_room (lit "bed_" ++ decimal i) (lit "Bedroom " ++ decimal i)
             (if Nat.eqb i 1 then lit "master_bedroom" else lit "bedroom") 12 10.

Definition bathroom (i : nat) : Room :=
  fixed_room (lit "bath_" ++ decimal i) (lit "Bathroom " ++ decimal i)
             (lit "bathroom") 6 6.

(** [Math.max(1, Math.round(bhk / 2))] for a one-digit [bhk]. *)
Definition bathrooms_for (bhk : nat) : nat := Nat.max 1 ((bhk + 1) / 2).

Definition watchdog_rooms (bhk : nat) : list Room :=
  [fixed_room (lit "living") (lit "Living Room") (lit "living") 10 10;
   fixed_room (lit "kitchen") (lit "Kitchen") (lit "kitchen") 8 8]
  ++ for_1_to bhk bedroom
  ++ for_1_to (bathrooms_for bhk) bathroom.

Definition watchdog_payload (content : jsstring) (plotWidth plotLength : num)
  : Payload :=
  let bhk := match search bhk_at content with Some n => n | None => 2 end in
  let area :=
    match search area_at content with
    | Some text => parse_number text
    | None => num_mul plotWidth plotLength
    end in
  let width :=
    match search width_at content with
    | Some text => parse_number text
    | None => plotWidth
    end in
  let length :=
    num_max (num_of_N 10)
            (num_div (Math_round (num_mul (num_div area width) (num_of_N 100)))
                     (num_of_N 100)) in
  {| pl_rooms := watchdog_rooms bhk;
     pl_plotWidth := width;
     pl_plotLength := length;
     pl_plotShape := lit "rectangular";
     pl_solver_type := graph;
     pl_constraints :=
       Some match facingMatch content with
            | Some f => [(lit "house_facing", f)]
            | None => []
            end |}.

(** One element of [positionedRooms]: the eight fields copied from [r]. *)
Definition positioned (r : json) : Res json :=
  match r with
  | JNull => Throws type_error
  | _ =>
      Ok (JObj (flat_map
                  (fun k => match get r (lit k) with
                            | Some v => [(lit k, v)]
                            | None => []
                            end)
                  ["id"; "name"; "type"; "x"; "y"; "width"; "height"; "color"]%string))
  end.

Fixpoint map_res {A B} (f : A -> Res B) (xs : list A) : Res (list B) :=
  match xs with
  | [] => Ok []
  | x :: rest =>
      match f x with
      | Throws m => Throws m
      | Ok y => match map_res f rest with
                | Throws m => Throws m
                | Ok ys => Ok (y :: ys)
                end
      end
  end.

(** The callback of the watchdog timer.  The timer exists only when
    [WATCHDOG_ENABLED]; [toolCallHandled] and [toolCallDetected] are the
    flags of [handleSend] at the time it fires. *)
Definition watchdog (toolCallHandled toolCallDetected : bool)
           (content : jsstring) (plotWidth plotLength : num) : Act unit :=
  if toolCallHandled || toolCallDetected then ret tt
  else
    try_catch
      (console Warn "[Watchdog] No tool call detected, triggering fallback generation" ;;;
       let payload := watchdog_payload content plotWidth plotLength in
       genRes <- do_generate payload ;;
       genRes <- (if gen_ok genRes then ret genRes
                  else console Warn "[Watchdog] Graph solver failed, retrying with constraint" ;;;
                       do_generate (with_solver payload constraint)) ;;
       genJson <- lift (gen_json genRes) ;;
       let failed : Act unit :=
         console Error "[Watchdog] Fallback generation failed" ;;;
         emit (EvToast (lit "Generation failed") true) in
       if gen_ok genRes then
         rooms <- lift (member genJson "rooms") ;;
         match rooms with
         | Some v =>
             if json_truthy v then
               positionedRooms <-
                 lift (match v with
                       | JArr items => map_res positioned items
                       | _ => Throws type_error
                       end) ;;
               emit (EvSetRooms positionedRooms) ;;;
               emit (EvToast (lit "Fallback floor plan generated") false)
             else failed
         | None => failed
         end
       else failed)
      (fun _ => console Error "[Watchdog] Exception").

(** *** One round: the requests *)

Section Turn.

Variable config : ServerLLMConfig.
Variable onToken : bool.                         (* [onToken] was passed *)
Variable tools : option (list ToolDefinition).
Variable onToolCall : bool.                      (* [onToolCall] was passed *)

Definition isOllama : bool :=
  match cfg_type config with Some ollama => true | _ => false end
  || includes (cfg_endpoint config) (lit "11434").

Definition endpoint : jsstring :=
  if isOllama then cfg_endpoint config ++ lit "/api/chat"
  else cfg_endpoint config ++ lit "/v1/chat/completions".

Definition ollamaTools : option (list OllamaTool) :=
  match tools with
  | None => None
  | Some ts =>
      Some (map (fun t =>
                   {| ot_name := td_name t;
                      ot_description :=
                        match td_description t with Some d => d | None => [] end;
                      ot_parameters :=
                        match td_parameters t with
                        | None | Some JNull =>
                            JObj [(lit "type", JStr (lit "object"));
                                  (lit "properties", JObj [])]
                        | Some p => p
                        end |}) ts)
  end.

Definition maxRounds : nat := 3.

Definition model_or (fallback : string) : jsstring :=
  text_or (cfg_model config) (lit fallback).

Definition tool_choice_of (shouldDisableToolsThisRound : bool) : jsstring :=
  if shouldDisableToolsThisRound then lit "none" else lit "auto".

(** The body of the streaming request of a round. *)
Definition stream_request (shouldDisableToolsThisRound : bool)
           (messages : list ChatMessage) : Request :=
  if isOllama then
    {| rq_url := endpoint;
       rq_model := model_or "gpt-oss:20b-cloud";
       rq_messages := messages;
       rq_stream := true;
       rq_tools :=
         if shouldDisableToolsThisRound then None
         else match ollamaTools with
              | Some (t :: more) => Some (t :: more)
              | _ => None
              end;
       rq_tool_choice := Some (tool_choice_of shouldDisableToolsThisRound);
       rq_ollama := true |}
  else
    {| rq_url := endpoint;
       rq_model := model_or "default";
       rq_messages := messages;
       rq_stream := true;
       rq_tools := None;
       rq_tool_choice := None;
       rq_ollama := false |}.

(** The body of the non-streaming request of a round. *)
Definition flat_request (shouldDisableToolsThisRound : bool)
           (messages : list ChatMessage) : Request :=
  if isOllama then
    {| rq_url := endpoint;
       rq_model := model_or "gpt-oss:20b-cloud";
       rq_messages := messages;
       rq_stream := false;
       rq_tools :=
         match ollamaTools with
         | Some ts => if negb shouldDisableToolsThisRound then Some ts else None
         | None => None
         end;
       rq_tool_choice := Some (tool_choice_of shouldDisableToolsThisRound);
       rq_ollama := true |}
  else
    {| rq_url := endpoint;
       rq_model := model_or "default";
       rq_messages := messages;
       rq_stream := false;
       rq_tools := None;
       rq_tool_choice := None;
       rq_ollama := false |}.

Definition new_round : RoundState :=
  {| encounteredToolCall := false; streamedCharsThisRound := 0; streamBuffer := [] |}.

(** From the top of the loop body to the end of the residual block: the
    streaming request, the read loop and the residual parser. *)
Definition stream_round (ts : TurnState) : Act (bool * Vars) :=
  forceDisable <- forceDisableToolsDebug ;;
  let shouldDisableToolsThisRound := haveToolResults ts || forceDisable in
  response <- do_fetch (stream_request shouldDisableToolsThisRound (rollingMessages ts)) ;;
  if negb (resp_ok response) then
    throw (lit "Server responded with " ++ decimal (resp_status response))
  else
    match resp_body response with
    | None => throw (lit "No response body")
    | Some (chunks, ending) =>
        v <- read_loop isOllama onToken onToolCall chunks ending (ts, new_round) ;;
        v <- handle_residual isOllama onToken v ;;
        ret (shouldDisableToolsThisRound, v)
    end.

Definition nudge : ChatMessage :=
  {| cm_role := assistant;
     cm_content :=
       lit "Tool execution complete. Now provide an INTERACTIVE response that includes:"
       ++ [LF] ++ lit "1. A brief summary of what was created (room count, plot size, key features)"
       ++ [LF] ++ lit "2. Vastu compliance highlights (what's good and what could be improved)"
       ++ [LF] ++ lit "3. Ask 1-2 SPECIFIC questions like: " ++ [DQUOTE]
       ++ lit "Do you prefer open or enclosed kitchen?" ++ [DQUOTE] ++ lit " or "
       ++ [DQUOTE] ++ lit "Would you like attached bathrooms?" ++ [DQUOTE]
       ++ [LF] ++ lit "4. Offer 2-3 specific suggestions: " ++ [DQUOTE]
       ++ lit "I can move the master bedroom to SW for better Vastu" ++ [DQUOTE]
       ++ lit " or " ++ [DQUOTE] ++ lit "Should I add a study room?" ++ [DQUOTE]
       ++ [LF; LF]
       ++ lit "Be conversational and engaging. Do NOT call any tools again.";
     cm_name := None |}.

Inductive RoundOutcome :=
| Continue (ts : TurnState)      (* [rounds += 1; continue] *)
| Break (ts : TurnState).        (* [break] *)

(** The text of the non-streaming reply. *)
Definition flat_content (json : Parsed) : jsstring :=
  if isOllama then residual_content json
  else text_or (p_choice_content json) [].

(** The non-streaming fallback of a round. *)
Definition flat_fallback (shouldDisableToolsThisRound : bool) (ts : TurnState)
  : Act TurnState :=
  console Warn "[ServerLLM][NoStreamData]" ;;;
  flatResponse <- do_fetch (flat_request shouldDisableToolsThisRound (rollingMessages ts)) ;;
  if resp_ok flatResponse then
    json <- lift (resp_json flatResponse) ;;
    let content := flat_content json in
    if truthy content then
      when onToken (emit (EvToken content)) ;;;
      ret (set_fullResponse ts (fullResponse ts ++ content))
    else ret ts
  else
    console Error "[ServerLLM][FallbackNonStream] Failed" ;;;
    ret ts.

(** From the end of the residual block to the end of the loop body. *)
Definition conclude_round (shouldDisableToolsThisRound : bool) (v : Vars)
  : Act RoundOutcome :=
  let '(ts, rs) := v in
  if encounteredToolCall rs then
    ret (Continue {| fullResponse := fullResponse ts;
                     rollingMessages := rollingMessages ts ++ [nudge];
                     rounds := rounds ts + 1;
                     haveToolResults := haveToolResults ts;
                     lastToolResult := lastToolResult ts |})
  else
    ts' <- (if Nat.eqb (streamedCharsThisRound rs) 0 && negb (encounteredToolCall rs)
            then flat_fallback shouldDisableToolsThisRound ts
            else ret ts) ;;
    ret (Break ts').

Definition run_round (ts : TurnState) : Act RoundOutcome :=
  ' (shouldDisableToolsThisRound, v) <- stream_round ts ;;
  conclude_round shouldDisableToolsThisRound v.

(** [while (rounds < maxRounds) { ... }].  [fuel] bounds the iterations of
    the model; [maxRounds - rounds] of it are enough
    ([rounds_loop_enough_fuel]). *)
Fixpoint rounds_loop (fuel : nat) (ts : TurnState) : Act TurnState :=
  if Nat.ltb (rounds ts) maxRounds then
    match fuel with
    | O => ret ts
    | S fuel' =>
        out <- run_round ts ;;
        match out with
        | Continue ts' => rounds_loop fuel' ts'
        | Break ts' => ret ts'
        end
    end
  else ret ts.

(** *** After the loop *)

(** [lastToolResult && typeof lastToolResult === 'object'] *)
Definition is_object (j : json) : bool :=
  match j with
  | JArr _ | JObj _ => true
  | _ => false
  end.

Definition summary_rooms (result : json) : option nat :=
  match get result (lit "rooms") with
  | Some (JArr items) => Some (List.length items)
  | _ => None
  end.

Definition summary_score (result : json) : option num :=
  match get result (lit "score") with
  | Some (JNum n) => Some (Math_round n)
  | _ => None
  end.

Definition summary_solver (result : json) : json :=
  match get result (lit "solver") with
  | Some v => if json_truthy v then v else JStr (lit "graph")
  | None => JStr (lit "graph")
  end.

(** The template literal of the synthesized summary. *)
Definition summary (result : json) : jsstring :=
  lit "Generated layout using " ++ to_string (summary_solver result)
  ++ lit " solver"
  ++ match summary_score result with
     | Some score =>
         if num_truthy score
         then lit " (score " ++ num_to_string score ++ lit ")"
         else []
     | None => []
     end
  ++ lit ". Visualized rooms"
  ++ match summary_rooms result with
     | Some (S n) => lit " (" ++ decimal (S n) ++ lit ")"
     | _ => []
     end
  ++ lit " have been updated. Summary: 1) Plot parsed and constraints applied; 2) Vastu potential mapping considered; 3) Rule-guided placement optimized; 4) Final vector output rendered.".

(** [if (!fullResponse && haveToolResults && lastToolResult && typeof
    lastToolResult === 'object') { fullResponse = ... }] *)
Definition synthesize (ts : TurnState) : TurnState :=
  match lastToolResult ts with
  | Some result =>
      if is_empty (fullResponse ts) && haveToolResults ts && is_object result
      then set_fullResponse ts (summary result)
      else ts
  | None => ts
  end.

Definition initial_state (messages : list Message) : TurnState :=
  {| fullResponse := [];
     rollingMessages :=
       map (fun m => {| cm_role := msg_role m; cm_content := msg_content m;
                        cm_name := None |}) messages;
     rounds := 0;
     haveToolResults := false;
     lastToolResult := None |}.

(** The round loop of a turn, from the initial state. *)
Definition run_turn (messages : list Message) : Act TurnState :=
  rounds_loop maxRounds (initial_state messages).

Definition generateResponse (messages : list Message) : Act jsstring :=
  emit (EvSetIsLoading true) ;;;
  emit (EvSetError None) ;;;
  finally
    (try_catch
       (ts <- run_turn messages ;;
        ret (Sanitizer.cleanThinkingContent (fullResponse (synthesize ts))))
       (fun message =>
          emit (EvSetError (Some message)) ;;;
          throw message))
    (emit (EvSetIsLoading false)).

(** * Properties *)

Unset Implicit Arguments.
Set Default Proof Using "Type".

(** ** Strings *)

Lemma trimStart_idempotent (s : jsstring) : trimStart (trimStart s) = trimStart s.
Proof.
  induction s as [|c s IH]; simpl; [reflexivity|].
  destruct (is_white_space c) eqn:Hc; [exact IH|].
  simpl. rewrite Hc. reflexivity.
Qed.

Lemma trimStart_keeps_last (l : jsstring) (c : N) :
  is_white_space c = false -> exists l', trimStart (l ++ [c]) = l' ++ [c].
Proof.
  intros Hc. induction l as [|a l IH]; simpl.
  - rewrite Hc. exists []. reflexivity.
  - destruct (is_white_space a).
    + exact IH.
    + exists (a :: l). reflexivity.
Qed.

Lemma trimEnd_keeps_head (c : N) (r : jsstring) :
  is_white_space c = false -> exists r', trimEnd (c :: r) = c :: r'.
Proof.
  intros Hc. unfold trimEnd. simpl.
  destruct (trimStart_keeps_last (rev r) c Hc) as [l' Hl'].
  rewrite Hl', rev_app_distr. simpl. eauto.
Qed.

Lemma trimEnd_idempotent (s : jsstring) : trimEnd (trimEnd s) = trimEnd s.
Proof.
  unfold trimEnd. rewrite rev_involutive, trimStart_idempotent. reflexivity.
Qed.

Lemma trim_idempotent (s : jsstring) : trim (trim s) = trim s.
Proof.
  unfold trim.
  assert (Hhead : trimStart (trimEnd (trimStart s)) = trimEnd (trimStart s)).
  { destruct (trimStart s) as [|c r] eqn:Hs; [reflexivity|].
    assert (Hc : is_white_space c = false).
    { clear -Hs. induction s as [|a s IH]; simpl in Hs; [discriminate|].
      destruct (is_white_space a) eqn:Ha; [auto|].
      injection Hs as -> _. exact Ha. }
    destruct (trimEnd_keeps_head c r Hc) as [r' Hr'].
    rewrite Hr'. simpl. rewrite Hc. reflexivity. }
  rewrite Hhead. apply trimEnd_idempotent.
Qed.

(** ** The sanitizer *)

Import Sanitizer.

Lemma strip_prefix_ci_length (p s rest : jsstring) :
  strip_prefix_ci p s = Some rest ->
  List.length s = List.length p + List.length rest.
Proof.
  revert s. induction p as [|a p IH]; intros s; cbn [strip_prefix_ci].
  - intros [= ->]. reflexivity.
  - destruct s as [|b s]; [discriminate|].
    destruct (ci_eqb a b); [|discriminate].
    intros H. apply IH in H. cbn [List.length]. lia.
Qed.

Lemma find_ci_length (p s before rest : jsstring) :
  find_ci p s = Some (before, rest) ->
  List.length s = List.length before + List.length p + List.length rest.
Proof.
  revert before. induction s as [|c s IH]; intros before; cbn [find_ci].
  - destruct (strip_prefix_ci p []) eqn:Hp; [|discriminate].
    intros [= <- <-]. apply strip_prefix_ci_length in Hp. cbn in *. lia.
  - destruct (strip_prefix_ci p (c :: s)) eqn:Hp.
    + intros [= <- <-]. apply strip_prefix_ci_length in Hp. cbn in *. lia.
    + destruct (find_ci p s) as [[b r]|]; [|discriminate].
      intros [= <- <-]. specialize (IH b eq_refl). cbn [List.length]. lia.
Qed.

(** The fuel of [remove_think] is enough: one more unit changes nothing. *)
Lemma remove_think_fuel_stable (fuel : nat) :
  forall text,
    List.length text <= fuel ->
    remove_think_fuel (S fuel) text = remove_think_fuel fuel text.
Proof.
  induction fuel as [|fuel IH]; intros text Hlen.
  - destruct text; [reflexivity | cbn in Hlen; lia].
  - cbn [remove_think_fuel].
    destruct (find_ci open_tag text) as [[before after_open]|] eqn:Hopen;
      [|reflexivity].
    destruct (find_ci close_tag after_open) as [[captured after_close]|] eqn:Hclose;
      [|reflexivity].
    f_equal. apply IH.
    apply find_ci_length in Hopen. apply find_ci_length in Hclose.
    change (List.length open_tag) with 7 in Hopen. lia.
Qed.

Lemma fallback_sentence_trimmed : trim fallback_sentence = fallback_sentence.
Proof. vm_compute. reflexivity. Qed.

(** The sanitizer maps a text that is not empty to a text that is not
    blank. *)
Lemma cleanThinkingContent_not_blank (text : jsstring) :
  text <> [] -> trim (cleanThinkingContent text) <> [].
Proof.
  intros Hne. unfold cleanThinkingContent.
  destruct text as [|c text']; [contradiction|]. cbn [is_empty].
  destruct (separate (c :: text')) as [mainContent thinkingContent].
  cbv zeta.
  match goal with
  | |- context [is_empty (trim ?r)] => set (result := r)
  end.
  destruct (is_empty (trim result)) eqn:Hblank.
  - rewrite fallback_sentence_trimmed, fallback_sentence_trimmed. discriminate.
  - rewrite trim_idempotent. intros Heq. rewrite Heq in Hblank. discriminate.
Qed.

(** C9 (amended): for every text that is not empty, [cleanThinkingContent]
    returns the fixed fallback sentence when both the reasoning content and
    the main content are empty after processing, and what it returns is
    never blank. *)
Theorem cleanThinkingContent_fallback (text : jsstring) :
  text <> [] ->
  (separate text = ([], []) -> cleanThinkingContent text = fallback_sentence)
  /\ trim (cleanThinkingContent text) <> []
  /\ cleanThinkingContent text <> [].
Proof.
  intros Hne. split; [|split].
  - intros Hsep. unfold cleanThinkingContent.
    destruct text as [|c text']; [contradiction|]. cbn [is_empty].
    rewrite Hsep. cbn. apply fallback_sentence_trimmed.
  - apply cleanThinkingContent_not_blank; assumption.
  - intros Heq. apply (cleanThinkingContent_not_blank text Hne).
    rewrite Heq. reflexivity.
Qed.

(** ** The frame decoder *)

Import Frame.

Lemma split_lines_not_nil (s : jsstring) : split_lines s <> [].
Proof.
  induction s as [|c s IH]; simpl; [discriminate|].
  destruct (c =? LF)%N; [discriminate|].
  destruct ((c =? CR)%N && _); [exact IH|].
  destruct (split_lines s); discriminate.
Qed.

(** A text without a separator is its own single segment. *)
Lemma split_lines_single (s seg : jsstring) :
  split_lines s = [seg] -> seg = s.
Proof.
  revert seg. induction s as [|c s IH]; intros seg; simpl.
  - intros [= <-]. reflexivity.
  - destruct (c =? LF)%N eqn:Hlf.
    + intros [= _ Hs]. destruct (split_lines_not_nil s Hs).
    + destruct s as [|c' s'].
      * rewrite andb_false_r. simpl. intros [= <-]. reflexivity.
      * destruct ((c =? CR)%N && (c' =? LF)%N) eqn:Hcr.
        -- apply andb_prop in Hcr as [_ Hc']. simpl. rewrite Hc'.
           intros [= _ Hs]. destruct (split_lines_not_nil s' Hs).
        -- destruct (split_lines (c' :: s')) as [|seg0 segs] eqn:Hs.
           ++ destruct (split_lines_not_nil _ Hs).
           ++ intros [= <- ->]. f_equal. apply IH. reflexivity.
Qed.

Lemma removelast_cons {A} (x : A) (l : list A) :
  l <> [] -> removelast (x :: l) = x :: removelast l.
Proof. destruct l; [contradiction|reflexivity]. Qed.

Lemma last_cons {A} (x d : A) (l : list A) :
  l <> [] -> last (x :: l) d = last l d.
Proof. destruct l; [contradiction|reflexivity]. Qed.

(** Splitting a text in two pieces: the complete segments of the first
    piece stay, its last segment is continued by the second piece. *)
Lemma split_lines_app (a r : jsstring) :
  split_lines (a ++ r)
  = removelast (split_lines a) ++ split_lines (last (split_lines a) [] ++ r).
Proof.
  induction a as [|c a IH]; [reflexivity|].
  cbn [app split_lines].
  destruct (c =? LF)%N eqn:Hlf.
  - rewrite removelast_cons, last_cons by apply split_lines_not_nil.
    rewrite IH. reflexivity.
  - destruct a as [|c' a'].
    + (* the piece is the single character [c] *)
      cbn [app]. rewrite andb_false_r. cbn [split_lines removelast last app].
      rewrite Hlf. reflexivity.
    + cbn [app] in *.
      destruct ((c =? CR)%N && (c' =? LF)%N) eqn:Hcr; [exact IH|].
      destruct (split_lines (c' :: a')) as [|seg0 segs] eqn:Hs.
      { destruct (split_lines_not_nil _ Hs). }
      rewrite IH. destruct segs as [|seg1 segs'].
      * apply split_lines_single in Hs. subst seg0.
        cbn [removelast last app split_lines].
        rewrite Hlf, Hcr. reflexivity.
      * rewrite removelast_cons by discriminate.
        rewrite (removelast_cons (c :: seg0)) by discriminate.
        rewrite !last_cons by discriminate.
        reflexivity.
Qed.

Lemma feed_app (buffer c r : jsstring) :
  feed buffer (c ++ r)
  = let '(lines1, buffer1) := feed buffer c in
    let '(lines2, buffer2) := feed buffer1 r in
    (lines1 ++ lines2, buffer2).
Proof.
  unfold feed. rewrite app_assoc, split_lines_app.
  set (pre := removelast (split_lines (buffer ++ c))).
  set (rest := split_lines (last (split_lines (buffer ++ c)) [] ++ r)).
  assert (Hrest : rest <> []) by apply split_lines_not_nil.
  rewrite removelast_app by exact Hrest.
  f_equal. clear -Hrest. induction pre as [|x pre IH]; [reflexivity|].
  cbn [app]. rewrite last_cons; [exact IH|].
  destruct pre; [exact Hrest|discriminate].
Qed.

Lemma feed_all_concat_cases (chunks : list jsstring) (buffer : jsstring) :
  feed_all buffer chunks = feed_all buffer [List.concat chunks]
  \/ chunks = [].
Proof.
  revert buffer. induction chunks as [|c rest IH]; intros buffer.
  - right. reflexivity.
  - left. cbn [feed_all List.concat].
    destruct (IH (snd (feed buffer c))) as [Heq | ->].
    + rewrite feed_app.
      destruct (feed buffer c) as [lines1 buffer1]. cbn [snd] in Heq.
      rewrite Heq. cbn [feed_all].
      destruct (feed buffer1 (List.concat rest)) as [lines2 buffer2].
      rewrite !app_nil_r. reflexivity.
    + cbn [List.concat]. rewrite app_nil_r.
      destruct (feed buffer c) as [lines1 buffer1]. reflexivity.
Qed.

(** X1: Chunk-boundary invariance of the line buffer on text: however a text is
    cut into chunks, the lines and the residual are those of the text
    delivered in one chunk. *)
Lemma feed_all_chunking (chunks : list jsstring) :
  feed_all [] chunks = feed_all [] [List.concat chunks].
Proof.
  destruct (feed_all_concat_cases chunks []) as [Heq | ->];
    [exact Heq | reflexivity].
Qed.

(** ** Computations and their events *)

Definition sat {A} (m : Act A) (P : list Event -> Res A -> Prop) : Prop :=
  forall w, P (events (m w)) (outcome (m w)).

Lemma sat_weaken {A} (m : Act A) (P Q : list Event -> Res A -> Prop) :
  sat m P -> (forall evs o, P evs o -> Q evs o) -> sat m Q.
Proof. intros Hm HPQ w. apply HPQ, Hm. Qed.

Lemma sat_ret {A} (a : A) (P : list Event -> Res A -> Prop) :
  P [] (Ok a) -> sat (ret a) P.
Proof. intros HP w. exact HP. Qed.

Lemma sat_throw {A} (message : jsstring) (P : list Event -> Res A -> Prop) :
  P [] (Throws message) -> sat (throw message) P.
Proof. intros HP w. exact HP. Qed.

Lemma sat_lift {A} (r : Res A) (P : list Event -> Res A -> Prop) :
  P [] r -> sat (lift r) P.
Proof. intros HP w. exact HP. Qed.

Lemma sat_emit (e : Event) (P : list Event -> Res unit -> Prop) :
  P [e] (Ok tt) -> sat (emit e) P.
Proof. intros HP w. exact HP. Qed.

Lemma sat_bind {A B} (m : Act A) (k : A -> Act B)
      (P : list Event -> Res A -> Prop) (Q : list Event -> Res B -> Prop) :
  sat m P ->
  (forall e1 a, P e1 (Ok a) -> sat (k a) (fun e2 o => Q (e1 ++ e2) o)) ->
  (forall e1 message, P e1 (Throws message) -> Q e1 (Throws message)) ->
  sat (bind m k) Q.
Proof.
  intros Hm Hk Hthrow w. unfold bind. specialize (Hm w).
  destruct (m w) as [[w1 e1] [a|message]]; cbn in Hm.
  - specialize (Hk e1 a Hm w1).
    destruct (k a w1) as [[w2 e2] r]. exact Hk.
  - apply Hthrow, Hm.
Qed.

Lemma sat_try_catch {A} (m : Act A) (handler : jsstring -> Act A)
      (P Q : list Event -> Res A -> Prop) :
  sat m P ->
  (forall e1 a, P e1 (Ok a) -> Q e1 (Ok a)) ->
  (forall e1 message, P e1 (Throws message) ->
                      sat (handler message) (fun e2 o => Q (e1 ++ e2) o)) ->
  sat (try_catch m handler) Q.
Proof.
  intros Hm Hok Hcatch w. unfold try_catch. specialize (Hm w).
  destruct (m w) as [[w1 e1] [a|message]]; cbn in Hm.
  - apply Hok, Hm.
  - specialize (Hcatch e1 message Hm w1).
    destruct (handler message w1) as [[w2 e2] r]. exact Hcatch.
Qed.

Lemma sat_when (b : bool) (m : Act unit) (P : list Event -> Res unit -> Prop) :
  (b = true -> sat m P) -> (b = false -> P [] (Ok tt)) -> sat (when b m) P.
Proof.
  intros Ht Hf. destruct b; [apply Ht; reflexivity|].
  apply sat_ret, Hf. reflexivity.
Qed.

(** A loop whose body keeps a relation [R] between the state before and the
    events and outcome after, when [R] is reflexive and transitive along
    the events. *)
Lemma sat_for_each {A S} (body : S -> A -> Act S) (xs : list A)
      (R : S -> list Event -> Res S -> Prop) :
  (forall s, R s [] (Ok s)) ->
  (forall s e1 s1 e2 o, R s e1 (Ok s1) -> R s1 e2 o -> R s (e1 ++ e2) o) ->
  (forall s x, sat (body s x) (R s)) ->
  forall s, sat (for_each body xs s) (R s).
Proof.
  intros Hrefl Htrans Hbody. induction xs as [|x rest IH]; intros s.
  - apply sat_ret, Hrefl.
  - cbn [for_each]. eapply sat_bind; [apply Hbody | |].
    + intros e1 s1 H1. eapply sat_weaken; [apply IH|].
      intros e2 o H2. eapply Htrans; eassumption.
    + intros e1 message H1. exact H1.
Qed.

(** ** Events of a round *)

Definition is_fetch (e : Event) : bool :=
  match e with EvFetch _ => true | _ => false end.

(** The streaming request that opens a round. *)
Definition is_stream_fetch (e : Event) : bool :=
  match e with EvFetch rq => rq_stream rq | _ => false end.

(** The non-streaming retry. *)
Definition is_flat_fetch (e : Event) : bool :=
  match e with EvFetch rq => negb (rq_stream rq) | _ => false end.

Definition is_tool_message (e : Event) : bool :=
  match e with EvToolMessage _ => true | _ => false end.

(** What executing a tool call shows: a backend request, the [onToolCall]
    callback, a tool message. *)
Definition is_dispatch (e : Event) : bool :=
  match e with
  | EvGenerate _ | EvOnToolCall _ _ | EvToolMessage _ => true
  | _ => false
  end.

Definition no_fetch (evs : list Event) : bool :=
  forallb (fun e => negb (is_fetch e)) evs.

Definition has_tool_message (evs : list Event) : bool :=
  existsb is_tool_message evs.

Definition no_dispatch (evs : list Event) : bool :=
  forallb (fun e => negb (is_dispatch e)) evs.

Lemma no_fetch_app (a b : list Event) :
  no_fetch (a ++ b) = no_fetch a && no_fetch b.
Proof. apply forallb_app. Qed.

Lemma has_tool_message_app (a b : list Event) :
  has_tool_message (a ++ b) = has_tool_message a || has_tool_message b.
Proof. apply existsb_app. Qed.

Lemma no_dispatch_app (a b : list Event) :
  no_dispatch (a ++ b) = no_dispatch a && no_dispatch b.
Proof. apply forallb_app. Qed.

Ltac unfold_act :=
  cbv beta delta [sat events outcome world bind ret throw lift emit when
                  try_catch finally console do_generate do_fetch
                  forceDisableToolsDebug fst snd] in *.

Ltac run_act :=
  cbv beta iota zeta delta [sat events outcome world bind ret throw lift emit
                            when try_catch finally console do_generate do_fetch
                            forceDisableToolsDebug fst snd] in *.

(** The backend call of the tool never throws and asks nothing of the
    model. *)
Lemma execute_generate_spec (args : json) :
  sat (execute_generate args)
      (fun evs o => no_fetch evs = true /\ has_tool_message evs = false
                    /\ exists result, o = Ok result).
Proof.
  intros w. unfold execute_generate. unfold_act.
  destruct (fetch_backend w (layout_payload args)) as [w1 [genRes|m1]];
    [|cbn; eauto].
  destruct (gen_ok genRes).
  - destruct (gen_json genRes) as [[]|]; cbn; eauto.
  - destruct (fetch_backend w1 _) as [w2 [genRes2|m2]]; [|cbn; eauto].
    destruct (gen_json genRes2) as [[]|]; cbn; eauto.
Qed.

(** What handling one tool call keeps. *)
Definition tool_post (ts : TurnState) (evs : list Event) (o : Res TurnState)
  : Prop :=
  no_fetch evs = true /\
  match o with
  | Ok ts' =>
      rounds ts' = rounds ts
      /\ (haveToolResults ts = true -> haveToolResults ts' = true)
      /\ (has_tool_message evs = true -> haveToolResults ts' = true)
  | Throws _ => False
  end.

Lemma tool_post_refl (ts : TurnState) : tool_post ts [] (Ok ts).
Proof. repeat split; auto. discriminate. Qed.

Lemma tool_post_trans ts e1 ts1 e2 o :
  tool_post ts e1 (Ok ts1) -> tool_post ts1 e2 o -> tool_post ts (e1 ++ e2) o.
Proof.
  intros (Hq1 & Hr1 & Hm1 & Ht1) (Hq2 & H2). split.
  - rewrite no_fetch_app, Hq1, Hq2. reflexivity.
  - destruct o as [ts2|]; [|exact H2].
    destruct H2 as (Hr2 & Hm2 & Ht2). repeat split.
    + congruence.
    + auto.
    + rewrite has_tool_message_app. intros H.
      apply orb_true_iff in H as [H|H]; auto.
Qed.

Lemma handle_tool_call_spec (ts : TurnState) (toolCall : ToolCall) :
  sat (handle_tool_call onToolCall ts toolCall) (tool_post ts).
Proof.
  intros w. unfold handle_tool_call. unfold_act.
  destruct (resolve_args toolCall) as [args|m]; [|apply tool_post_refl].
  destruct (function_name toolCall) as [name|m]; [|apply tool_post_refl].
  destruct (str_eqb name (lit "generate_layout_hybrid")).
  - pose proof (execute_generate_spec args w) as (Hq & Ht & result & Ho).
    unfold_act.
    destruct (execute_generate args w) as [[w1 e1] o1].
    cbn in Hq, Ht, Ho. subst o1.
    destruct onToolCall; cbn; (split; [|repeat split; auto]);
      rewrite ?no_fetch_app, ?Hq; reflexivity.
  - destruct onToolCall; cbn; repeat split; auto.
Qed.

Lemma for_each_tool_call_spec (calls : list ToolCall) (ts : TurnState) :
  sat (for_each (handle_tool_call onToolCall) calls ts) (tool_post ts).
Proof.
  apply sat_for_each.
  - apply tool_post_refl.
  - apply tool_post_trans.
  - apply handle_tool_call_spec.
Qed.

(** What the stream of a round keeps, between the variables [v] before a
    step and the events and outcome after it: no request to the model is
    issued; a tool message is pushed only in the Ollama dialect, and it
    sets [haveToolResults] and [encounteredToolCall]; both flags only ever
    go up; [rounds] stays; [rollingMessages] stays as long as no tool call
    was met. *)
Definition stream_post (v : Vars) (evs : list Event) (o : Res Vars) : Prop :=
  no_fetch evs = true /\
  (has_tool_message evs = true -> isOllama = true) /\
  match o with
  | Ok v' =>
      rounds (fst v') = rounds (fst v)
      /\ (haveToolResults (fst v) = true -> haveToolResults (fst v') = true)
      /\ (encounteredToolCall (snd v) = true -> encounteredToolCall (snd v') = true)
      /\ (has_tool_message evs = true ->
          haveToolResults (fst v') = true /\ encounteredToolCall (snd v') = true)
      /\ (encounteredToolCall (snd v') = false ->
          rollingMessages (fst v') = rollingMessages (fst v))
  | Throws _ => True
  end.

Lemma stream_post_refl (v : Vars) : stream_post v [] (Ok v).
Proof. repeat split; auto; discriminate. Qed.

Lemma stream_post_trans v e1 v1 e2 o :
  stream_post v e1 (Ok v1) -> stream_post v1 e2 o -> stream_post v (e1 ++ e2) o.
Proof.
  intros (Hq1 & Ho1 & Hr1 & Hh1 & He1 & Ht1 & Hm1) (Hq2 & Ho2 & H2).
  split; [|split].
  - rewrite no_fetch_app, Hq1, Hq2. reflexivity.
  - rewrite has_tool_message_app. intros H.
    apply orb_true_iff in H as [H|H]; auto.
  - destruct o as [v2|]; [|exact I].
    destruct H2 as (Hr2 & Hh2 & He2 & Ht2 & Hm2). repeat split.
    + congruence.
    + auto.
    + auto.
    + rewrite has_tool_message_app in H.
      apply orb_true_iff in H as [H|H]; [apply Hh2, Ht1, H | apply Ht2, H].
    + rewrite has_tool_message_app in H.
      apply orb_true_iff in H as [H|H]; [apply He2, Ht1, H | apply Ht2, H].
    + intros Hno. rewrite Hm2 by exact Hno. apply Hm1.
      destruct (encounteredToolCall (snd v1)) eqn:Hv1; [|reflexivity].
      rewrite He2 in Hno by reflexivity. discriminate.
Qed.

Lemma deliver_spec (content : jsstring) (v : Vars) :
  sat (deliver onToken content v) (stream_post v).
Proof.
  intros w. destruct v as [ts rs]. unfold deliver. unfold_act.
  destruct (truthy content); [|apply stream_post_refl].
  destruct onToken; cbn; repeat split; auto; discriminate.
Qed.

Lemma handle_line_ollama_spec (v : Vars) (line : jsstring) :
  isOllama = true ->
  sat (handle_line_ollama onToken onToolCall v line) (stream_post v).
Proof.
  intros Hollama. unfold handle_line_ollama.
  destruct (parse_record line) as [parsed|]; [|apply sat_ret, stream_post_refl].
  eapply sat_bind; [apply deliver_spec | | intros; assumption].
  intros e1 [ts1 rs1] H1.
  eapply sat_weaken with (P := stream_post (ts1, rs1));
    [|intros e2 o H2; eapply stream_post_trans; eassumption].
  clear H1 v. eapply sat_bind with (P := stream_post (ts1, rs1));
    [| |intros; assumption].
  - destruct (tool_calls_of parsed) as [[|toolCall more]|];
      try apply sat_ret, stream_post_refl.
    eapply sat_bind; [apply for_each_tool_call_spec | |].
    + intros e ts' (Hq & Hr & Hh & Ht). apply sat_ret.
      rewrite app_nil_r. cbn. repeat split; auto. discriminate.
    + intros e message (_ & []).
  - intros e2 [ts2 rs2] H2. eapply sat_bind.
    + apply sat_when with (P := fun evs o => no_fetch evs = true
                                  /\ has_tool_message evs = false /\ o = Ok tt).
      * intros _. apply sat_emit. repeat split.
      * intros _. repeat split.
    + intros e3 [] (Hq3 & Ht3 & _). apply sat_ret.
      rewrite app_nil_r.
      replace (e2 ++ e3) with (e2 ++ e3 ++ []) by (rewrite app_nil_r; reflexivity).
      eapply stream_post_trans; [exact H2|].
      rewrite app_nil_r. unfold stream_post.
      rewrite Hq3, Ht3. repeat split; auto; discriminate.
    + intros e3 message (_ & _ & Hf). discriminate.
Qed.

Lemma handle_line_sse_spec (v : Vars) (line : jsstring) :
  sat (handle_line_sse onToken v line)
      (fun evs o => stream_post v evs o /\ has_tool_message evs = false).
Proof.
  unfold handle_line_sse.
  assert (Hret : sat (ret v : Act Vars)
                     (fun evs o => stream_post v evs o /\ has_tool_message evs = false)).
  { apply sat_ret. split; [apply stream_post_refl | reflexivity]. }
  destruct (strip_prefix _ line) as [data|]; [|exact Hret].
  destruct (str_eqb data _); [exact Hret|].
  destruct (parse_record data) as [parsed|]; [|exact Hret].
  intros w. split; [apply deliver_spec|].
  destruct v as [ts rs]. unfold deliver. unfold_act.
  destruct (truthy _); [|reflexivity].
  destruct onToken; reflexivity.
Qed.

Lemma handle_line_spec (v : Vars) (line : jsstring) :
  sat (handle_line isOllama onToken onToolCall v line) (stream_post v).
Proof.
  unfold handle_line. destruct isOllama eqn:Hollama.
  - intros w. pose proof (handle_line_ollama_spec v line) as H.
    rewrite Hollama in H. exact (H eq_refl w).
  - eapply sat_weaken; [apply handle_line_sse_spec|].
    intros evs o [(Hq & _ & Ho) Ht]. split; [exact Hq|]. split.
    + rewrite Ht. discriminate.
    + exact Ho.
Qed.

Lemma read_loop_spec (chunks : list (list byte)) (ending : StreamEnd) (v : Vars) :
  sat (read_loop isOllama onToken onToolCall chunks ending v)
      (fun evs o => stream_post (fst v, set_streamBuffer (snd v) []) evs o).
Proof.
  revert v. induction chunks as [|value rest IH]; intros [ts rs].
  - cbn [read_loop]. destruct ending.
    + apply sat_ret. repeat split; auto; discriminate.
    + apply sat_throw. repeat split; auto; discriminate.
  - cbn [read_loop].
    destruct (Frame.feed (streamBuffer rs) (Frame.decode value)) as [segments buffer].
    eapply sat_bind.
    + apply (sat_for_each (handle_line isOllama onToken onToolCall) segments
                          stream_post stream_post_refl stream_post_trans).
      intros v0 line. apply handle_line_spec.
    + intros e1 v1 H1. eapply sat_weaken; [apply IH|].
      intros e2 o H2. cbn [fst snd] in *.
      assert (H1' : stream_post (ts, set_streamBuffer rs []) e1
                                (Ok (fst v1, set_streamBuffer (snd v1) []))).
      { destruct H1 as (Hq & Ho & H). repeat split; auto; apply H; auto. }
      eapply stream_post_trans; eassumption.
    + intros e1 message (Hq & Ho & _). repeat split; auto.
Qed.

Lemma for_each_inspect_spec (calls : list ToolCall) :
  sat (for_each inspect_residual_call calls tt)
      (fun evs o => evs = [] /\ o = Ok tt).
Proof.
  induction calls as [|toolCall more IH].
  - apply sat_ret. split; reflexivity.
  - cbn [for_each]. eapply sat_bind with (P := fun evs o => evs = [] /\ o = Ok tt).
    + intros w. unfold inspect_residual_call. unfold_act.
      destruct (resolve_args toolCall); split; reflexivity.
    + intros e1 [] [-> _]. exact IH.
    + intros e1 message [_ H]. discriminate.
Qed.

(** The residual parser never throws, and executes no tool call. *)
Lemma handle_residual_spec (v : Vars) :
  sat (handle_residual isOllama onToken v)
      (fun evs o =>
         no_fetch evs = true /\ no_dispatch evs = true /\
         exists v',
           o = Ok v'
           /\ rounds (fst v') = rounds (fst v)
           /\ rollingMessages (fst v') = rollingMessages (fst v)
           /\ haveToolResults (fst v') = haveToolResults (fst v)
           /\ lastToolResult (fst v') = lastToolResult (fst v)
           /\ (encounteredToolCall (snd v) = true ->
               encounteredToolCall (snd v') = true)).
Proof.
  assert (Hdeliver : forall content v0,
             sat (deliver onToken content v0)
                 (fun evs o =>
                    no_fetch evs = true /\ no_dispatch evs = true /\
                    exists v',
                      o = Ok v'
                      /\ rounds (fst v') = rounds (fst v0)
                      /\ rollingMessages (fst v') = rollingMessages (fst v0)
                      /\ haveToolResults (fst v') = haveToolResults (fst v0)
                      /\ lastToolResult (fst v') = lastToolResult (fst v0)
                      /\ encounteredToolCall (snd v') = encounteredToolCall (snd v0))).
  { intros content [ts0 rs0] w. unfold deliver. unfold_act.
    destruct (truthy content); [destruct onToken|]; cbn;
      repeat split; eexists; repeat split. }
  assert (Hret : sat (ret v : Act Vars)
             (fun evs o =>
                no_fetch evs = true /\ no_dispatch evs = true /\
                exists v',
                  o = Ok v'
                  /\ rounds (fst v') = rounds (fst v)
                  /\ rollingMessages (fst v') = rollingMessages (fst v)
                  /\ haveToolResults (fst v') = haveToolResults (fst v)
                  /\ lastToolResult (fst v') = lastToolResult (fst v)
                  /\ (encounteredToolCall (snd v) = true ->
                      encounteredToolCall (snd v') = true))).
  { apply sat_ret. repeat split. exists v. repeat split; auto. }
  assert (Hweak : forall content,
             sat (deliver onToken content v)
                 (fun evs o =>
                    no_fetch evs = true /\ no_dispatch evs = true /\
                    exists v',
                      o = Ok v'
                      /\ rounds (fst v') = rounds (fst v)
                      /\ rollingMessages (fst v') = rollingMessages (fst v)
                      /\ haveToolResults (fst v') = haveToolResults (fst v)
                      /\ lastToolResult (fst v') = lastToolResult (fst v)
                      /\ (encounteredToolCall (snd v) = true ->
                          encounteredToolCall (snd v') = true))).
  { intros content. eapply sat_weaken; [apply Hdeliver|].
    intros evs o (Hq & Hd & v' & -> & Hr & Hm & Hh & Hl & He).
    repeat split; auto. exists v'. repeat split; auto. congruence. }
  unfold handle_residual. destruct v as [ts rs].
  destruct (Frame.has_residual (streamBuffer rs)); [|exact Hret].
  destruct isOllama.
  - destruct (parse_record (streamBuffer rs)) as [parsed|]; [|exact Hret].
    eapply sat_bind; [apply Hdeliver | |].
    + intros e1 [ts1 rs1] (Hq & Hd & v' & [= <-] & Hr & Hm & Hh & Hl & He).
      cbn [fst snd] in *.
      destruct (tool_calls_of parsed) as [[|toolCall more]|].
      * apply sat_ret. rewrite app_nil_r. repeat split; auto.
        exists (ts1, rs1). repeat split; auto. cbn. congruence.
      * eapply sat_bind; [apply for_each_inspect_spec | |].
        -- intros e2 [] [-> _]. apply sat_ret. rewrite !app_nil_r.
           repeat split; auto. exists (ts1, set_encountered rs1).
           repeat split; auto.
        -- intros e2 message [_ H]. discriminate.
      * apply sat_ret. rewrite app_nil_r. repeat split; auto.
        exists (ts1, rs1). repeat split; auto. cbn. congruence.
    + intros e1 message (_ & _ & v' & H & _). discriminate.
  - destruct (strip_prefix _ _) as [data|]; [|exact Hret].
    destruct (str_eqb data _); [exact Hret|].
    destruct (parse_record data); [apply Hweak | exact Hret].
Qed.

Lemma no_dispatch_no_tool_message (evs : list Event) :
  no_dispatch evs = true -> has_tool_message evs = false.
Proof.
  unfold no_dispatch, has_tool_message.
  induction evs as [|e evs IH]; cbn [forallb existsb]; intros H;
    [reflexivity|].
  apply andb_prop in H as [He Hevs].
  rewrite (IH Hevs). destruct e; try reflexivity; discriminate.
Qed.

Lemma stream_request_streams sd messages :
  rq_stream (stream_request sd messages) = true.
Proof. unfold stream_request. destruct isOllama; reflexivity. Qed.

Lemma flat_request_flat sd messages :
  rq_stream (flat_request sd messages) = false.
Proof. unfold flat_request. destruct isOllama; reflexivity. Qed.

(** The shape of the first phase of a round: the streaming request, then
    events that are no request to the model. *)
Lemma stream_round_spec (ts : TurnState) (w : W) :
  let sd := haveToolResults ts || llm_disable_tools w in
  exists mid,
    events (stream_round ts w)
    = EvFetch (stream_request sd (rollingMessages ts)) :: mid
    /\ match outcome (stream_round ts w) with
       | Ok (sd', v') => sd' = sd /\ stream_post (ts, new_round) mid (Ok v')
       | Throws message => stream_post (ts, new_round) mid (Throws message)
       end.
Proof.
  intros sd. subst sd. unfold stream_round. run_act.
  destruct (fetch_llm w _) as [w1 [response|message]]; cbv beta iota zeta.
  2:{ exists []. split; [reflexivity|]. repeat split; auto; discriminate. }
  destruct (resp_ok response); cbv beta iota zeta delta [negb].
  2:{ exists []. split; [reflexivity|]. repeat split; auto; discriminate. }
  destruct (resp_body response) as [[chunks ending]|]; cbv beta iota zeta.
  2:{ exists []. split; [reflexivity|]. repeat split; auto; discriminate. }
  pose proof (read_loop_spec chunks ending (ts, new_round) w1) as Hread.
  unfold_act.
  destruct (read_loop isOllama onToken onToolCall chunks ending (ts, new_round) w1)
    as [[w2 e2] [v2|message]]; cbv beta iota zeta in *.
  2:{ exists e2. split; [reflexivity|]. exact Hread. }
  pose proof (handle_residual_spec v2 w2) as (Hq & Hd & v3 & Ho & Hr & Hm & Hh & Hl & He).
  unfold_act.
  destruct (handle_residual isOllama onToken v2 w2) as [[w3 e3] o3];
    cbv beta iota zeta in *.
  subst o3. exists (e2 ++ e3 ++ []). split; [reflexivity|]. split; [reflexivity|].
  rewrite app_nil_r. eapply stream_post_trans; [exact Hread|].
  pose proof (no_dispatch_no_tool_message e3 Hd) as Ht.
  destruct v2 as [ts2 rs2], v3 as [ts3 rs3].
  unfold stream_post. cbn [fst snd]. rewrite Hq, Ht.
  repeat split; try discriminate; try congruence. exact He.
Qed.

Lemma run_round_unfold (ts : TurnState) (w : W) :
  run_round ts w
  = match stream_round ts w with
    | (w1, e1, Ok (sd, v)) =>
        (world (conclude_round sd v w1),
         e1 ++ events (conclude_round sd v w1),
         outcome (conclude_round sd v w1))
    | (w1, e1, Throws message) => (w1, e1, Throws message)
    end.
Proof.
  unfold run_round, bind.
  destruct (stream_round ts w) as [[w1 e1] [[sd v]|message]]; [|reflexivity].
  destruct (conclude_round sd v w1) as [[w2 e2] o]. reflexivity.
Qed.

(** The second phase of a round: either nothing, or the warning and the
    non-streaming request, followed by events that are neither a request
    nor a tool message. *)
Lemma conclude_round_spec (sd : bool) (ts : TurnState) (rs : RoundState) (w : W) :
  let r := conclude_round sd (ts, rs) w in
  (if encounteredToolCall rs
   then events r = []
        /\ exists ts', outcome r = Ok (Continue ts')
                       /\ rounds ts' = S (rounds ts)
                       /\ haveToolResults ts' = haveToolResults ts
                       /\ lastToolResult ts' = lastToolResult ts
                       /\ fullResponse ts' = fullResponse ts
   else
     (if Nat.eqb (streamedCharsThisRound rs) 0
      then exists post,
          events r = EvConsole Warn (lit "[ServerLLM][NoStreamData]")
                       :: EvFetch (flat_request sd (rollingMessages ts)) :: post
          /\ no_fetch post = true /\ has_tool_message post = false
      else events r = [])
     /\ match outcome r with
        | Ok (Break ts') =>
            rounds ts' = rounds ts
            /\ haveToolResults ts' = haveToolResults ts
            /\ lastToolResult ts' = lastToolResult ts
        | Ok (Continue _) => False
        | Throws _ => Nat.eqb (streamedCharsThisRound rs) 0 = true
        end).
Proof.
  cbv zeta. unfold conclude_round.
  destruct (encounteredToolCall rs).
  - split; [reflexivity|]. eexists. split; [reflexivity|].
    cbn. repeat split. lia.
  - rewrite andb_true_r.
    destruct (Nat.eqb (streamedCharsThisRound rs) 0).
    + unfold flat_fallback. run_act.
      destruct (fetch_llm w (flat_request sd (rollingMessages ts)))
        as [w1 [flatResponse|message]]; cbv beta iota zeta.
      2:{ split; [|reflexivity]. exists []. repeat split. }
      destruct (resp_ok flatResponse); cbv beta iota zeta.
      * destruct (resp_json flatResponse) as [json|message]; cbv beta iota zeta.
        2:{ split; [|reflexivity]. exists []. repeat split. }
        destruct (truthy (flat_content json)); cbv beta iota zeta.
        -- destruct onToken; cbn; (split; [eexists; repeat split|repeat split]).
        -- cbn. split; [exists []; repeat split|repeat split].
      * cbn. split; [eexists; repeat split|repeat split].
    + cbn. repeat split.
Qed.

(** The events of a whole round: the streaming request, the events of the
    stream, and then either nothing or the non-streaming retry, which is
    there only when the stream pushed no tool message. *)
Lemma run_round_shape (ts : TurnState) (w : W) :
  let sd := haveToolResults ts || llm_disable_tools w in
  exists mid tail,
    events (run_round ts w)
    = EvFetch (stream_request sd (rollingMessages ts)) :: mid ++ tail
    /\ no_fetch mid = true
    /\ (has_tool_message mid = true -> isOllama = true)
    /\ (tail = []
        \/ (has_tool_message mid = false
            /\ exists post,
                tail = EvConsole Warn (lit "[ServerLLM][NoStreamData]")
                         :: EvFetch (flat_request sd (rollingMessages ts)) :: post
                /\ no_fetch post = true /\ has_tool_message post = false))
    /\ match outcome (run_round ts w) with
       | Ok (Continue ts') =>
           tail = [] /\ rounds ts' = S (rounds ts)
           /\ (haveToolResults ts = true -> haveToolResults ts' = true)
           /\ (has_tool_message mid = true -> haveToolResults ts' = true)
       | Ok (Break ts') =>
           rounds ts' = rounds ts /\ has_tool_message mid = false
           /\ (haveToolResults ts = true -> haveToolResults ts' = true)
       | Throws _ => True
       end.
Proof.
  intros sd. rewrite run_round_unfold.
  destruct (stream_round_spec ts w) as (mid & Hev & Hout). fold sd in Hev, Hout.
  destruct (stream_round ts w) as [[w1 e1] [[sd' [ts1 rs1]]|message]];
    cbn [events outcome fst snd] in *.
  2:{ destruct Hout as (Hq & Ho & _). exists mid, [].
      rewrite app_nil_r. repeat split; auto. }
  destruct Hout as (-> & Hq & Ho & Hr & Hh & _ & Ht & Hm). cbn [fst snd] in *.
  pose proof (conclude_round_spec sd ts1 rs1 w1) as Hc. cbv zeta in Hc.
  destruct (conclude_round sd (ts1, rs1) w1) as [[w2 e2] o2].
  cbn [events outcome world fst snd] in *. subst e1.
  exists mid, e2. split; [reflexivity|]. split; [exact Hq|]. split; [exact Ho|].
  destruct (encounteredToolCall rs1) eqn:Henc.
  - destruct Hc as (-> & ts' & -> & Hr' & Hh' & _). split; [left; reflexivity|].
    repeat split; try congruence.
    + intros H. rewrite Hh'. auto.
    + intros H. rewrite Hh'. apply Ht, H.
  - assert (Hnt : has_tool_message mid = false).
    { destruct (has_tool_message mid); [|reflexivity].
      destruct (Ht eq_refl) as [_ H]. discriminate. }
    destruct Hc as (Hev2 & Ho2). split.
    + destruct (Nat.eqb (streamedCharsThisRound rs1) 0).
      * right. split; [exact Hnt|]. destruct Hev2 as (post & -> & Hp).
        exists post. rewrite <- (Hm eq_refl). split; [reflexivity|exact Hp].
      * left. exact Hev2.
    + destruct o2 as [[ts'|ts']|message]; [destruct Ho2 | | exact I].
      destruct Ho2 as (Hr' & Hh' & _). repeat split; try congruence.
      intros H. rewrite Hh'. auto.
Qed.

Definition count (f : Event -> bool) (evs : list Event) : nat :=
  List.length (filter f evs).

Lemma count_app f a b : count f (a ++ b) = count f a + count f b.
Proof. unfold count. rewrite filter_app, length_app. reflexivity. Qed.

Lemma count_no_fetch_stream evs :
  no_fetch evs = true -> count is_stream_fetch evs = 0.
Proof.
  unfold no_fetch, count. induction evs as [|e evs IH]; [reflexivity|].
  cbn [forallb filter]. intros H. apply andb_prop in H as [He Hevs].
  destruct e; cbn in *; try discriminate; auto.
Qed.

Lemma count_no_fetch_flat evs :
  no_fetch evs = true -> count is_flat_fetch evs = 0.
Proof.
  unfold no_fetch, count. induction evs as [|e evs IH]; [reflexivity|].
  cbn [forallb filter]. intros H. apply andb_prop in H as [He Hevs].
  destruct e; cbn in *; try discriminate; auto.
Qed.

(** Every round issues exactly one streaming request. *)
Lemma run_round_one_stream_fetch (ts : TurnState) (w : W) :
  count is_stream_fetch (events (run_round ts w)) = 1.
Proof.
  destruct (run_round_shape ts w) as (mid & tail & -> & Hq & _ & Htail & _).
  change (?e :: mid ++ tail) with ([e] ++ mid ++ tail).
  rewrite !count_app, (count_no_fetch_stream mid Hq).
  unfold count at 1. cbn [filter is_stream_fetch].
  rewrite stream_request_streams. cbn [List.length].
  destruct Htail as [-> | (_ & post & -> & Hp & _)]; [reflexivity|].
  unfold count. cbn [filter is_stream_fetch].
  rewrite flat_request_flat.
  fold (count is_stream_fetch post). rewrite (count_no_fetch_stream post Hp).
  reflexivity.
Qed.

Lemma rounds_loop_unfold (fuel : nat) (ts : TurnState) :
  rounds_loop fuel ts
  = if Nat.ltb (rounds ts) maxRounds then
      match fuel with
      | O => ret ts
      | S fuel' =>
          bind (run_round ts)
               (fun out => match out with
                           | Continue ts' => rounds_loop fuel' ts'
                           | Break ts' => ret ts'
                           end)
      end
    else ret ts.
Proof. destruct fuel; reflexivity. Qed.

(** The streaming requests of the loop are bounded by what is left of the
    round budget; the bound comes from the counter, not from the fuel. *)
Lemma rounds_loop_stream_fetches (fuel : nat) :
  forall ts w,
    count is_stream_fetch (events (rounds_loop fuel ts w))
    <= maxRounds - rounds ts.
Proof.
  induction fuel as [|fuel IH]; intros ts w; rewrite rounds_loop_unfold;
    destruct (Nat.ltb (rounds ts) maxRounds) eqn:Hlt;
    try (cbn; lia).
  apply Nat.ltb_lt in Hlt. unfold bind.
  pose proof (run_round_one_stream_fetch ts w) as Hone.
  pose proof (run_round_shape ts w) as (mid & tail & _ & _ & _ & _ & Hout).
  destruct (run_round ts w) as [[w1 e1] [[ts'|ts']|message]];
    cbn [events outcome fst snd] in *.
  - destruct Hout as (_ & Hr & _). specialize (IH ts' w1).
    destruct (rounds_loop fuel ts' w1) as [[w2 e2] o2].
    cbn [events fst snd] in *. rewrite count_app. lia.
  - unfold ret. cbn [events fst snd]. rewrite count_app, Hone.
    change (count is_stream_fetch []) with 0. lia.
  - lia.
Qed.

(** [maxRounds - rounds] units of fuel are enough: more fuel changes
    nothing. *)
Lemma rounds_loop_enough_fuel (fuel : nat) :
  forall ts w,
    maxRounds - rounds ts <= fuel ->
    rounds_loop (S fuel) ts w = rounds_loop fuel ts w.
Proof.
  induction fuel as [|fuel IH]; intros ts w Hfuel.
  - rewrite !rounds_loop_unfold.
    destruct (Nat.ltb (rounds ts) maxRounds) eqn:Hlt; [|reflexivity].
    apply Nat.ltb_lt in Hlt. lia.
  - rewrite (rounds_loop_unfold (S (S fuel))), (rounds_loop_unfold (S fuel)).
    destruct (Nat.ltb (rounds ts) maxRounds) eqn:Hlt; [|reflexivity].
    unfold bind.
    pose proof (run_round_shape ts w) as (mid & tail & _ & _ & _ & _ & Hout).
    destruct (run_round ts w) as [[w1 e1] [[ts'|ts']|message]];
      cbn [outcome snd] in *; try reflexivity.
    destruct Hout as (_ & Hr & _).
    rewrite IH by lia. reflexivity.
Qed.

(** [generateResponse] in terms of the round loop. *)
Lemma generateResponse_run (messages : list Message) (w : W) :
  generateResponse messages w
  = match run_turn messages w with
    | (w', evs, Ok ts) =>
        (w',
         EvSetIsLoading true :: EvSetError None :: evs ++ [EvSetIsLoading false],
         Ok (cleanThinkingContent (fullResponse (synthesize ts))))
    | (w', evs, Throws message) =>
        (w',
         EvSetIsLoading true :: EvSetError None
           :: evs ++ [EvSetError (Some message); EvSetIsLoading false],
         Throws message)
    end.
Proof.
  unfold generateResponse. run_act.
  destruct (run_turn messages w) as [[w' evs] [ts|message]]; cbn.
  - rewrite !app_nil_r. reflexivity.
  - rewrite <- app_assoc. reflexivity.
Qed.

Lemma generateResponse_events (messages : list Message) (w : W) :
  exists tail,
    events (generateResponse messages w)
    = [EvSetIsLoading true; EvSetError None]
        ++ events (run_turn messages w) ++ tail
    /\ no_fetch tail = true /\ has_tool_message tail = false.
Proof.
  rewrite generateResponse_run.
  destruct (run_turn messages w) as [[w' evs] [ts|message]];
    eexists; cbn [events fst snd app]; repeat split.
Qed.

(** ** Properties of the round loop *)

(** C2: a turn executes at most 3 rounds, each round opening with its
    streaming request; the round counter goes up exactly when the round met
    a tool call; the loop stops as soon as the counter has reached 3; and
    the bound is the counter's, the fuel of the model does not cut the loop
    short. *)
Theorem generateResponse_at_most_three_rounds :
  (forall messages w,
      count is_stream_fetch (events (generateResponse messages w)) <= 3)
  /\ (forall ts w, count is_stream_fetch (events (run_round ts w)) = 1)
  /\ (forall sd ts rs w,
         match outcome (conclude_round sd (ts, rs) w) with
         | Ok (Continue ts') =>
             encounteredToolCall rs = true /\ rounds ts' = S (rounds ts)
         | Ok (Break ts') =>
             encounteredToolCall rs = false /\ rounds ts' = rounds ts
         | Throws _ => encounteredToolCall rs = false
         end)
  /\ (forall fuel ts w,
         maxRounds <= rounds ts -> rounds_loop fuel ts w = (w, [], Ok ts))
  /\ (forall messages w extra,
         rounds_loop (maxRounds + extra) (initial_state messages) w
         = run_turn messages w).
Proof.
  split; [|split; [|split; [|split]]].
  - intros messages w.
    destruct (generateResponse_events messages w) as (tail & -> & Hq & _).
    rewrite !count_app, (count_no_fetch_stream tail Hq).
    pose proof (rounds_loop_stream_fetches maxRounds (initial_state messages) w) as H.
    unfold run_turn. cbn in H |- *. lia.
  - apply run_round_one_stream_fetch.
  - intros sd ts rs w.
    pose proof (conclude_round_spec sd ts rs w) as H. cbv zeta in H.
    destruct (encounteredToolCall rs).
    + destruct H as (_ & ts' & -> & Hr & _). split; [reflexivity|exact Hr].
    + destruct H as (_ & H).
      destruct (outcome (conclude_round sd (ts, rs) w)) as [[ts'|ts']|message];
        [destruct H | | reflexivity].
      split; [reflexivity|apply H].
  - intros fuel ts w Hle. rewrite rounds_loop_unfold.
    destruct (Nat.ltb (rounds ts) maxRounds) eqn:Hlt; [|reflexivity].
    apply Nat.ltb_lt in Hlt. lia.
  - intros messages w extra. unfold run_turn.
    induction extra as [|extra IH]; [rewrite Nat.add_0_r; reflexivity|].
    rewrite Nat.add_succ_r, rounds_loop_enough_fuel; [exact IH|].
    cbn. lia.
Qed.

(** The request offers no tools: the tool list is omitted and the tool
    choice is ['none']. *)
Definition tools_disabled (rq : Request) : Prop :=
  rq_tools rq = None /\ rq_tool_choice rq = Some (lit "none").

Definition fetch_disabled (e : Event) : Prop :=
  match e with
  | EvFetch rq => tools_disabled rq
  | _ => True
  end.

(** A trace in which every request to the model that comes after a tool
    message offers no tools; [seen] tells whether a tool message came
    before the trace. *)
Fixpoint good (seen : bool) (evs : list Event) : Prop :=
  match evs with
  | [] => True
  | e :: rest =>
      (seen = true -> fetch_disabled e) /\ good (seen || is_tool_message e) rest
  end.

Lemma good_app (seen : bool) (a b : list Event) :
  good seen (a ++ b) <-> good seen a /\ good (seen || has_tool_message a) b.
Proof.
  revert seen. induction a as [|e a IH]; intros seen; cbn [app good].
  - cbn [has_tool_message existsb]. rewrite orb_false_r.
    split; [intros H; split; [exact I | exact H] | intros [_ H]; exact H].
  - rewrite IH. cbn [has_tool_message existsb]. fold (has_tool_message a).
    rewrite orb_assoc.
    split; [intros (H1 & H2 & H3) | intros ((H1 & H2) & H3)];
      repeat split; assumption.
Qed.

Lemma good_no_fetch (seen : bool) (evs : list Event) :
  no_fetch evs = true -> good seen evs.
Proof.
  revert seen. unfold no_fetch.
  induction evs as [|e evs IH]; intros seen; cbn [forallb good];
    [intros _; exact I|].
  intros H. apply andb_prop in H as [He Hevs]. split; [|apply IH, Hevs].
  intros _. destruct e; try exact I. discriminate.
Qed.

Lemma good_true_disabled (evs : list Event) :
  good true evs -> forall rq, In (EvFetch rq) evs -> tools_disabled rq.
Proof.
  induction evs as [|e evs IH]; cbn [good In]; [intros _ rq []|].
  intros [He Hevs] rq [-> | Hin].
  - apply He. reflexivity.
  - apply IH; assumption.
Qed.

Lemma requests_disabled (messages : list ChatMessage) :
  isOllama = true ->
  tools_disabled (stream_request true messages)
  /\ tools_disabled (flat_request true messages).
Proof.
  intros H. unfold stream_request, flat_request, tools_disabled. rewrite H.
  cbn. destruct ollamaTools; repeat split.
Qed.

Lemma run_round_good (seen : bool) (ts : TurnState) (w : W) :
  (seen = true -> haveToolResults ts = true /\ isOllama = true) ->
  good seen (events (run_round ts w))
  /\ (forall ts',
         outcome (run_round ts w) = Ok (Continue ts') ->
         seen || has_tool_message (events (run_round ts w)) = true ->
         haveToolResults ts' = true /\ isOllama = true).
Proof.
  intros Hseen.
  destruct (run_round_shape ts w) as (mid & tail & Hev & Hq & Ho & Htail & Hout).
  rewrite Hev. split.
  - change (?e :: mid ++ tail) with ([e] ++ mid ++ tail).
    rewrite !good_app. split; [|split].
    + cbn. split; [|exact I]. intros ->.
      destruct (Hseen eq_refl) as [Hh Hol]. rewrite Hh. cbn.
      apply requests_disabled, Hol.
    + apply good_no_fetch, Hq.
    + destruct Htail as [-> | (Hnt & post & -> & Hp & _)]; [exact I|].
      cbn [has_tool_message existsb is_tool_message orb]. rewrite orb_false_r.
      fold (has_tool_message mid). rewrite Hnt, orb_false_r.
      cbn [good is_tool_message]. rewrite !orb_false_r.
      split; [intros _; exact I|]. split; [|apply good_no_fetch, Hp].
      intros ->. destruct (Hseen eq_refl) as [Hh Hol]. rewrite Hh. cbn.
      apply requests_disabled, Hol.
  - intros ts' Hts'. rewrite Hts' in Hout.
    destruct Hout as (-> & _ & Hh & Ht). rewrite app_nil_r.
    cbn [has_tool_message existsb is_tool_message orb].
    fold (has_tool_message mid). intros H.
    apply orb_true_iff in H as [-> | H].
    + destruct (Hseen eq_refl). auto.
    + auto.
Qed.

Lemma rounds_loop_good (fuel : nat) :
  forall seen ts w,
    (seen = true -> haveToolResults ts = true /\ isOllama = true) ->
    good seen (events (rounds_loop fuel ts w)).
Proof.
  induction fuel as [|fuel IH]; intros seen ts w Hseen;
    rewrite rounds_loop_unfold;
    destruct (Nat.ltb (rounds ts) maxRounds); try exact I.
  unfold bind.
  destruct (run_round_good seen ts w Hseen) as [Hgood Hnext].
  destruct (run_round ts w) as [[w1 e1] [[ts'|ts']|message]];
    cbn [events outcome fst snd] in *.
  - specialize (IH (seen || has_tool_message e1) ts' w1 (Hnext ts' eq_refl)).
    destruct (rounds_loop fuel ts' w1) as [[w2 e2] o2].
    cbn [events fst snd] in *. apply good_app. split; assumption.
  - unfold ret. cbn [events fst snd]. rewrite app_nil_r. exact Hgood.
  - exact Hgood.
Qed.

(** C3: once a tool result has been produced in a turn (its tool message
    has been pushed), every request sent to the model for the rest of the
    turn omits the tool list and carries the tool choice ['none']. *)
Theorem tools_suppressed_after_tool_result
        (messages : list Message) (w : W)
        (before after : list Event) (m : ChatMessage) (rq : Request) :
  events (generateResponse messages w) = before ++ EvToolMessage m :: after ->
  In (EvFetch rq) after ->
  rq_tools rq = None /\ rq_tool_choice rq = Some (lit "none").
Proof.
  intros Hev Hin.
  assert (Hgood : good false (events (generateResponse messages w))).
  { destruct (generateResponse_events messages w) as (tail & -> & Hq & _).
    rewrite !good_app. split; [cbn; repeat split|]. split.
    - apply rounds_loop_good. discriminate.
    - apply good_no_fetch, Hq. }
  rewrite Hev in Hgood. apply good_app in Hgood as [_ Hgood].
  cbn [good is_tool_message] in Hgood. rewrite orb_true_r in Hgood.
  destruct Hgood as [_ Hgood].
  exact (good_true_disabled after Hgood rq Hin).
Qed.

(** ** The non-streaming retry *)








(** *** What a stream carries

    The text and the tool calls of a stream, read off its bytes: the
    records are those of [Frame.records], and each is looked at the way
    the line parser and the residual parser look at it. *)



















(** ** A failing status *)

Definition status_error (response : Response) : jsstring :=
  lit "Server responded with " ++ decimal (resp_status response).

Lemma run_round_not_ok (ts : TurnState) (w w' : W) (response : Response) :
  fetch_llm w (stream_request (haveToolResults ts || llm_disable_tools w)
                              (rollingMessages ts)) = (w', Ok response) ->
  resp_ok response = false ->
  run_round ts w
  = (w',
     [EvFetch (stream_request (haveToolResults ts || llm_disable_tools w)
                              (rollingMessages ts))],
     Throws (status_error response)).
Proof.
  intros Hfetch Hok. unfold run_round, stream_round. run_act.
  rewrite Hfetch, Hok. reflexivity.
Qed.

(** C5 (amended): a response to the streaming request of a round whose
    status is not 2xx fails the turn.  No retry is made: the round throws
    ["Server responded with <status>"] right after the request, the loop
    passes the error on, and [generateResponse] records the message and
    throws it to its caller. *)
Theorem non_ok_status_fails_the_turn :
  (forall fuel ts w w' response,
      rounds ts < maxRounds ->
      fetch_llm w (stream_request (haveToolResults ts || llm_disable_tools w)
                                  (rollingMessages ts)) = (w', Ok response) ->
      resp_ok response = false ->
      rounds_loop (S fuel) ts w
      = (w',
         [EvFetch (stream_request (haveToolResults ts || llm_disable_tools w)
                                  (rollingMessages ts))],
         Throws (status_error response)))
  /\ (forall messages w w' response,
         let request := stream_request (llm_disable_tools w)
                                       (rollingMessages (initial_state messages)) in
         fetch_llm w request = (w', Ok response) ->
         resp_ok response = false ->
         generateResponse messages w
         = (w',
            [EvSetIsLoading true; EvSetError None; EvFetch request;
             EvSetError (Some (status_error response)); EvSetIsLoading false],
            Throws (status_error response))).
Proof.
  assert (Hloop : forall fuel ts w w' response,
      rounds ts < maxRounds ->
      fetch_llm w (stream_request (haveToolResults ts || llm_disable_tools w)
                                  (rollingMessages ts)) = (w', Ok response) ->
      resp_ok response = false ->
      rounds_loop (S fuel) ts w
      = (w',
         [EvFetch (stream_request (haveToolResults ts || llm_disable_tools w)
                                  (rollingMessages ts))],
         Throws (status_error response))).
  { intros fuel ts w w' response Hlt Hfetch Hok.
    rewrite rounds_loop_unfold. apply Nat.ltb_lt in Hlt. rewrite Hlt.
    unfold bind. rewrite (run_round_not_ok ts w w' response Hfetch Hok).
    reflexivity. }
  split; [exact Hloop|].
  intros messages w w' response request Hfetch Hok.
  rewrite generateResponse_run. unfold run_turn.
  change maxRounds with (S 2) at 1.
  rewrite (Hloop 2 (initial_state messages) w w' response);
    [reflexivity | unfold maxRounds; cbn [initial_state rounds]; lia
     | exact Hfetch | exact Hok].
Qed.

(** ** Tool calls *)

(** C6 (amended): a detected tool call whose arguments are a string that
    [JSON.parse] rejects is dropped: the failure is logged, no backend
    request is made, the callback is not invoked, no tool message is
    pushed, and the variables of the turn are left as they were; nothing is
    thrown, so the loop goes on. *)
Theorem unparsable_arguments_drop_the_call
        (ts : TurnState) (toolCall : ToolCall) (text message : jsstring)
        (w : W) :
  rawArgs toolCall = JStr text ->
  JSON_parse text = Throws message ->
  handle_tool_call onToolCall ts toolCall w
  = (w, [EvConsole Error (lit "[ServerLLM][ToolArgsParseError]")], Ok ts).
Proof.
  intros Hraw Hparse. unfold handle_tool_call, resolve_args.
  rewrite Hraw, Hparse. reflexivity.
Qed.

(** C10: a tool call that sits in the residual line parsed after the end of
    the stream is detected and not executed: the round is marked as having
    met a tool call, so that another round follows, while no backend
    request is issued, the callback is not invoked, no tool message is
    pushed, and nothing is thrown. *)
Theorem residual_tool_call_not_executed
        (ts : TurnState) (rs : RoundState) (w : W)
        (parsed : Parsed) (toolCall : ToolCall) (more : list ToolCall) :
  Frame.has_residual (streamBuffer rs) = true ->
  parse_record (streamBuffer rs) = Some parsed ->
  tool_calls_of parsed = Some (toolCall :: more) ->
  exists ts' rs',
    outcome (handle_residual true onToken (ts, rs) w) = Ok (ts', rs')
    /\ encounteredToolCall rs' = true
    /\ no_dispatch (events (handle_residual true onToken (ts, rs) w)) = true
    /\ rollingMessages ts' = rollingMessages ts
    /\ haveToolResults ts' = haveToolResults ts
    /\ lastToolResult ts' = lastToolResult ts
    /\ forall sd w',
        exists next,
          conclude_round sd (ts', rs') w' = (w', [], Ok (Continue next))
          /\ rounds next = S (rounds ts').
Proof.
  intros Hres Hparse Hcalls.
  destruct (handle_residual true onToken (ts, rs) w) as [[wf ef] o] eqn:Heq.
  cbn [events outcome fst snd].
  unfold handle_residual in Heq. rewrite Hres, Hparse in Heq.
  unfold bind in Heq.
  assert (Hdeliver :
            exists ts1 rs1 e1 w1,
              deliver onToken (residual_content parsed) (ts, rs) w
              = (w1, e1, Ok (ts1, rs1))
              /\ no_dispatch e1 = true
              /\ rollingMessages ts1 = rollingMessages ts
              /\ haveToolResults ts1 = haveToolResults ts
              /\ lastToolResult ts1 = lastToolResult ts).
  { unfold deliver. run_act.
    destruct (truthy (residual_content parsed)); [destruct onToken|];
      do 4 eexists; (split; [reflexivity|]); repeat split. }
  destruct Hdeliver as (ts1 & rs1 & e1 & w1 & Hdel & Hd & Hm & Hh & Hl).
  rewrite Hdel, Hcalls in Heq.
  pose proof (for_each_inspect_spec (toolCall :: more) w1) as [He Ho].
  destruct (for_each inspect_residual_call (toolCall :: more) tt w1)
    as [[w2 e2] o2]. cbn [events outcome fst snd] in He, Ho. subst e2 o2.
  unfold ret in Heq. rewrite !app_nil_r in Heq.
  injection Heq as <- <- <-.
  exists ts1, (set_encountered rs1).
  repeat split; auto.
  intros sd w'. eexists. split; [reflexivity|]. cbn. lia.
Qed.

(** ** The synthesized summary *)

Lemma summary_not_empty (result : json) : summary result <> [].
Proof. unfold summary. discriminate. Qed.

(** When the loop ends with no text and the last tool call left a result
    object, the response is the synthesized summary (the value of the
    result's field [solver], ["graph"] when it has none; the rounded score
    when it has one that is not zero; the number of rooms when it has
    some), and what [generateResponse] returns is not the empty string. *)
Lemma summary_when_no_text
        (messages : list Message) (w w' : W) (evs : list Event)
        (ts : TurnState) (result : json) :
  run_turn messages w = (w', evs, Ok ts) ->
  fullResponse ts = [] ->
  haveToolResults ts = true ->
  lastToolResult ts = Some result ->
  is_object result = true ->
  fullResponse (synthesize ts) = summary result
  /\ outcome (generateResponse messages w)
     = Ok (cleanThinkingContent (summary result))
  /\ cleanThinkingContent (summary result) <> []
  /\ trim (cleanThinkingContent (summary result)) <> [].
Proof.
  intros Hrun Hempty Hhave Hlast Hobj.
  assert (Hsyn : fullResponse (synthesize ts) = summary result).
  { unfold synthesize. rewrite Hlast, Hempty, Hhave, Hobj. reflexivity. }
  pose proof (cleanThinkingContent_not_blank (summary result)
                                             (summary_not_empty result)) as Hnb.
  split; [exact Hsyn|]. split; [|split; [|exact Hnb]].
  - rewrite generateResponse_run, Hrun. cbn [outcome snd]. rewrite Hsyn.
    reflexivity.
  - intros Heq. apply Hnb. rewrite Heq. reflexivity.
Qed.

(** ** The watchdog *)

Definition is_generate (e : Event) : bool :=
  match e with EvGenerate _ => true | _ => false end.

(** C7 (amended): when the watchdog fires with neither flag set, it calls
    the backend with the graph solver selected first, and retries once,
    with the constraint solver, only when that first call returns a
    response that is not [ok]; it never throws.  With a flag set it does
    nothing. *)
Theorem watchdog_graph_then_constraint
        (content : jsstring) (plotWidth plotLength : num) (w : W) :
  let payload := watchdog_payload content plotWidth plotLength in
  pl_solver_type payload = graph
  /\ filter is_generate (events (watchdog false false content plotWidth plotLength w))
     = match fetch_backend w payload with
       | (_, Ok genRes) =>
           if gen_ok genRes then [EvGenerate payload]
           else [EvGenerate payload; EvGenerate (with_solver payload constraint)]
       | (_, Throws _) => [EvGenerate payload]
       end
  /\ outcome (watchdog false false content plotWidth plotLength w) = Ok tt
  /\ (forall handled detected,
         handled || detected = true ->
         watchdog handled detected content plotWidth plotLength w = (w, [], Ok tt)).
Proof.
  cbv zeta. split; [reflexivity|].
  assert (Hflag : forall handled detected,
             handled || detected = true ->
             watchdog handled detected content plotWidth plotLength w
             = (w, [], Ok tt)).
  { intros handled detected H. unfold watchdog. rewrite H. reflexivity. }
  cut (filter is_generate
         (events (watchdog false false content plotWidth plotLength w))
       = match fetch_backend w (watchdog_payload content plotWidth plotLength) with
         | (_, Ok genRes) =>
             if gen_ok genRes
             then [EvGenerate (watchdog_payload content plotWidth plotLength)]
             else [EvGenerate (watchdog_payload content plotWidth plotLength);
                   EvGenerate (with_solver
                                 (watchdog_payload content plotWidth plotLength)
                                 constraint)]
         | (_, Throws _) =>
             [EvGenerate (watchdog_payload content plotWidth plotLength)]
         end
       /\ outcome (watchdog false false content plotWidth plotLength w) = Ok tt).
  { intros [H1 H2]. repeat split; assumption. }
  unfold watchdog. cbn [orb]. run_act.
  set (payload := watchdog_payload content plotWidth plotLength).
  destruct (fetch_backend w payload) as [w1 [genRes|m1]];
    cbv beta iota zeta; [|split; reflexivity].
  destruct (gen_ok genRes) eqn:Hok1; cbv beta iota zeta.
  - rewrite Hok1.
    destruct (gen_json genRes) as [genJson|m]; cbv beta iota zeta;
      [|split; reflexivity].
    destruct (member genJson "rooms") as [[rooms|]|m]; cbv beta iota zeta;
      try (split; reflexivity).
    destruct (json_truthy rooms); cbv beta iota zeta; [|split; reflexivity].
    destruct rooms; cbv beta iota zeta; try (split; reflexivity).
    destruct (map_res positioned items); split; reflexivity.
  - destruct (fetch_backend w1 (with_solver payload constraint))
      as [w2 [genRes2|m2]]; cbv beta iota zeta; [|split; reflexivity].
    destruct (gen_json genRes2) as [genJson|m]; cbv beta iota zeta;
      [|split; reflexivity].
    destruct (gen_ok genRes2); cbv beta iota zeta; [|split; reflexivity].
    destruct (member genJson "rooms") as [[rooms|]|m]; cbv beta iota zeta;
      try (split; reflexivity).
    destruct (json_truthy rooms); cbv beta iota zeta; [|split; reflexivity].
    destruct rooms; cbv beta iota zeta; try (split; reflexivity).
    destruct (map_res positioned items); split; reflexivity.
Qed.

(** ** Decoding chunk by chunk *)

(** C8: the three bytes of an e-acute followed by a line feed, delivered as
    one chunk and delivered cut inside the two-byte character.  The single
    chunk gives the record of the one character U+00E9; the two chunks give
    a record of two replacement characters, because each chunk is decoded
    on its own. *)
Theorem split_character_changes_the_records :
  List.concat [[xc3]; [xa9; x0a]] = [xc3; xa9; x0a]
  /\ Frame.records [[xc3; xa9; x0a]] = ([[233%N]], None)
  /\ Frame.records [[xc3]; [xa9; x0a]] = ([[65533%N; 65533%N]], None).
Proof. repeat split. Qed.

(** ** What a turn adds: text, tool messages, callbacks *)

(** The text handed to [onToken], in order. *)
Definition tokens (evs : list Event) : jsstring :=
  flat_map (fun e => match e with EvToken t => t | _ => [] end) evs.

(** The tool messages pushed onto [rollingMessages], in order. *)
Definition tool_messages (evs : list Event) : list ChatMessage :=
  flat_map (fun e => match e with EvToolMessage m => [m] | _ => [] end) evs.

Definition is_callback (e : Event) : bool :=
  match e with EvOnToolCall _ _ => true | _ => false end.

(** The setters of the hook and of the page. *)
Definition is_hook_state (e : Event) : bool :=
  match e with
  | EvSetIsLoading _ | EvSetError _ | EvSetRooms _ | EvToast _ _ => true
  | _ => false
  end.

Definition no_hook_state (evs : list Event) : bool :=
  forallb (fun e => negb (is_hook_state e)) evs.

(** Requests and log lines. *)
Definition is_plain (e : Event) : bool :=
  match e with
  | EvFetch _ | EvGenerate _ | EvConsole _ _ => true
  | _ => false
  end.

Definition plain (evs : list Event) : bool := forallb is_plain evs.

Lemma tokens_app (a b : list Event) : tokens (a ++ b) = tokens a ++ tokens b.
Proof. apply flat_map_app. Qed.

Lemma tool_messages_app (a b : list Event) :
  tool_messages (a ++ b) = tool_messages a ++ tool_messages b.
Proof. apply flat_map_app. Qed.

Lemma no_hook_state_app (a b : list Event) :
  no_hook_state (a ++ b) = no_hook_state a && no_hook_state b.
Proof. apply forallb_app. Qed.

Lemma plain_app (a b : list Event) : plain (a ++ b) = plain a && plain b.
Proof. apply forallb_app. Qed.

Lemma has_tool_message_length (evs : list Event) :
  has_tool_message evs = negb (Nat.eqb (List.length (tool_messages evs)) 0).
Proof.
  induction evs as [|e evs IH]; [reflexivity|].
  destruct e; cbn in *; auto.
Qed.

Lemma plain_facts (evs : list Event) :
  plain evs = true ->
  tokens evs = [] /\ tool_messages evs = [] /\ count is_callback evs = 0
  /\ no_hook_state evs = true.
Proof.
  induction evs as [|e evs IH]; [repeat split|].
  cbn [plain forallb]. intros H. apply andb_prop in H as [He Hevs].
  destruct (IH Hevs) as (Ht & Hm & Hc & Hs).
  destruct e; try discriminate; cbn; repeat split; auto.
Qed.

(** What every trace of the loop keeps: the setters are left alone, the
    pushed messages are tool messages, the callback runs once for each of
    them when it was passed, and no text is handed out without [onToken]. *)
Definition trace_ok (evs : list Event) : Prop :=
  no_hook_state evs = true
  /\ Forall (fun m => cm_role m = tool) (tool_messages evs)
  /\ count is_callback evs
     = (if onToolCall then List.length (tool_messages evs) else 0)
  /\ (onToken = false -> tokens evs = []).

Lemma trace_ok_nil : trace_ok [].
Proof.
  repeat split; auto. destruct onToolCall; reflexivity.
Qed.

Lemma trace_ok_app (a b : list Event) :
  trace_ok a -> trace_ok b -> trace_ok (a ++ b).
Proof.
  intros (Hs1 & Hr1 & Hc1 & Ht1) (Hs2 & Hr2 & Hc2 & Ht2).
  split; [|split; [|split]].
  - rewrite no_hook_state_app, Hs1, Hs2. reflexivity.
  - rewrite tool_messages_app. apply Forall_app. split; assumption.
  - rewrite count_app, tool_messages_app, length_app, Hc1, Hc2.
    destruct onToolCall; reflexivity.
  - intros H. rewrite tokens_app, Ht1, Ht2 by exact H. reflexivity.
Qed.

Lemma trace_ok_plain (evs : list Event) : plain evs = true -> trace_ok evs.
Proof.
  intros H. destruct (plain_facts evs H) as (Ht & Hm & Hc & Hs).
  unfold trace_ok. rewrite Hs, Hm, Hc, Ht.
  repeat split; auto. destruct onToolCall; reflexivity.
Qed.

(** [haveToolResults] is set exactly when [lastToolResult] is. *)
Definition flags_agree (ts : TurnState) : Prop :=
  haveToolResults ts
  = match lastToolResult ts with Some _ => true | None => false end.

(** How the variables of a turn move along a trace: the text grows by what
    was handed to [onToken], the buffer by the tool messages, and
    [haveToolResults] is raised by the first of them. *)
Definition grows (ts : TurnState) (evs : list Event) (ts' : TurnState) : Prop :=
  (onToken = true -> fullResponse ts' = fullResponse ts ++ tokens evs)
  /\ rollingMessages ts' = rollingMessages ts ++ tool_messages evs
  /\ haveToolResults ts' = haveToolResults ts || has_tool_message evs
  /\ (flags_agree ts -> flags_agree ts').

Lemma grows_refl (ts : TurnState) : grows ts [] ts.
Proof.
  repeat split; cbn; rewrite ?app_nil_r, ?orb_false_r; auto.
Qed.

Lemma grows_trans ts e1 ts1 e2 ts2 :
  grows ts e1 ts1 -> grows ts1 e2 ts2 -> grows ts (e1 ++ e2) ts2.
Proof.
  intros (Hf1 & Hm1 & Hh1 & Ha1) (Hf2 & Hm2 & Hh2 & Ha2).
  repeat split.
  - intros H. rewrite Hf2, Hf1, tokens_app, app_assoc by exact H. reflexivity.
  - rewrite Hm2, Hm1, tool_messages_app, app_assoc. reflexivity.
  - rewrite Hh2, Hh1, has_tool_message_app, orb_assoc. reflexivity.
  - auto.
Qed.

Definition stream_rel (v : Vars) (evs : list Event) (o : Res Vars) : Prop :=
  trace_ok evs /\
  match o with
  | Ok v' => grows (fst v) evs (fst v')
  | Throws _ => True
  end.

Lemma stream_rel_refl (v : Vars) : stream_rel v [] (Ok v).
Proof. split; [apply trace_ok_nil | apply grows_refl]. Qed.

Lemma stream_rel_trans v e1 v1 e2 o :
  stream_rel v e1 (Ok v1) -> stream_rel v1 e2 o -> stream_rel v (e1 ++ e2) o.
Proof.
  intros (Hk1 & Hg1) (Hk2 & H2). split; [apply trace_ok_app; assumption|].
  destruct o as [v2|]; [|exact I]. eapply grows_trans; eassumption.
Qed.

(** The backend call of the tool shows requests to the backend and log
    lines only. *)
Lemma execute_generate_plain (args : json) :
  sat (execute_generate args)
      (fun evs o => plain evs = true /\ exists result, o = Ok result).
Proof.
  intros w. unfold execute_generate. unfold_act.
  destruct (fetch_backend w (layout_payload args)) as [w1 [genRes|m1]];
    [|cbn; eauto].
  destruct (gen_ok genRes).
  - destruct (gen_json genRes) as [[]|]; cbn; eauto.
  - destruct (fetch_backend w1 _) as [w2 [genRes2|m2]]; [|cbn; eauto].
    destruct (gen_json genRes2) as [[]|]; cbn; eauto.
Qed.

Definition tool_rel (ts : TurnState) (evs : list Event) (o : Res TurnState)
  : Prop :=
  trace_ok evs /\ tokens evs = [] /\
  match o with
  | Ok ts' => fullResponse ts' = fullResponse ts /\ grows ts evs ts'
  | Throws _ => False
  end.

Lemma tool_rel_refl (ts : TurnState) : tool_rel ts [] (Ok ts).
Proof.
  split; [apply trace_ok_nil|]. split; [reflexivity|].
  split; [reflexivity | apply grows_refl].
Qed.

Lemma tool_rel_trans ts e1 ts1 e2 o :
  tool_rel ts e1 (Ok ts1) -> tool_rel ts1 e2 o -> tool_rel ts (e1 ++ e2) o.
Proof.
  intros (Hk1 & Ht1 & Hf1 & Hg1) (Hk2 & Ht2 & H2).
  split; [apply trace_ok_app; assumption|].
  split; [rewrite tokens_app, Ht1, Ht2; reflexivity|].
  destruct o as [ts2|]; [|exact H2]. destruct H2 as (Hf2 & Hg2).
  split; [congruence | eapply grows_trans; eassumption].
Qed.

Lemma handle_tool_call_rel (ts : TurnState) (toolCall : ToolCall) :
  sat (handle_tool_call onToolCall ts toolCall) (tool_rel ts).
Proof.
  assert (Hcatch : tool_rel ts [EvConsole Error (lit "[ServerLLM][ToolArgsParseError]")]
                            (Ok ts)).
  { split; [apply trace_ok_plain; reflexivity|]. split; [reflexivity|].
    split; [reflexivity|]. repeat split; cbn; rewrite ?app_nil_r, ?orb_false_r; auto. }
  assert (Hpush : forall e1 name result,
             plain e1 = true ->
             tool_rel ts
               (e1 ++ (if onToolCall then [EvOnToolCall toolCall result] else [])
                   ++ [EvToolMessage (tool_message name result)])
               (Ok {| fullResponse := fullResponse ts;
                      rollingMessages := rollingMessages ts ++ [tool_message name result];
                      rounds := rounds ts;
                      haveToolResults := true;
                      lastToolResult := Some result |})).
  { intros e1 name result Hplain.
    destruct (plain_facts e1 Hplain) as (Ht & Hm & Hc & Hs).
    assert (Hmsgs : tool_messages
                      (e1 ++ (if onToolCall then [EvOnToolCall toolCall result] else [])
                          ++ [EvToolMessage (tool_message name result)])
                    = [tool_message name result]).
    { rewrite !tool_messages_app, Hm. destruct onToolCall; reflexivity. }
    assert (Htok : tokens
                     (e1 ++ (if onToolCall then [EvOnToolCall toolCall result] else [])
                         ++ [EvToolMessage (tool_message name result)])
                   = []).
    { rewrite !tokens_app, Ht. destruct onToolCall; reflexivity. }
    split; [|split; [exact Htok|split; [reflexivity|]]].
    - unfold trace_ok. rewrite Hmsgs, Htok, !no_hook_state_app, !count_app, Hs, Hc.
      repeat split.
      + destruct onToolCall; reflexivity.
      + constructor; [reflexivity | constructor].
      + destruct onToolCall; reflexivity.
    - unfold grows. rewrite Hmsgs, Htok, has_tool_message_length, Hmsgs.
      cbn. rewrite app_nil_r, orb_true_r. repeat split. }
  intros w. unfold handle_tool_call. unfold_act.
  destruct (resolve_args toolCall) as [args|m]; [|exact Hcatch].
  destruct (function_name toolCall) as [name|m]; [|exact Hcatch].
  destruct (str_eqb name (lit "generate_layout_hybrid")).
  - pose proof (execute_generate_plain args w) as (Hp & result & Ho).
    unfold_act.
    destruct (execute_generate args w) as [[w1 e1] o1].
    cbn in Hp, Ho. subst o1. specialize (Hpush e1 name result Hp).
    destruct onToolCall; cbn in *; exact Hpush.
  - specialize (Hpush [] name no_handler eq_refl).
    destruct onToolCall; cbn in *; exact Hpush.
Qed.

Lemma for_each_tool_call_rel (calls : list ToolCall) (ts : TurnState) :
  sat (for_each (handle_tool_call onToolCall) calls ts) (tool_rel ts).
Proof.
  apply sat_for_each.
  - apply tool_rel_refl.
  - apply tool_rel_trans.
  - apply handle_tool_call_rel.
Qed.

Lemma deliver_rel (content : jsstring) (v : Vars) :
  sat (deliver onToken content v) (stream_rel v).
Proof.
  intros w. destruct v as [ts rs]. unfold deliver. unfold_act.
  destruct (truthy content); [|apply stream_rel_refl].
  unfold stream_rel, trace_ok, grows.
  destruct onToken; cbn; rewrite ?app_nil_r, ?orb_false_r;
    repeat split; auto; try discriminate; destruct onToolCall; reflexivity.
Qed.

Lemma handle_line_ollama_rel (v : Vars) (line : jsstring) :
  sat (handle_line_ollama onToken onToolCall v line) (stream_rel v).
Proof.
  unfold handle_line_ollama.
  destruct (parse_record line) as [parsed|]; [|apply sat_ret, stream_rel_refl].
  eapply sat_bind; [apply deliver_rel | | intros; assumption].
  intros e1 [ts1 rs1] H1.
  eapply sat_weaken with (P := stream_rel (ts1, rs1));
    [|intros e2 o H2; eapply stream_rel_trans; eassumption].
  clear H1 v. eapply sat_bind with (P := stream_rel (ts1, rs1));
    [| |intros; assumption].
  - destruct (tool_calls_of parsed) as [[|toolCall more]|];
      try apply sat_ret, stream_rel_refl.
    eapply sat_bind; [apply for_each_tool_call_rel | |].
    + intros e ts' (Hk & Ht & Hf & Hg). apply sat_ret.
      rewrite app_nil_r. split; [exact Hk | exact Hg].
    + intros e message (_ & _ & []).
  - intros e2 [ts2 rs2] H2. eapply sat_bind.
    + apply sat_when with (P := fun evs o => plain evs = true /\ o = Ok tt).
      * intros _. apply sat_emit. repeat split.
      * intros _. repeat split.
    + intros e3 [] (Hp3 & _). apply sat_ret.
      rewrite app_nil_r.
      eapply stream_rel_trans; [exact H2|].
      split; [apply trace_ok_plain, Hp3|].
      destruct (plain_facts e3 Hp3) as (Ht & Hm & Hc & Hs).
      unfold grows. rewrite Ht, Hm, has_tool_message_length, Hm. cbn.
      rewrite !app_nil_r, orb_false_r. repeat split; auto.
    + intros e3 message (_ & Hf). discriminate.
Qed.

Lemma handle_line_sse_rel (v : Vars) (line : jsstring) :
  sat (handle_line_sse onToken v line) (stream_rel v).
Proof.
  unfold handle_line_sse.
  destruct (strip_prefix _ line) as [data|]; [|apply sat_ret, stream_rel_refl].
  destruct (str_eqb data _); [apply sat_ret, stream_rel_refl|].
  destruct (parse_record data) as [parsed|]; [|apply sat_ret, stream_rel_refl].
  apply deliver_rel.
Qed.

Lemma handle_line_rel (v : Vars) (line : jsstring) :
  sat (handle_line isOllama onToken onToolCall v line) (stream_rel v).
Proof.
  unfold handle_line. destruct isOllama.
  - apply handle_line_ollama_rel.
  - apply handle_line_sse_rel.
Qed.

Lemma read_loop_rel (chunks : list (list byte)) (ending : StreamEnd) (v : Vars) :
  sat (read_loop isOllama onToken onToolCall chunks ending v) (stream_rel v).
Proof.
  revert v. induction chunks as [|value rest IH]; intros [ts rs].
  - cbn [read_loop]. destruct ending.
    + apply sat_ret, stream_rel_refl.
    + apply sat_throw. split; [apply trace_ok_nil | exact I].
  - cbn [read_loop].
    destruct (Frame.feed (streamBuffer rs) (Frame.decode value)) as [segments buffer].
    eapply sat_bind.
    + apply (sat_for_each (handle_line isOllama onToken onToolCall) segments
                          stream_rel stream_rel_refl stream_rel_trans).
      intros v0 line. apply handle_line_rel.
    + intros e1 v1 H1. eapply sat_weaken; [apply IH|].
      intros e2 o H2. eapply stream_rel_trans; [|exact H2].
      destruct H1 as (Hk & Hg). split; [exact Hk | exact Hg].
    + intros e1 message (Hk & _). split; [exact Hk | exact I].
Qed.

Lemma handle_residual_rel (v : Vars) :
  sat (handle_residual isOllama onToken v) (stream_rel v).
Proof.
  unfold handle_residual. destruct v as [ts rs].
  destruct (Frame.has_residual (streamBuffer rs)); [|apply sat_ret, stream_rel_refl].
  destruct isOllama.
  - destruct (parse_record (streamBuffer rs)) as [parsed|];
      [|apply sat_ret, stream_rel_refl].
    eapply sat_bind; [apply deliver_rel | | intros; assumption].
    intros e1 [ts1 rs1] H1.
    destruct (tool_calls_of parsed) as [[|toolCall more]|].
    + apply sat_ret. rewrite app_nil_r. exact H1.
    + eapply sat_bind; [apply for_each_inspect_spec | |].
      * intros e2 [] [-> _]. apply sat_ret. rewrite !app_nil_r. exact H1.
      * intros e2 message [_ H]. discriminate.
    + apply sat_ret. rewrite app_nil_r. exact H1.
  - destruct (strip_prefix _ _) as [data|]; [|apply sat_ret, stream_rel_refl].
    destruct (str_eqb data _); [apply sat_ret, stream_rel_refl|].
    destruct (parse_record data); [apply deliver_rel | apply sat_ret, stream_rel_refl].
Qed.

Lemma stream_request_messages sd messages :
  rq_messages (stream_request sd messages) = messages.
Proof. unfold stream_request. destruct isOllama; reflexivity. Qed.

Lemma flat_request_messages sd messages :
  rq_messages (flat_request sd messages) = messages.
Proof. unfold flat_request. destruct isOllama; reflexivity. Qed.

(** The first phase of a round, along [stream_rel]. *)
Lemma stream_round_rel (ts : TurnState) (w : W) :
  let sd := haveToolResults ts || llm_disable_tools w in
  exists mid,
    events (stream_round ts w)
    = EvFetch (stream_request sd (rollingMessages ts)) :: mid
    /\ match outcome (stream_round ts w) with
       | Ok (sd', v') => sd' = sd /\ stream_rel (ts, new_round) mid (Ok v')
       | Throws message => stream_rel (ts, new_round) mid (Throws message)
       end.
Proof.
  intros sd. subst sd. unfold stream_round. run_act.
  destruct (fetch_llm w _) as [w1 [response|message]]; cbv beta iota zeta.
  2:{ exists []. split; [reflexivity|]. split; [apply trace_ok_nil | exact I]. }
  destruct (resp_ok response); cbv beta iota zeta delta [negb].
  2:{ exists []. split; [reflexivity|]. split; [apply trace_ok_nil | exact I]. }
  destruct (resp_body response) as [[chunks ending]|]; cbv beta iota zeta.
  2:{ exists []. split; [reflexivity|]. split; [apply trace_ok_nil | exact I]. }
  pose proof (read_loop_rel chunks ending (ts, new_round) w1) as Hread.
  unfold_act.
  destruct (read_loop isOllama onToken onToolCall chunks ending (ts, new_round) w1)
    as [[w2 e2] [v2|message]]; cbv beta iota zeta in *.
  2:{ exists e2. split; [reflexivity|]. exact Hread. }
  pose proof (handle_residual_spec v2 w2) as (_ & _ & v3 & Ho & _).
  pose proof (handle_residual_rel v2 w2) as Hres.
  unfold_act.
  destruct (handle_residual isOllama onToken v2 w2) as [[w3 e3] o3];
    cbv beta iota zeta in *.
  subst o3. exists (e2 ++ e3 ++ []). split; [reflexivity|]. split; [reflexivity|].
  rewrite app_nil_r. eapply stream_rel_trans; [exact Hread | exact Hres].
Qed.

(** A message that the loop appends to the caller's: a tool result, or the
    instruction that follows the tool results of a round. *)
Definition is_appended (m : ChatMessage) : Prop := cm_role m = tool \/ m = nudge.

(** Every request carries the messages [base] followed by appended ones. *)
Definition requests_extend (base : list ChatMessage) (evs : list Event) : Prop :=
  forall rq, In (EvFetch rq) evs ->
             exists suffix, rq_messages rq = base ++ suffix
                            /\ Forall is_appended suffix.

Lemma requests_extend_plain_free (base : list ChatMessage) (evs : list Event) :
  no_fetch evs = true -> requests_extend base evs.
Proof.
  intros Hq rq Hin. unfold no_fetch in Hq.
  rewrite forallb_forall in Hq. specialize (Hq _ Hin). discriminate.
Qed.

Lemma requests_extend_app (base : list ChatMessage) (a b : list Event) :
  requests_extend base a -> requests_extend base b -> requests_extend base (a ++ b).
Proof.
  intros Ha Hb rq Hin. apply in_app_or in Hin as [Hin|Hin]; auto.
Qed.

Lemma requests_extend_shift (base added : list ChatMessage) (evs : list Event) :
  Forall is_appended added ->
  requests_extend (base ++ added) evs -> requests_extend base evs.
Proof.
  intros Hadded H rq Hin. destruct (H rq Hin) as (suffix & Heq & Hs).
  exists (added ++ suffix). split; [rewrite Heq, app_assoc; reflexivity|].
  apply Forall_app. split; assumption.
Qed.

Lemma tool_messages_no_fetch (evs : list Event) :
  trace_ok evs -> Forall is_appended (tool_messages evs).
Proof.
  intros (_ & Hr & _). eapply Forall_impl; [|exact Hr].
  intros m H. left. exact H.
Qed.

Definition state_of (out : RoundOutcome) : TurnState :=
  match out with Continue ts | Break ts => ts end.

Definition state_after (o : Res RoundOutcome) : Res TurnState :=
  match o with
  | Ok out => Ok (state_of out)
  | Throws message => Throws message
  end.

(** What a round, and the loop, keep. *)
Definition turn_rel (ts : TurnState) (evs : list Event) (o : Res TurnState)
  : Prop :=
  trace_ok evs /\ requests_extend (rollingMessages ts) evs /\
  match o with
  | Ok ts' =>
      (onToken = true -> fullResponse ts' = fullResponse ts ++ tokens evs)
      /\ (exists added, rollingMessages ts' = rollingMessages ts ++ added
                        /\ Forall is_appended added)
      /\ haveToolResults ts' = haveToolResults ts || has_tool_message evs
      /\ (flags_agree ts -> flags_agree ts')
  | Throws _ => True
  end.

Lemma turn_rel_refl (ts : TurnState) : turn_rel ts [] (Ok ts).
Proof.
  split; [apply trace_ok_nil|]. split; [intros rq []|].
  repeat split; cbn; rewrite ?app_nil_r, ?orb_false_r; auto.
  exists []. rewrite app_nil_r. split; [reflexivity | constructor].
Qed.

Lemma turn_rel_trans ts e1 ts1 e2 o :
  turn_rel ts e1 (Ok ts1) -> turn_rel ts1 e2 o -> turn_rel ts (e1 ++ e2) o.
Proof.
  intros (Hk1 & Hq1 & Hf1 & (added1 & Hm1 & Ha1) & Hh1 & Hg1) (Hk2 & Hq2 & H2).
  split; [apply trace_ok_app; assumption|]. split.
  - apply requests_extend_app; [exact Hq1|].
    apply requests_extend_shift with (added := added1); [exact Ha1|].
    rewrite <- Hm1. exact Hq2.
  - destruct o as [ts2|]; [|exact I].
    destruct H2 as (Hf2 & (added2 & Hm2 & Ha2) & Hh2 & Hg2). repeat split.
    + intros H. rewrite Hf2, Hf1, tokens_app, app_assoc by exact H. reflexivity.
    + exists (added1 ++ added2). split.
      * rewrite Hm2, Hm1, app_assoc. reflexivity.
      * apply Forall_app. split; assumption.
    + rewrite Hh2, Hh1, has_tool_message_app, orb_assoc. reflexivity.
    + auto.
Qed.

Ltac close_rel :=
  repeat split; cbn; rewrite ?app_nil_r, ?orb_false_r; auto; try congruence;
  try (destruct onToolCall; reflexivity).

(** The second phase of a round, along [turn_rel]. *)
Lemma conclude_round_rel (sd : bool) (ts : TurnState) (rs : RoundState) (w : W) :
  turn_rel ts (events (conclude_round sd (ts, rs) w))
           (state_after (outcome (conclude_round sd (ts, rs) w))).
Proof.
  assert (Hflat : requests_extend (rollingMessages ts)
                    [EvConsole Warn (lit "[ServerLLM][NoStreamData]");
                     EvFetch (flat_request sd (rollingMessages ts))]).
  { intros rq [H|[H|[]]]; [discriminate|]. injection H as <-.
    exists []. rewrite flat_request_messages, app_nil_r.
    split; [reflexivity | constructor]. }
  assert (Hsame : exists added : list ChatMessage,
             rollingMessages ts = rollingMessages ts ++ added
             /\ Forall is_appended added).
  { exists []. rewrite app_nil_r. split; [reflexivity | constructor]. }
  unfold conclude_round.
  destruct (encounteredToolCall rs).
  - cbn. split; [apply trace_ok_nil|]. split; [intros rq []|].
    close_rel.
    exists [nudge]. split; [reflexivity|]. constructor; [right; reflexivity | constructor].
  - rewrite andb_true_r.
    destruct (Nat.eqb (streamedCharsThisRound rs) 0).
    + unfold flat_fallback. run_act.
      destruct (fetch_llm w (flat_request sd (rollingMessages ts)))
        as [w1 [flatResponse|message]]; cbv beta iota zeta.
      2:{ cbn. split; [apply trace_ok_plain; reflexivity|]. split; [exact Hflat | exact I]. }
      destruct (resp_ok flatResponse); cbv beta iota zeta.
      * destruct (resp_json flatResponse) as [json|message]; cbv beta iota zeta.
        2:{ cbn. split; [apply trace_ok_plain; reflexivity|].
            split; [exact Hflat | exact I]. }
        destruct (truthy (flat_content json)); cbv beta iota zeta.
        -- destruct onToken eqn:Htok; cbn.
           ++ split; [|split].
              ** unfold trace_ok. cbn. repeat split; auto; try congruence.
                 destruct onToolCall; reflexivity.
              ** intros rq [H|[H|[H|[]]]]; try discriminate.
                 apply Hflat. right. left. exact H.
              ** close_rel.
           ++ split; [apply trace_ok_plain; reflexivity|]. split; [exact Hflat|].
              close_rel.
        -- cbn. split; [apply trace_ok_plain; reflexivity|]. split; [exact Hflat|].
           close_rel.
      * cbn. split; [apply trace_ok_plain; reflexivity|]. split.
        -- intros rq [H|[H|[H|[]]]]; try discriminate.
           apply Hflat. right. left. exact H.
        -- close_rel.
    + cbn. split; [apply trace_ok_nil|]. split; [intros rq []|].
      close_rel.
Qed.

Lemma turn_rel_first (ts : TurnState) (rq : Request) :
  requests_extend (rollingMessages ts) [EvFetch rq] ->
  turn_rel ts [EvFetch rq] (Ok ts).
Proof.
  intros H. split; [apply trace_ok_plain; reflexivity|]. split; [exact H|].
  close_rel. exists []. rewrite app_nil_r. split; [reflexivity | constructor].
Qed.

Lemma run_round_rel (ts : TurnState) (w : W) :
  turn_rel ts (events (run_round ts w)) (state_after (outcome (run_round ts w))).
Proof.
  rewrite run_round_unfold.
  destruct (stream_round_rel ts w) as (mid & Hev & Hout).
  pose proof (stream_round_spec ts w) as (mid' & Hev' & Hout').
  assert (Hfetch : requests_extend (rollingMessages ts)
                     [EvFetch (stream_request (haveToolResults ts || llm_disable_tools w)
                                              (rollingMessages ts))]).
  { intros rq [H|[]]. injection H as <-.
    exists []. rewrite stream_request_messages, app_nil_r.
    split; [reflexivity | constructor]. }
  destruct (stream_round ts w) as [[w1 e1] [[sd' [ts1 rs1]]|message]];
    cbn [events outcome fst snd] in *.
  2:{ rewrite Hev' in Hev. injection Hev as <-. subst e1.
      destruct Hout as (Hk & _). destruct Hout' as (Hq & _).
      apply (turn_rel_trans ts [_] ts mid' _ (turn_rel_first _ _ Hfetch)).
      split; [exact Hk|]. split; [|exact I].
      apply requests_extend_plain_free, Hq. }
  rewrite Hev' in Hev. injection Hev as <-. subst e1.
  destruct Hout as (-> & Hk & Hg). destruct Hout' as (_ & Hq & _).
  cbn [fst snd] in *.
  pose proof (conclude_round_rel (haveToolResults ts || llm_disable_tools w)
                                 ts1 rs1 w1) as Hc.
  destruct (conclude_round _ (ts1, rs1) w1) as [[w2 e2] o2].
  cbn [events outcome world fst snd] in *.
  apply (turn_rel_trans ts [_] ts (mid' ++ e2) _ (turn_rel_first _ _ Hfetch)).
  apply (turn_rel_trans ts mid' ts1 e2 _); [|exact Hc].
  split; [exact Hk|]. split; [apply requests_extend_plain_free, Hq|].
  destruct Hg as (Hf & Hm & Hh & Ha). repeat split; auto.
  exists (tool_messages mid'). split; [exact Hm|].
  apply tool_messages_no_fetch, Hk.
Qed.

Lemma rounds_loop_rel (fuel : nat) :
  forall ts w,
    turn_rel ts (events (rounds_loop fuel ts w)) (outcome (rounds_loop fuel ts w)).
Proof.
  induction fuel as [|fuel IH]; intros ts w; rewrite rounds_loop_unfold;
    destruct (Nat.ltb (rounds ts) maxRounds);
    try apply turn_rel_refl.
  unfold bind.
  pose proof (run_round_rel ts w) as Hround.
  destruct (run_round ts w) as [[w1 e1] [[ts'|ts']|message]];
    cbn [events outcome state_after state_of fst snd] in *.
  - specialize (IH ts' w1).
    destruct (rounds_loop fuel ts' w1) as [[w2 e2] o2].
    cbn [events outcome fst snd] in *.
    eapply turn_rel_trans; eassumption.
  - unfold ret. cbn [events outcome fst snd]. rewrite app_nil_r. exact Hround.
  - exact Hround.
Qed.

Lemma run_turn_rel (messages : list Message) (w : W) :
  turn_rel (initial_state messages) (events (run_turn messages w))
           (outcome (run_turn messages w)).
Proof. apply rounds_loop_rel. Qed.

(** X7: [generateResponse] raises the loading flag and clears the error before
    anything else, lowers the loading flag after everything else on every
    path, and records the message of the exception exactly when the turn
    fails; nothing in between touches a setter. *)
Theorem loading_and_error_bookkeeping (messages : list Message) (w : W) :
  exists mid,
    no_hook_state mid = true /\
    events (generateResponse messages w)
    = EvSetIsLoading true :: EvSetError None :: mid
        ++ match outcome (generateResponse messages w) with
           | Ok _ => [EvSetIsLoading false]
           | Throws message => [EvSetError (Some message); EvSetIsLoading false]
           end.
Proof.
  rewrite generateResponse_run.
  pose proof (run_turn_rel messages w) as ((Hs & _) & _).
  destruct (run_turn messages w) as [[w' evs] [ts|message]];
    cbn [events outcome fst snd] in *; exists evs; split; auto.
Qed.

(** X8: The conversation buffer is append-only: every request of a turn, the
    streaming ones and the retries alike, carries the caller's messages in
    their order, followed only by tool results and by the instruction that
    follows the tool results of a round. *)
Theorem requests_carry_the_conversation (messages : list Message) (w : W) :
  forall rq,
    In (EvFetch rq) (events (generateResponse messages w)) ->
    exists suffix,
      rq_messages rq
      = map (fun m => {| cm_role := msg_role m; cm_content := msg_content m;
                         cm_name := None |}) messages ++ suffix
      /\ Forall is_appended suffix.
Proof.
  intros rq Hin.
  destruct (generateResponse_events messages w) as (tail & Hev & Hq & _).
  pose proof (run_turn_rel messages w) as (_ & Hreq & _).
  rewrite Hev in Hin. apply in_app_or in Hin as [Hin|Hin].
  - destruct Hin as [H|[H|[]]]; discriminate.
  - apply in_app_or in Hin as [Hin|Hin]; [exact (Hreq rq Hin)|].
    exact (requests_extend_plain_free _ tail Hq rq Hin).
Qed.

Lemma tokens_generateResponse (messages : list Message) (w : W) :
  tokens (events (generateResponse messages w))
  = tokens (events (run_turn messages w))
  /\ has_tool_message (events (generateResponse messages w))
     = has_tool_message (events (run_turn messages w)).
Proof.
  rewrite generateResponse_run.
  destruct (run_turn messages w) as [[w' evs] [ts|message]];
    cbn [events fst snd];
    change (?a :: ?b :: evs ++ ?t) with ([a; b] ++ evs ++ t);
    rewrite !tokens_app, !has_tool_message_app; cbn;
    rewrite ?app_nil_r, ?orb_false_r; split; reflexivity.
Qed.

(** X9: With [onToken] passed, the text that [generateResponse] returns is the
    sanitized concatenation of the tokens it handed out, unless it handed
    out none and a tool result came in, the case of the synthesized
    summary. *)
Theorem returned_text_is_what_was_streamed
        (messages : list Message) (w : W) (text : jsstring) :
  onToken = true ->
  outcome (generateResponse messages w) = Ok text ->
  tokens (events (generateResponse messages w)) <> []
  \/ has_tool_message (events (generateResponse messages w)) = false ->
  text = cleanThinkingContent (tokens (events (generateResponse messages w))).
Proof.
  intros Htok Hout Hcase.
  destruct (tokens_generateResponse messages w) as [-> ->] in Hcase |- *.
  rewrite generateResponse_run in Hout.
  pose proof (run_turn_rel messages w) as (_ & _ & Hrel).
  destruct (run_turn messages w) as [[w' evs] [ts|message]];
    cbn [events outcome fst snd] in *; [|discriminate].
  injection Hout as <-.
  destruct Hrel as (Hf & _ & Hh & _). specialize (Hf Htok).
  cbn [initial_state fullResponse haveToolResults app orb] in Hf, Hh.
  unfold synthesize. destruct (lastToolResult ts) as [result|]; [|rewrite Hf; reflexivity].
  destruct Hcase as [Hne|Hno].
  - destruct (fullResponse ts) as [|c s] eqn:Hfull; [congruence|].
    cbn [is_empty andb]. rewrite Hfull, <- Hf. reflexivity.
  - rewrite Hh, Hno, andb_false_r. cbn [andb]. rewrite Hf. reflexivity.
Qed.

(** X10: The tool results of a turn are accounted for: every message pushed is a
    tool message, [onToolCall] ran once for each of them when it was passed
    and never otherwise, [haveToolResults] is set at the end exactly when a
    tool message was pushed, and exactly then [lastToolResult] holds a
    result. *)
Theorem tool_results_are_accounted_for (messages : list Message) (w : W) :
  let evs := events (run_turn messages w) in
  Forall (fun m => cm_role m = tool) (tool_messages evs)
  /\ count is_callback evs
     = (if onToolCall then List.length (tool_messages evs) else 0)
  /\ match outcome (run_turn messages w) with
     | Ok ts =>
         haveToolResults ts = has_tool_message evs
         /\ (lastToolResult ts <> None <-> has_tool_message evs = true)
     | Throws _ => True
     end.
Proof.
  cbv zeta. pose proof (run_turn_rel messages w) as ((_ & Hr & Hc & _) & _ & Hrel).
  split; [exact Hr|]. split; [exact Hc|].
  destruct (outcome (run_turn messages w)) as [ts|message]; [|exact I].
  destruct Hrel as (_ & _ & Hh & Ha).
  cbn [initial_state haveToolResults orb] in Hh.
  specialize (Ha eq_refl). unfold flags_agree in Ha.
  split; [exact Hh|]. rewrite <- Hh, Ha.
  destruct (lastToolResult ts); split; congruence.
Qed.

(** ** The dialects without tools *)

(** What the stream keeps outside the Ollama dialect: no tool call is
    executed and none is recorded. *)
Definition sse_rel (v : Vars) (evs : list Event) (o : Res Vars) : Prop :=
  no_dispatch evs = true /\
  match o with
  | Ok v' => encounteredToolCall (snd v') = encounteredToolCall (snd v)
  | Throws _ => True
  end.

Lemma sse_rel_refl (v : Vars) : sse_rel v [] (Ok v).
Proof. split; reflexivity. Qed.

Lemma sse_rel_trans v e1 v1 e2 o :
  sse_rel v e1 (Ok v1) -> sse_rel v1 e2 o -> sse_rel v (e1 ++ e2) o.
Proof.
  intros (Hd1 & He1) (Hd2 & H2). split.
  - rewrite no_dispatch_app, Hd1, Hd2. reflexivity.
  - destruct o as [v2|]; [congruence | exact I].
Qed.

Lemma deliver_sse (content : jsstring) (v : Vars) :
  sat (deliver onToken content v) (sse_rel v).
Proof.
  intros w. destruct v as [ts rs]. unfold deliver. unfold_act.
  destruct (truthy content); [|apply sse_rel_refl].
  destruct onToken; split; reflexivity.
Qed.

Lemma handle_line_sse_quiet (v : Vars) (line : jsstring) :
  sat (handle_line_sse onToken v line) (sse_rel v).
Proof.
  unfold handle_line_sse.
  destruct (strip_prefix _ line) as [data|]; [|apply sat_ret, sse_rel_refl].
  destruct (str_eqb data _); [apply sat_ret, sse_rel_refl|].
  destruct (parse_record data) as [parsed|]; [|apply sat_ret, sse_rel_refl].
  apply deliver_sse.
Qed.

Lemma read_loop_sse (chunks : list (list byte)) (ending : StreamEnd) (v : Vars) :
  sat (read_loop false onToken onToolCall chunks ending v) (sse_rel v).
Proof.
  revert v. induction chunks as [|value rest IH]; intros [ts rs].
  - cbn [read_loop]. destruct ending.
    + apply sat_ret, sse_rel_refl.
    + apply sat_throw. split; [reflexivity | exact I].
  - cbn [read_loop].
    destruct (Frame.feed (streamBuffer rs) (Frame.decode value)) as [segments buffer].
    eapply sat_bind.
    + apply (sat_for_each (handle_line false onToken onToolCall) segments
                          sse_rel sse_rel_refl sse_rel_trans).
      intros v0 line. apply handle_line_sse_quiet.
    + intros e1 v1 H1. eapply sat_weaken; [apply IH|].
      intros e2 o H2. eapply sse_rel_trans; [|exact H2].
      destruct H1 as (Hd & He). split; [exact Hd | exact He].
    + intros e1 message (Hd & _). split; [exact Hd | exact I].
Qed.

Lemma handle_residual_sse (v : Vars) :
  sat (handle_residual false onToken v) (sse_rel v).
Proof.
  unfold handle_residual. destruct v as [ts rs].
  destruct (Frame.has_residual (streamBuffer rs)); [|apply sat_ret, sse_rel_refl].
  destruct (strip_prefix _ _) as [data|]; [|apply sat_ret, sse_rel_refl].
  destruct (str_eqb data _); [apply sat_ret, sse_rel_refl|].
  destruct (parse_record data); [apply deliver_sse | apply sat_ret, sse_rel_refl].
Qed.

Lemma stream_round_sse (ts : TurnState) (w : W) :
  isOllama = false ->
  no_dispatch (events (stream_round ts w)) = true
  /\ match outcome (stream_round ts w) with
     | Ok (_, v') => encounteredToolCall (snd v') = false
     | Throws _ => True
     end.
Proof.
  intros Hsse. unfold stream_round. rewrite Hsse. run_act.
  destruct (fetch_llm w _) as [w1 [response|message]]; cbv beta iota zeta.
  2:{ split; [reflexivity | exact I]. }
  destruct (resp_ok response); cbv beta iota zeta delta [negb].
  2:{ split; [reflexivity | exact I]. }
  destruct (resp_body response) as [[chunks ending]|]; cbv beta iota zeta.
  2:{ split; [reflexivity | exact I]. }
  pose proof (read_loop_sse chunks ending (ts, new_round) w1) as Hread.
  unfold_act.
  destruct (read_loop false onToken onToolCall chunks ending (ts, new_round) w1)
    as [[w2 e2] [v2|message]]; cbv beta iota zeta in *.
  2:{ destruct Hread as (Hd & _). split; [|exact I].
      rewrite ?app_nil_r, !no_dispatch_app, Hd. reflexivity. }
  pose proof (handle_residual_sse v2 w2) as Hres.
  unfold_act.
  destruct (handle_residual false onToken v2 w2) as [[w3 e3] [v3|message]];
    cbv beta iota zeta in *.
  - destruct (sse_rel_trans _ _ _ _ _ Hread Hres) as (Hd & He). split.
    + rewrite ?app_nil_r, no_dispatch_app, (no_dispatch_app [_]), Hd. reflexivity.
    + exact He.
  - destruct (sse_rel_trans _ _ _ _ _ Hread Hres) as (Hd & _). split; [|exact I].
    rewrite ?app_nil_r, no_dispatch_app, (no_dispatch_app [_]), Hd. reflexivity.
Qed.

Lemma conclude_round_no_dispatch (sd : bool) (v : Vars) (w : W) :
  no_dispatch (events (conclude_round sd v w)) = true.
Proof.
  destruct v as [ts rs]. unfold conclude_round.
  destruct (encounteredToolCall rs); [reflexivity|].
  destruct (_ && _); [|reflexivity].
  unfold flat_fallback. run_act.
  destruct (fetch_llm w _) as [w1 [flatResponse|message]]; cbv beta iota zeta;
    [|reflexivity].
  destruct (resp_ok flatResponse); cbv beta iota zeta; [|reflexivity].
  destruct (resp_json flatResponse) as [json|message]; cbv beta iota zeta;
    [|reflexivity].
  destruct (truthy (flat_content json)); cbv beta iota zeta; [|reflexivity].
  destruct onToken; reflexivity.
Qed.

(** Outside the Ollama dialect a round executes nothing and is the last. *)
Lemma run_round_sse (ts : TurnState) (w : W) :
  isOllama = false ->
  no_dispatch (events (run_round ts w)) = true
  /\ match outcome (run_round ts w) with
     | Ok (Continue _) => False
     | _ => True
     end.
Proof.
  intros Hsse. rewrite run_round_unfold.
  destruct (stream_round_sse ts w Hsse) as (Hd & Hout).
  destruct (stream_round ts w) as [[w1 e1] [[sd [ts1 rs1]]|message]];
    cbn [events outcome fst snd] in *; [|split; [exact Hd | exact I]].
  pose proof (conclude_round_no_dispatch sd (ts1, rs1) w1) as Hd2.
  pose proof (conclude_round_spec sd ts1 rs1 w1) as Hc. cbv zeta in Hc.
  rewrite Hout in Hc. destruct Hc as (_ & Hc).
  split; [rewrite no_dispatch_app, Hd, Hd2; reflexivity|].
  destruct (outcome (conclude_round sd (ts1, rs1) w1)) as [[ts'|ts']|message];
    [exact Hc | exact I | exact I].
Qed.

Lemma run_turn_sse (messages : list Message) (w : W) :
  isOllama = false ->
  run_turn messages w
  = match run_round (initial_state messages) w with
    | (w1, e1, Ok out) => (w1, e1, Ok (state_of out))
    | (w1, e1, Throws message) => (w1, e1, Throws message)
    end.
Proof.
  intros Hsse. unfold run_turn.
  change (rounds_loop maxRounds (initial_state messages) w)
    with (bind (run_round (initial_state messages))
               (fun out => match out with
                           | Continue ts' => rounds_loop 2 ts'
                           | Break ts' => ret ts'
                           end) w).
  unfold bind.
  destruct (run_round_sse (initial_state messages) w Hsse) as (_ & Hout).
  destruct (run_round (initial_state messages) w) as [[w1 e1] [[ts'|ts']|message]];
    cbn [outcome snd] in *; [destruct Hout | | reflexivity].
  unfold ret. rewrite app_nil_r. reflexivity.
Qed.

(** X11: Outside the Ollama dialect (the endpoint is not typed [ollama] and does
    not mention port 11434) a turn is a single round: one streaming request,
    no tool offered in any request, the caller's messages unchanged in every
    request, the OpenAI-style URL, and no tool call executed whatever the
    stream holds. *)
Theorem other_dialects_take_one_round (messages : list Message) (w : W) :
  isOllama = false ->
  let evs := events (generateResponse messages w) in
  count is_stream_fetch evs = 1
  /\ no_dispatch evs = true
  /\ forall rq, In (EvFetch rq) evs ->
                rq_tools rq = None /\ rq_tool_choice rq = None
                /\ rq_ollama rq = false
                /\ rq_url rq = cfg_endpoint config ++ lit "/v1/chat/completions"
                /\ rq_messages rq = rollingMessages (initial_state messages).
Proof.
  intros Hsse. cbv zeta.
  destruct (generateResponse_events messages w) as (tail & Hev & Hq & Ht).
  assert (Htail : no_dispatch ([EvSetIsLoading true; EvSetError None]) = true
                  /\ no_dispatch tail = true).
  { split; [reflexivity|]. revert Hev. rewrite generateResponse_run.
    destruct (run_turn messages w) as [[w' evs] [ts|message]];
      cbn [events fst snd]; intros Hev;
      change (?a :: ?b :: evs ++ ?t) with ([a; b] ++ evs ++ t) in Hev;
      apply app_inv_head, app_inv_head in Hev; subst tail; reflexivity. }
  rewrite Hev. clear Hev.
  assert (Hturn : events (run_turn messages w)
                  = events (run_round (initial_state messages) w)).
  { rewrite (run_turn_sse messages w Hsse).
    destruct (run_round (initial_state messages) w) as [[w1 e1] [out|message]];
      reflexivity. }
  rewrite Hturn.
  destruct (run_round_sse (initial_state messages) w Hsse) as (Hd & _).
  pose proof (run_round_one_stream_fetch (initial_state messages) w) as Hone.
  destruct (run_round_shape (initial_state messages) w)
    as (mid & rest & Hshape & Hqm & _ & Hrest & _).
  split; [|split].
  - rewrite !count_app, Hone, (count_no_fetch_stream tail Hq). reflexivity.
  - rewrite !no_dispatch_app, Hd. destruct Htail as [-> ->]. reflexivity.
  - intros rq Hin.
    assert (Hrq : rq = stream_request
                         (haveToolResults (initial_state messages)
                          || llm_disable_tools w)
                         (rollingMessages (initial_state messages))
                  \/ rq = flat_request
                            (haveToolResults (initial_state messages)
                             || llm_disable_tools w)
                            (rollingMessages (initial_state messages))).
    { apply in_app_or in Hin as [Hin|Hin];
        [destruct Hin as [H|[H|[]]]; discriminate|].
      apply in_app_or in Hin as [Hin|Hin].
      2:{ unfold no_fetch in Hq. rewrite forallb_forall in Hq.
          specialize (Hq _ Hin). discriminate. }
      rewrite Hshape in Hin. destruct Hin as [H|Hin]; [left; congruence|].
      apply in_app_or in Hin as [Hin|Hin].
      { unfold no_fetch in Hqm. rewrite forallb_forall in Hqm.
        specialize (Hqm _ Hin). discriminate. }
      destruct Hrest as [-> | (_ & post & -> & Hp & _)]; [destruct Hin|].
      destruct Hin as [H|[H|Hin]]; [discriminate | right; congruence |].
      unfold no_fetch in Hp. rewrite forallb_forall in Hp.
      specialize (Hp _ Hin). discriminate. }
    destruct Hrq as [-> | ->]; unfold stream_request, flat_request, endpoint;
      rewrite Hsse; repeat split.
Qed.

(** ** The layout tool and its payload *)





(** *** Decimal numerals *)

Lemma lit_inj (a b : string) : lit a = lit b -> a = b.
Proof.
  unfold lit. revert b. induction a as [|c a IH]; intros [|c' b]; cbn;
    try discriminate; [reflexivity|].
  intros [= Hc Hs]. f_equal; [|apply IH, Hs].
  rewrite <- (ascii_N_embedding c), <- (ascii_N_embedding c'), Hc. reflexivity.
Qed.

Lemma decimal_inj (n m : nat) : decimal n = decimal m -> n = m.
Proof.
  unfold decimal. intros H. apply lit_inj in H.
  assert (Hback : forall d,
             option_map Nat.of_uint
               (NilZero.uint_of_string (NilZero.string_of_uint d))
             = Some (Nat.of_uint d)).
  { intros d. destruct d; [reflexivity|..];
      rewrite NilZero.usu by discriminate; reflexivity. }
  pose proof (Hback (Nat.to_uint n)) as Hn.
  pose proof (Hback (Nat.to_uint m)) as Hm.
  rewrite H, Hm, !Unsigned.of_to in Hn. congruence.
Qed.




Lemma forallb_rev {A} (f : A -> bool) (l : list A) :
  forallb f (rev l) = forallb f l.
Proof.
  induction l as [|a l IH]; [reflexivity|].
  cbn [rev forallb]. rewrite forallb_app, IH. cbn. rewrite andb_true_r.
  apply andb_comm.
Qed.















(** ** The rooms of the watchdog *)

Lemma search_bhk_digit (s : jsstring) (n : nat) :
  search bhk_at s = Some n -> n <= 9.
Proof.
  induction s as [|c s IH]; cbn [search bhk_at]; [discriminate|].
  destruct (is_digit c) eqn:Hd.
  - destruct (strip_prefix_ci (lit "bhk") (skip_blanks s)).
    + intros [= <-]. unfold is_digit in Hd.
      apply andb_prop in Hd as [H1 H2].
      apply N.leb_le in H1, H2. lia.
    + exact IH.
  - exact IH.
Qed.

(** The leftmost digit followed by [bhk] is the one the watchdog reads. *)
Lemma search_bhk_found (before : jsstring) :
  forall (d : N) (after rest : jsstring),
    is_digit d = true ->
    strip_prefix_ci (lit "bhk") (trimStart after) = Some rest ->
    (forall b' d' a',
        before = b' ++ d' :: a' -> is_digit d' = true ->
        strip_prefix_ci (lit "bhk") (trimStart (a' ++ d :: after)) = None) ->
    search bhk_at (before ++ d :: after) = Some (N.to_nat (d - 48)).
Proof.
  induction before as [|c before IH]; intros d after rest Hd Hbhk Hfirst.
  - cbn [app search bhk_at]. unfold skip_blanks. rewrite Hd, Hbhk. reflexivity.
  - cbn [app search bhk_at]. unfold skip_blanks.
    assert (Hhere : (if is_digit c
                     then match strip_prefix_ci (lit "bhk")
                                  (trimStart (before ++ d :: after)) with
                          | Some _ => Some (N.to_nat (c - 48))
                          | None => None
                          end
                     else None) = None).
    { destruct (is_digit c) eqn:Hc; [|reflexivity].
      rewrite (Hfirst [] c before eq_refl Hc). reflexivity. }
    rewrite Hhere. apply (IH d after rest Hd Hbhk).
    intros b' d' a' -> Hd'. apply (Hfirst (c :: b') d' a' eq_refl Hd').
Qed.

Lemma search_bhk_none (content : jsstring) :
  (forall before d after,
      content = before ++ d :: after -> is_digit d = true ->
      strip_prefix_ci (lit "bhk") (trimStart after) = None) ->
  search bhk_at content = None.
Proof.
  induction content as [|c content IH]; intros Hnone; [reflexivity|].
  cbn [search bhk_at]. unfold skip_blanks.
  assert (Hhere : (if is_digit c
                   then match strip_prefix_ci (lit "bhk") (trimStart content) with
                        | Some _ => Some (N.to_nat (c - 48))
                        | None => None
                        end
                   else None) = None).
  { destruct (is_digit c) eqn:Hc; [|reflexivity].
    rewrite (Hnone [] c content eq_refl Hc). reflexivity. }
  rewrite Hhere. apply IH.
  intros before d after -> Hd. apply (Hnone (c :: before) d after eq_refl Hd).
Qed.

Lemma later_bedrooms (n : nat) :
  forall start, 2 <= start ->
                map (fun i => room_type (bedroom i)) (seq start n)
                = repeat (Some (lit "bedroom")) n.
Proof.
  induction n as [|n IH]; intros start Hstart; [reflexivity|].
  cbn [seq map repeat]. rewrite IH by lia. f_equal.
  unfold bedroom, fixed_room. cbn [room_type].
  destruct (Nat.eqb_spec start 1); [lia | reflexivity].
Qed.

Definition bedroom_types (bhk : nat) : list jsstring :=
  match bhk with
  | O => []
  | S n => lit "master_bedroom" :: repeat (lit "bedroom") n
  end.

(** The types of the rooms for [bhk] bedrooms, in order. *)
Definition room_types_for (bhk : nat) : list (option jsstring) :=
  map Some ([lit "living"; lit "kitchen"] ++ bedroom_types bhk
            ++ repeat (lit "bathroom") (Nat.max 1 ((bhk + 1) / 2))).

Lemma map_repeat {A B} (f : A -> B) (a : A) (n : nat) :
  map f (repeat a n) = repeat (f a) n.
Proof. induction n as [|n IH]; cbn; [reflexivity | rewrite IH; reflexivity]. Qed.

Lemma watchdog_room_types (bhk : nat) :
  map room_type (watchdog_rooms bhk) = room_types_for bhk.
Proof.
  unfold watchdog_rooms, room_types_for, for_1_to.
  rewrite !map_app, !map_map, !map_repeat.
  f_equal. f_equal.
  - destruct bhk as [|n]; [reflexivity|].
    cbn [seq map bedroom_types]. rewrite map_repeat. f_equal.
    apply later_bedrooms. lia.
  - fold (bathrooms_for bhk). generalize (bathrooms_for bhk) 1. clear.
    intros n. induction n as [|n IH]; intros start; [reflexivity|].
    cbn [seq map repeat]. rewrite IH. reflexivity.
Qed.

Lemma NoDup_map_injective {A B} (f : A -> B) (l : list A) :
  (forall a b, f a = f b -> a = b) -> NoDup l -> NoDup (map f l).
Proof.
  intros Hinj. induction 1 as [|x l Hx Hl IH]; cbn [map]; constructor;
    [|exact IH].
  rewrite in_map_iff. intros (y & Heq & Hy). apply Hinj in Heq. congruence.
Qed.

Lemma watchdog_room_ids (bhk : nat) :
  NoDup (map room_id (watchdog_rooms bhk)).
Proof.
  unfold watchdog_rooms, for_1_to. rewrite !map_app, !map_map.
  assert (Hnum : forall (prefix : jsstring) n start,
             NoDup (map (fun i => prefix ++ decimal i) (seq start n))).
  { intros prefix n start. apply NoDup_map_injective; [|apply seq_NoDup].
    intros a b H. apply app_inv_head in H. apply decimal_inj, H. }
  apply NoDup_app; [|apply NoDup_app|].
  - cbn. constructor; [|constructor; [intros [] | constructor]].
    intros [H|[]]. discriminate.
  - apply (Hnum (lit "bed_")).
  - apply (Hnum (lit "bath_")).
  - intros id Hbed Hbath.
    apply in_map_iff in Hbed as (i & <- & _).
    apply in_map_iff in Hbath as (j & Heq & _).
    cbn in Heq. discriminate.
  - intros id Hfixed Hrest.
    apply in_app_or in Hrest as [H|H];
      apply in_map_iff in H as (i & <- & _);
      cbn in Hfixed; destruct Hfixed as [H|[H|[]]]; discriminate.
Qed.

(** X15: The rooms that the watchdog asks for, from the BHK number of the
    message: the leftmost digit that is followed, after any blanks, by
    [bhk] in any case, and 2 when no digit is.  They are a living room
    and a kitchen, one bedroom for each unit of that number, the first of
    them the master bedroom, and one bathroom for every two bedrooms,
    rounded up, at least one; between 3 and 16 rooms in all, with pairwise
    distinct ids. *)
Theorem watchdog_asks_for_these_rooms
        (content : jsstring) (plotWidth plotLength : num) :
  let rooms := pl_rooms (watchdog_payload content plotWidth plotLength) in
  (forall (before : jsstring) (d : N) (after rest : jsstring),
      content = before ++ d :: after ->
      is_digit d = true ->
      strip_prefix_ci (lit "bhk") (trimStart after) = Some rest ->
      (forall b' d' a',
          before = b' ++ d' :: a' -> is_digit d' = true ->
          strip_prefix_ci (lit "bhk") (trimStart (a' ++ d :: after)) = None) ->
      map room_type rooms = room_types_for (N.to_nat (d - 48)))
  /\ ((forall before d after,
          content = before ++ d :: after -> is_digit d = true ->
          strip_prefix_ci (lit "bhk") (trimStart after) = None) ->
      map room_type rooms = room_types_for 2)
  /\ 3 <= List.length rooms <= 16
  /\ NoDup (map room_id rooms).
Proof.
  cbv zeta. unfold watchdog_payload. cbn [pl_rooms].
  split; [|split].
  - intros before d after rest -> Hd Hbhk Hfirst.
    rewrite (search_bhk_found before d after rest Hd Hbhk Hfirst).
    apply watchdog_room_types.
  - intros Hnone. rewrite (search_bhk_none content Hnone).
    apply watchdog_room_types.
  - set (bhk := match search bhk_at content with Some n => n | None => 2 end).
    assert (Hbound : bhk <= 9).
    { subst bhk. destruct (search bhk_at content) as [n|] eqn:Hs; [|lia].
      apply (search_bhk_digit _ _ Hs). }
    split; [|apply watchdog_room_ids].
    rewrite <- (length_map room_type), watchdog_room_types.
    unfold room_types_for. rewrite length_map, !length_app, repeat_length.
    assert (Hbed : List.length (bedroom_types bhk) = bhk).
    { destruct bhk; cbn; rewrite ?repeat_length; reflexivity. }
    rewrite Hbed. cbn [List.length].
    assert ((bhk + 1) / 2 <= 5).
    { apply Nat.Div0.div_le_upper_bound. lia. }
    lia.
Qed.

(** ** How the watchdog ends *)

Definition is_report (e : Event) : bool :=
  match e with
  | EvSetRooms _ | EvToast _ _ | EvConsole Error _ => true
  | _ => false
  end.

(** X16: When the watchdog fires with neither flag set it ends in exactly one of
    three ways: the rooms are replaced and the success toast is shown; the
    failure is logged and the destructive toast is shown, the rooms left
    alone; or an exception is logged, with no toast at all. *)
Theorem watchdog_reports_once
        (content : jsstring) (plotWidth plotLength : num) (w : W) :
  let reports :=
    filter is_report (events (watchdog false false content plotWidth plotLength w)) in
  (exists rooms,
      reports = [EvSetRooms rooms;
                 EvToast (lit "Fallback floor plan generated") false])
  \/ reports = [EvConsole Error (lit "[Watchdog] Fallback generation failed");
                EvToast (lit "Generation failed") true]
  \/ reports = [EvConsole Error (lit "[Watchdog] Exception")].
Proof.
  cbv zeta. unfold watchdog. cbn [orb]. run_act.
  set (payload := watchdog_payload content plotWidth plotLength).
  destruct (fetch_backend w payload) as [w1 [genRes|m1]];
    cbv beta iota zeta; [|right; right; reflexivity].
  destruct (gen_ok genRes) eqn:Hok1; cbv beta iota zeta.
  - rewrite Hok1.
    destruct (gen_json genRes) as [genJson|m]; cbv beta iota zeta;
      [|right; right; reflexivity].
    destruct (member genJson "rooms") as [[rooms|]|m]; cbv beta iota zeta;
      try (right; right; reflexivity); try (right; left; reflexivity).
    destruct (json_truthy rooms); cbv beta iota zeta;
      [|right; left; reflexivity].
    destruct rooms; cbv beta iota zeta; try (right; right; reflexivity).
    destruct (map_res positioned items); cbv beta iota zeta;
      [left; eexists; reflexivity | right; right; reflexivity].
  - destruct (fetch_backend w1 (with_solver payload constraint))
      as [w2 [genRes2|m2]]; cbv beta iota zeta; [|right; right; reflexivity].
    destruct (gen_json genRes2) as [genJson|m]; cbv beta iota zeta;
      [|right; right; reflexivity].
    destruct (gen_ok genRes2); cbv beta iota zeta; [|right; left; reflexivity].
    destruct (member genJson "rooms") as [[rooms|]|m]; cbv beta iota zeta;
      try (right; right; reflexivity); try (right; left; reflexivity).
    destruct (json_truthy rooms); cbv beta iota zeta;
      [|right; left; reflexivity].
    destruct rooms; cbv beta iota zeta; try (right; right; reflexivity).
    destruct (map_res positioned items); cbv beta iota zeta;
      [left; eexists; reflexivity | right; right; reflexivity].
Qed.

(** ** A tool call that fails *)

(** The summary of a result that names no solver, no score and no rooms. *)
Definition bare_summary : jsstring :=
  lit "Generated layout using graph solver. Visualized rooms have been updated. Summary: 1) Plot parsed and constraints applied; 2) Vastu potential mapping considered; 3) Rule-guided placement optimized; 4) Final vector output rendered.".

(** X14: When the backend request of [generate_layout_hybrid] throws, the tool
    call still completes: its result is an error object with the message
    of the exception, and if the turn ends without text the summary that
    is synthesized from that result says that a layout was generated. *)
Theorem failed_tool_call_is_reported_as_generated
        (ts : TurnState) (toolCall : ToolCall) (args : json) (w w' : W)
        (message : jsstring) :
  resolve_args toolCall = Ok args ->
  function_name toolCall = Ok (lit "generate_layout_hybrid") ->
  fetch_backend w (layout_payload args) = (w', Throws message) ->
  fullResponse ts = [] ->
  exists ts',
    outcome (handle_tool_call onToolCall ts toolCall w) = Ok ts'
    /\ lastToolResult ts'
       = Some (error_result (text_or (Some message) (lit "Backend generation failed")))
    /\ fullResponse (synthesize ts') = bare_summary
    /\ cleanThinkingContent (fullResponse (synthesize ts')) = bare_summary.
Proof.
  intros Hargs Hname Hfetch Hempty.
  assert (Hsyn : forall ts' result,
             fullResponse ts' = [] -> haveToolResults ts' = true ->
             lastToolResult ts' = Some (error_result result) ->
             fullResponse (synthesize ts') = bare_summary).
  { intros ts' result H1 H2 H3. unfold synthesize. rewrite H3, H1, H2.
    reflexivity. }
  assert (Hclean : cleanThinkingContent bare_summary = bare_summary).
  { vm_compute. reflexivity. }
  unfold handle_tool_call, execute_generate. run_act.
  rewrite Hargs, Hname. cbv beta iota zeta.
  change (str_eqb (lit "generate_layout_hybrid") (lit "generate_layout_hybrid"))
    with true.
  cbv beta iota zeta. rewrite Hfetch. cbv beta iota zeta.
  destruct onToolCall; cbv beta iota zeta; eexists; (split; [reflexivity|]);
    (split; [reflexivity|]);
    match goal with
    | |- context [synthesize ?t] => rewrite (Hsyn t _ Hempty eq_refl eq_refl)
    end; (split; [reflexivity | exact Hclean]).
Qed.

(** ** More on the sanitizer *)

(** X4: What [cleanThinkingContent] returns has no blank at either end. *)
Theorem cleanThinkingContent_is_trimmed (text : jsstring) :
  trim (cleanThinkingContent text) = cleanThinkingContent text.
Proof.
  unfold cleanThinkingContent. destruct (is_empty text); [reflexivity|].
  destruct (separate text) as [mainContent thinkingContent]. cbv zeta.
  apply trim_idempotent.
Qed.

(** X5: A text without a closed [<think>] block and without a line that opens
    like reasoning is returned as it is, trimmed. *)
Theorem plain_text_passes_through (text : jsstring) :
  think_match text = None ->
  looksLikeThinking text = false ->
  trim text <> [] ->
  cleanThinkingContent text = trim text.
Proof.
  intros Hmatch Hlooks Hblank. unfold cleanThinkingContent, separate.
  rewrite Hmatch, Hlooks. cbn [andb].
  destruct text as [|c text']; [destruct Hblank; reflexivity|].
  cbn [is_empty truthy negb app].
  destruct (trim (c :: text')) eqn:Htrim; [destruct Hblank; reflexivity|].
  cbn [is_empty]. exact Htrim.
Qed.

Lemma trimStart_blanks (blanks s : jsstring) :
  forallb is_white_space blanks = true -> trimStart (blanks ++ s) = trimStart s.
Proof.
  induction blanks as [|c blanks IH]; cbn [forallb app trimStart];
    [reflexivity|].
  intros H. apply andb_prop in H as [-> H]. apply IH, H.
Qed.

(** Trimming a text that is wrapped in two characters that are no blanks
    and followed by blanks. *)
Lemma trim_wrapped (a z : N) (mid blanks : jsstring) :
  is_white_space a = false -> is_white_space z = false ->
  forallb is_white_space blanks = true ->
  trim (a :: mid ++ z :: blanks) = a :: mid ++ [z].
Proof.
  intros Ha Hz Hblanks. unfold trim. cbn [trimStart]. rewrite Ha.
  unfold trimEnd.
  change (a :: mid ++ z :: blanks) with ((a :: mid) ++ [z] ++ blanks).
  rewrite app_assoc, rev_app_distr, trimStart_blanks
    by (rewrite forallb_rev; exact Hblanks).
  rewrite rev_app_distr. cbn [rev app trimStart]. rewrite Hz.
  cbn [rev]. rewrite rev_app_distr, rev_involutive. reflexivity.
Qed.

Lemma details_block_wrapped (thinkingContent : jsstring) :
  exists mid,
    details_block thinkingContent = 60%N :: mid ++ 62%N :: [LF; LF].
Proof.
  exists (lit "details class=" ++ [DQUOTE] ++ lit "thinking-container"
          ++ [DQUOTE] ++ lit ">" ++ [LF]
          ++ lit "<summary>" ++ balloon ++ lit " View AI Reasoning</summary>"
          ++ [LF; LF] ++ thinkingContent ++ [LF; LF] ++ lit "</details").
  unfold details_block. rewrite <- !app_assoc. reflexivity.
Qed.

(** X6: A text without a closed [<think>] block in which some line opens like
    reasoning is folded entirely into the reasoning block, and no main
    content is left: the result is the block without the two line feeds
    that end it. *)
Theorem untagged_reasoning_is_folded (text : jsstring) :
  think_match text = None ->
  looksLikeThinking text = true ->
  cleanThinkingContent text ++ [LF; LF] = details_block text.
Proof.
  intros Hmatch Hlooks. unfold cleanThinkingContent, separate.
  rewrite Hmatch, Hlooks. cbn [andb is_empty].
  destruct text as [|c text']; [vm_compute in Hlooks; discriminate|].
  cbn [is_empty truthy negb]. rewrite app_nil_r.
  destruct (details_block_wrapped (c :: text')) as (mid & ->).
  rewrite trim_wrapped by reflexivity. cbn [is_empty].
  rewrite trim_wrapped by reflexivity.
  change (60%N :: mid ++ 62%N :: [LF; LF]) with ((60%N :: mid) ++ [62%N] ++ [LF; LF]).
  rewrite app_assoc. reflexivity.
Qed.

(** ** More on the frame decoder *)

(** X3: Every line feed separates, a carriage return never does on its own:
    the segments are one more than the line feeds of the text, and no
    segment holds a line feed. *)
Theorem split_lines_at_every_line_feed (s : jsstring) :
  List.length (split_lines s) = S (count_occ N.eq_dec s LF)
  /\ Forall (fun seg => ~ In LF seg) (split_lines s).
Proof.
  induction s as [|c s [IHlen IHall]].
  - split; [reflexivity|]. constructor; [intros [] | constructor].
  - cbn [split_lines count_occ].
    destruct (N.eqb_spec c LF) as [->|Hc].
    + destruct (N.eq_dec LF LF) as [_|H]; [|destruct H; reflexivity].
      cbn [List.length]. rewrite IHlen. split; [reflexivity|].
      constructor; [intros [] | exact IHall].
    + destruct (N.eq_dec c LF) as [H|_]; [destruct (Hc H)|].
      destruct ((c =? CR)%N && _); [split; assumption|].
      destruct (split_lines s) as [|seg segs] eqn:Hs.
      { destruct (split_lines_not_nil _ Hs). }
      split; [exact IHlen|].
      inversion IHall as [|? ? Hseg Hsegs]; subst.
      constructor; [|exact Hsegs].
      intros [H|H]; [apply Hc; exact H | exact (Hseg H)].
Qed.

(** The chunks of a byte stream that holds ASCII only. *)
Definition is_ascii (value : list byte) : bool :=
  forallb (fun b => (Byte.to_N b <=? 127)%N) value.

Lemma utf8_decode_ascii (value : list byte) :
  is_ascii value = true ->
  utf8_decode utf8_initial value = map Byte.to_N value.
Proof.
  induction value as [|b value IH]; [reflexivity|].
  cbn [is_ascii forallb]. intros H. apply andb_prop in H as [Hb H].
  cbn [utf8_decode utf8_initial bytes_needed]. unfold lead_byte.
  rewrite Hb. cbn [app map]. f_equal. apply IH, H.
Qed.

Lemma decode_ascii (value : list byte) :
  is_ascii value = true -> decode value = map Byte.to_N value.
Proof.
  intros H. unfold decode. rewrite (utf8_decode_ascii value H).
  assert (Hbom : strip_bom (map Byte.to_N value) = map Byte.to_N value).
  { destruct value as [|b value]; [reflexivity|].
    cbn [map strip_bom]. cbn [is_ascii forallb] in H.
    apply andb_prop in H as [Hb _]. apply N.leb_le in Hb.
    destruct (N.eqb_spec (Byte.to_N b) BOM) as [Heq|_]; [|reflexivity].
    rewrite Heq in Hb. unfold BOM in Hb. lia. }
  rewrite Hbom. clear Hbom.
  induction value as [|b value IH]; [reflexivity|].
  cbn [is_ascii forallb] in H. apply andb_prop in H as [Hb H].
  cbn [map flat_map]. rewrite (IH H). unfold utf16_units.
  apply N.leb_le in Hb.
  destruct (N.ltb_spec (Byte.to_N b) 65536); [reflexivity | lia].
Qed.

Lemma is_ascii_concat (chunks : list (list byte)) :
  forallb is_ascii chunks = true -> is_ascii (List.concat chunks) = true.
Proof.
  induction chunks as [|value chunks IH]; [reflexivity|].
  cbn [forallb List.concat]. intros H. apply andb_prop in H as [Hv Hrest].
  unfold is_ascii in *. rewrite forallb_app, Hv. apply IH, Hrest.
Qed.

(** X2: Chunk-boundary invariance on ASCII: however a stream of ASCII bytes is
    cut into chunks, the lines handed to the parser and the residual are
    those of the stream delivered in one chunk. *)
Theorem records_of_ascii_ignore_chunking (chunks : list (list byte)) :
  forallb is_ascii chunks = true ->
  records chunks = records [List.concat chunks].
Proof.
  intros Hascii. unfold records. cbn [map].
  assert (Hconcat : decode (List.concat chunks) = List.concat (map decode chunks)).
  { rewrite (decode_ascii _ (is_ascii_concat chunks Hascii)).
    induction chunks as [|value chunks IH]; [reflexivity|].
    cbn [forallb] in Hascii. apply andb_prop in Hascii as [Hv Hrest].
    cbn [List.concat map]. rewrite map_app, (IH Hrest), (decode_ascii value Hv).
    reflexivity. }
  rewrite Hconcat.
  destruct (feed_all_concat_cases (map decode chunks) []) as [Heq | Hnil];
    [exact Heq|].
  destruct chunks; [reflexivity | discriminate].
Qed.

(** ** The callback that [handleSend] passes as [onToolCall] *)

(** The two flags of [handleSend] that the watchdog looks at. *)
Record SendFlags := {
  toolCallDetected : bool;
  toolCallHandled : bool
}.

Inductive PageEffect :=
| PgSetRooms (rooms : option json)        (* [setRooms(result.rooms)] *)
| PgToast (title description : jsstring) (destructive : bool)
| PgClearWatchdog                         (* [clearTimeout(watchdog)] *)
| PgConsoleError (tag : jsstring).

(** A computation of the page: it reads and writes the flags. *)
Definition Page (A : Type) : Type := Effects.M SendFlags PageEffect A.

Definition mark_detected : Page unit :=
  fun flags =>
    ({| toolCallDetected := true; toolCallHandled := toolCallHandled flags |},
     [], Ok tt).

Definition mark_handled : Page unit :=
  fun flags =>
    ({| toolCallDetected := toolCallDetected flags; toolCallHandled := true |},
     [], Ok tt).

(** [a || b] on values. *)
Definition truthy_or (a : option json) (b : json) : json :=
  match a with
  | Some v => if json_truthy v then v else b
  | None => b
  end.

(** A value in a template literal is converted with [ToString].  On a
    primitive that is [String(v)].  On an object or an array it calls
    [toString] and [valueOf], and throws a [TypeError] when neither gives
    a primitive, as for [{"toString": 1}]: [conversion_error v] is the
    message of that error, [None] when the conversion succeeds. *)
Variable conversion_error : json -> option jsstring.

Definition template (v : json) : Res jsstring :=
  match v with
  | JObj _ | JArr _ =>
      match conversion_error v with
      | Some message => Throws message
      | None => Ok (to_string v)
      end
  | _ => Ok (to_string v)
  end.

(** [result.rooms?.length ?? 0], as the template literal prints it. *)
Definition rooms_count (rooms : option json) : Res jsstring :=
  match rooms with
  | Some (JArr items) => Ok (decimal (List.length items))
  | Some (JStr s) => Ok (decimal (List.length s))
  | Some (JObj fields) =>
      match lookup (lit "length") fields with
      | None | Some JNull => Ok (lit "0")
      | Some v => template v
      end
  | _ => Ok (lit "0")
  end.

(** The description of the toast of a success:
    [`Generated ${result.rooms?.length ?? 0} rooms using
      ${result.solver || result.solver_type || 'hybrid'} solver`]. *)
Definition success_description (result : json) : Res jsstring :=
  match rooms_count (get result (lit "rooms")) with
  | Throws message => Throws message
  | Ok count =>
      match template (truthy_or (get result (lit "solver"))
                        (truthy_or (get result (lit "solver_type"))
                           (JStr (lit "hybrid")))) with
      | Throws message => Throws message
      | Ok solver =>
          Ok (lit "Generated " ++ count ++ lit " rooms using " ++ solver
              ++ lit " solver")
      end
  end.

(** [result.status === 'success' || result.success === true] *)
Definition is_success (result : json) : Res bool :=
  match member result "status" with
  | Throws message => Throws message
  | Ok (Some (JStr s)) =>
      if str_eqb s (lit "success") then Ok true
      else match get result (lit "success") with
           | Some (JBool true) => Ok true
           | _ => Ok false
           end
  | Ok _ =>
      match get result (lit "success") with
      | Some (JBool true) => Ok true
      | _ => Ok false
      end
  end.

(** [typeof result.message === 'string' ? result.message : '...'] *)
Definition failure_description (result : json) : jsstring :=
  match get result (lit "message") with
  | Some (JStr message) => message
  | _ => lit "Unknown error during layout generation"
  end.

Definition clear_watchdog (WATCHDOG_ENABLED : bool) : Page unit :=
  when WATCHDOG_ENABLED (emit PgClearWatchdog).

(** [(toolCall, result) => { ... }]: the first statement logs
    [toolCall.function.name], which throws on a call without [function];
    the second branch of the conditional is the negation of the first.
    On a success the rooms are replaced first, then the description of the
    toast is built, which can throw, and only then is [toolCallHandled]
    set. *)
Definition page_onToolCall (WATCHDOG_ENABLED : bool) (toolCall : ToolCall)
           (result : json) : Page unit :=
  name <- lift (function_name toolCall) ;;
  mark_detected ;;;
  if str_eqb name (lit "generate_layout_hybrid") then
    success <- lift (is_success result) ;;
    if (success : bool) then
      emit (PgSetRooms (get result (lit "rooms"))) ;;;
      description <- lift (success_description result) ;;
      emit (PgToast (lit "Floor Plan Generated") description false) ;;;
      mark_handled ;;;
      clear_watchdog WATCHDOG_ENABLED
    else
      emit (PgConsoleError (lit "[ToolCall][Error] generate_layout_hybrid failed:")) ;;;
      emit (PgToast (lit "Generation failed") (failure_description result) true) ;;;
      mark_handled ;;;
      clear_watchdog WATCHDOG_ENABLED
  else ret tt.

Lemma is_success_total (result : json) :
  result <> JNull -> exists success, is_success result = Ok success.
Proof.
  intros Hnull. unfold is_success, member.
  destruct result; try (destruct Hnull; reflexivity);
    repeat match goal with
           | |- context [match ?x with _ => _ end] => destruct x
           end; eexists; reflexivity.
Qed.

(** The callback gets past its first line on a call that carries
    [function] and a result that is not [null]; from there it throws only
    where the description of the success toast does. *)
Lemma page_callback_facts
      (WATCHDOG_ENABLED : bool) (toolCall : ToolCall) (f : FunctionCall)
      (result : json) (flags : SendFlags) :
  tc_function toolCall = Some f ->
  result <> JNull ->
  let r := page_onToolCall WATCHDOG_ENABLED toolCall result flags in
  toolCallDetected (world r) = true
  /\ (outcome r = Ok tt
      \/ exists message,
          outcome r = Throws message
          /\ str_eqb (fn_name f) (lit "generate_layout_hybrid") = true
          /\ is_success result = Ok true
          /\ success_description result = Throws message
          /\ events r = [PgSetRooms (get result (lit "rooms"))]
          /\ toolCallHandled (world r) = toolCallHandled flags).
Proof.
  intros Hf Hnull. cbv zeta.
  destruct (is_success_total result Hnull) as (success & Hs).
  unfold page_onToolCall, function_name, clear_watchdog, mark_detected,
    mark_handled.
  rewrite Hf.
  cbv beta iota zeta delta [bind lift emit ret when events outcome world fst snd].
  destruct (str_eqb (fn_name f) (lit "generate_layout_hybrid")) eqn:Hname;
    cbv beta iota zeta; [|split; [reflexivity | left; reflexivity]].
  rewrite Hs. cbv beta iota zeta.
  destruct success; cbv beta iota zeta.
  - destruct (success_description result) as [description|message];
      cbv beta iota zeta.
    + destruct WATCHDOG_ENABLED; split; try reflexivity; left; reflexivity.
    + split; [reflexivity|]. right. exists message.
      repeat split; reflexivity.
  - destruct WATCHDOG_ENABLED; split; try reflexivity; left; reflexivity.
Qed.

(** X17: What the callback does with a call that carries [function] and a
    result that is not [null]: it sets [toolCallDetected].  For a tool
    other than [generate_layout_hybrid] it does nothing else.  For a
    failed generation it shows the failure toast, sets [toolCallHandled]
    and cancels the watchdog when there is one.  For a success it replaces
    the rooms and builds the description of the toast: when that
    conversion succeeds the toast is shown, [toolCallHandled] is set and
    the watchdog is cancelled; when it throws, the callback throws after
    having replaced the rooms, with no toast, [toolCallHandled] as it was
    and the watchdog still pending. *)
Theorem page_callback_settles_the_flags
        (WATCHDOG_ENABLED : bool) (toolCall : ToolCall) (f : FunctionCall)
        (result : json) (flags : SendFlags) :
  tc_function toolCall = Some f ->
  result <> JNull ->
  let r := page_onToolCall WATCHDOG_ENABLED toolCall result flags in
  let cleared := if WATCHDOG_ENABLED then [PgClearWatchdog] else [] in
  toolCallDetected (world r) = true
  /\ if str_eqb (fn_name f) (lit "generate_layout_hybrid") then
       match is_success result with
       | Ok true =>
           match success_description result with
           | Ok description =>
               outcome r = Ok tt
               /\ toolCallHandled (world r) = true
               /\ events r
                  = [PgSetRooms (get result (lit "rooms"));
                     PgToast (lit "Floor Plan Generated") description false]
                      ++ cleared
           | Throws message =>
               outcome r = Throws message
               /\ toolCallHandled (world r) = toolCallHandled flags
               /\ events r = [PgSetRooms (get result (lit "rooms"))]
           end
       | Ok false =>
           outcome r = Ok tt
           /\ toolCallHandled (world r) = true
           /\ events r
              = [PgConsoleError
                   (lit "[ToolCall][Error] generate_layout_hybrid failed:");
                 PgToast (lit "Generation failed")
                         (failure_description result) true]
                  ++ cleared
       | Throws _ => False
       end
     else
       outcome r = Ok tt /\ events r = []
       /\ toolCallHandled (world r) = toolCallHandled flags.
Proof.
  intros Hf Hnull. cbv zeta.
  destruct (is_success_total result Hnull) as (success & Hs).
  unfold page_onToolCall, function_name, clear_watchdog, mark_detected,
    mark_handled.
  rewrite Hf.
  cbv beta iota zeta delta [bind lift emit ret when events outcome world fst snd].
  destruct (str_eqb (fn_name f) (lit "generate_layout_hybrid"));
    cbv beta iota zeta; [|repeat split].
  rewrite Hs. cbv beta iota zeta.
  destruct success; cbv beta iota zeta.
  - destruct (success_description result) as [description|message];
      cbv beta iota zeta; [destruct WATCHDOG_ENABLED|]; repeat split.
  - destruct WATCHDOG_ENABLED; repeat split.
Qed.

(** ** The callbacks of a turn *)

(** The calls and results that the loop hands to [onToolCall]. *)
Definition callback_ok (e : Event) : Prop :=
  match e with
  | EvOnToolCall toolCall result =>
      tc_function toolCall <> None /\ result <> JNull
  | _ => True
  end.

Definition callbacks_ok {A} (evs : list Event) (o : Res A) : Prop :=
  Forall callback_ok evs.

Lemma callbacks_ok_plain {A} (evs : list Event) (o : Res A) :
  plain evs = true -> callbacks_ok evs o.
Proof.
  unfold plain, callbacks_ok. rewrite forallb_forall, Forall_forall.
  intros H e Hin. specialize (H e Hin). destruct e; try discriminate; exact I.
Qed.

Lemma callbacks_ok_bind {A B} (m : Act A) (k : A -> Act B) :
  sat m callbacks_ok -> (forall a, sat (k a) callbacks_ok) ->
  sat (bind m k) callbacks_ok.
Proof.
  intros Hm Hk. eapply sat_bind; [exact Hm | |].
  - intros e1 a H1. eapply sat_weaken; [apply Hk|].
    intros e2 o H2. apply Forall_app. split; assumption.
  - intros e1 message H1. exact H1.
Qed.

Lemma callbacks_ok_ret {A} (a : A) : sat (ret a : Act A) callbacks_ok.
Proof. apply sat_ret. constructor. Qed.

Lemma callbacks_ok_for_each {A S} (body : S -> A -> Act S) (xs : list A) :
  (forall s x, sat (body s x) callbacks_ok) ->
  forall s, sat (for_each body xs s) callbacks_ok.
Proof.
  intros Hbody. induction xs as [|x xs IH]; intros s.
  - apply callbacks_ok_ret.
  - cbn [for_each]. apply callbacks_ok_bind; [apply Hbody | exact IH].
Qed.

Lemma execute_generate_result (args : json) :
  sat (execute_generate args)
      (fun evs o => plain evs = true
                    /\ exists result, o = Ok result /\ result <> JNull).
Proof.
  intros w. unfold execute_generate. unfold_act.
  destruct (fetch_backend w (layout_payload args)) as [w1 [genRes|m1]].
  2:{ cbn. split; [reflexivity|]. eexists. split; [reflexivity | discriminate]. }
  destruct (gen_ok genRes).
  - destruct (gen_json genRes) as [[]|]; cbn;
      (split; [reflexivity|]); eexists; (split; [reflexivity | discriminate]).
  - destruct (fetch_backend w1 _) as [w2 [genRes2|m2]].
    2:{ cbn. split; [reflexivity|]. eexists. split; [reflexivity | discriminate]. }
    destruct (gen_json genRes2) as [[]|]; cbn;
      (split; [reflexivity|]); eexists; (split; [reflexivity | discriminate]).
Qed.

Lemma handle_tool_call_callbacks (ts : TurnState) (toolCall : ToolCall) :
  sat (handle_tool_call onToolCall ts toolCall) callbacks_ok.
Proof.
  intros w. unfold handle_tool_call. unfold_act.
  destruct (resolve_args toolCall) as [args|m];
    [|apply callbacks_ok_plain; reflexivity].
  destruct (function_name toolCall) as [name|m] eqn:Hname;
    [|apply callbacks_ok_plain; reflexivity].
  assert (Hfn : tc_function toolCall <> None).
  { unfold function_name in Hname. destruct (tc_function toolCall); discriminate. }
  assert (Hpush : forall e1 result (o : Res TurnState),
             plain e1 = true -> result <> JNull ->
             callbacks_ok
               (e1 ++ (if onToolCall then [EvOnToolCall toolCall result] else [])
                   ++ [EvToolMessage (tool_message name result)]) o).
  { intros e1 result o Hplain Hnull. apply Forall_app. split.
    - apply (callbacks_ok_plain e1 o Hplain).
    - destruct onToolCall; repeat constructor; assumption. }
  destruct (str_eqb name (lit "generate_layout_hybrid")).
  - pose proof (execute_generate_result args w) as (Hp & result & Ho & Hnull).
    unfold_act.
    destruct (execute_generate args w) as [[w1 e1] o1].
    cbn in Hp, Ho. subst o1.
    specialize (Hpush e1 result (Ok ts) Hp Hnull).
    destruct onToolCall; cbn in *; exact Hpush.
  - specialize (Hpush [] no_handler (Ok ts) eq_refl).
    destruct onToolCall; cbn in *; apply Hpush; discriminate.
Qed.

Lemma deliver_callbacks (content : jsstring) (v : Vars) :
  sat (deliver onToken content v) callbacks_ok.
Proof.
  intros w. destruct v as [ts rs]. unfold deliver. unfold_act.
  destruct (truthy content); [|constructor].
  destruct onToken; repeat constructor.
Qed.

Lemma handle_line_callbacks (v : Vars) (line : jsstring) :
  sat (handle_line isOllama onToken onToolCall v line) callbacks_ok.
Proof.
  unfold handle_line. destruct isOllama.
  - unfold handle_line_ollama.
    destruct (parse_record line) as [parsed|]; [|apply callbacks_ok_ret].
    apply callbacks_ok_bind; [apply deliver_callbacks|].
    intros [ts1 rs1]. apply callbacks_ok_bind.
    + destruct (tool_calls_of parsed) as [[|toolCall more]|];
        try apply callbacks_ok_ret.
      apply callbacks_ok_bind.
      * apply callbacks_ok_for_each. apply handle_tool_call_callbacks.
      * intros ts'. apply callbacks_ok_ret.
    + intros [ts2 rs2]. apply callbacks_ok_bind; [|intros; apply callbacks_ok_ret].
      destruct (_ && _); [|apply callbacks_ok_ret].
      apply sat_emit. repeat constructor.
  - unfold handle_line_sse.
    destruct (strip_prefix _ line) as [data|]; [|apply callbacks_ok_ret].
    destruct (str_eqb data _); [apply callbacks_ok_ret|].
    destruct (parse_record data) as [parsed|]; [|apply callbacks_ok_ret].
    apply deliver_callbacks.
Qed.

Lemma read_loop_callbacks (chunks : list (list byte)) (ending : StreamEnd) :
  forall v, sat (read_loop isOllama onToken onToolCall chunks ending v) callbacks_ok.
Proof.
  induction chunks as [|value rest IH]; intros [ts rs]; cbn [read_loop].
  - destruct ending; [apply callbacks_ok_ret | apply sat_throw; constructor].
  - destruct (Frame.feed (streamBuffer rs) (Frame.decode value)) as [segments buffer].
    apply callbacks_ok_bind; [|exact IH].
    apply callbacks_ok_for_each. apply handle_line_callbacks.
Qed.

Lemma callbacks_ok_no_dispatch {A} (evs : list Event) (o : Res A) :
  no_dispatch evs = true -> callbacks_ok evs o.
Proof.
  unfold no_dispatch, callbacks_ok. rewrite forallb_forall, Forall_forall.
  intros H e Hin. specialize (H e Hin). destruct e; try discriminate; exact I.
Qed.

Lemma run_round_callbacks (ts : TurnState) :
  sat (run_round ts) callbacks_ok.
Proof.
  unfold run_round. apply callbacks_ok_bind.
  - unfold stream_round. apply callbacks_ok_bind.
    + intros w. constructor.
    + intros forceDisable. apply callbacks_ok_bind.
      * intros w. unfold do_fetch. destruct (fetch_llm w _) as [w1 r].
        repeat constructor.
      * intros response. destruct (negb (resp_ok response));
          [apply sat_throw; constructor|].
        destruct (resp_body response) as [[chunks ending]|];
          [|apply sat_throw; constructor].
        apply callbacks_ok_bind; [apply read_loop_callbacks|].
        intros v. apply callbacks_ok_bind; [|intros; apply callbacks_ok_ret].
        intros w. apply callbacks_ok_no_dispatch.
        apply (handle_residual_spec v w).
  - intros [sd v] w. apply callbacks_ok_no_dispatch.
    apply conclude_round_no_dispatch.
Qed.

Lemma rounds_loop_callbacks (fuel : nat) :
  forall ts, sat (rounds_loop fuel ts) callbacks_ok.
Proof.
  induction fuel as [|fuel IH]; intros ts; rewrite rounds_loop_unfold;
    destruct (Nat.ltb (rounds ts) maxRounds); try apply callbacks_ok_ret.
  apply callbacks_ok_bind; [apply run_round_callbacks|].
  intros [ts'|ts']; [apply IH | apply callbacks_ok_ret].
Qed.

(** X18: The page's callback composes with the loop: whatever call and
    result a turn hands to [onToolCall], the callback of [handleSend] gets
    past its first line on them and sets [toolCallDetected], so that a
    watchdog that fires afterwards does nothing.  The callback throws only
    where the description of the success toast cannot be built, after it
    has replaced the rooms; the hook swallows what [onToolCall] throws. *)
Theorem page_callback_disarms_the_watchdog
        (messages : list Message) (w : W) (toolCall : ToolCall) (result : json) :
  In (EvOnToolCall toolCall result) (events (generateResponse messages w)) ->
  forall (WATCHDOG_ENABLED : bool) (flags : SendFlags),
    let r := page_onToolCall WATCHDOG_ENABLED toolCall result flags in
    toolCallDetected (world r) = true
    /\ (outcome r = Ok tt
        \/ exists message,
            outcome r = Throws message
            /\ is_success result = Ok true
            /\ success_description result = Throws message
            /\ events r = [PgSetRooms (get result (lit "rooms"))])
    /\ forall content plotWidth plotLength w0,
        watchdog (toolCallHandled (world r)) (toolCallDetected (world r))
                 content plotWidth plotLength w0
        = (w0, [], Ok tt).
Proof.
  intros Hin WATCHDOG_ENABLED flags. cbv zeta.
  assert (Hok : callback_ok (EvOnToolCall toolCall result)).
  { pose proof (rounds_loop_callbacks maxRounds (initial_state messages) w) as Hall.
    unfold callbacks_ok in Hall. rewrite Forall_forall in Hall. apply Hall.
    rewrite generateResponse_run in Hin. fold (run_turn messages w).
    destruct (run_turn messages w) as [[w' evs] [ts|message]];
      cbn [events fst snd] in *;
      destruct Hin as [H|[H|Hin]]; try discriminate;
      apply in_app_or in Hin as [Hin|Hin]; try exact Hin;
      repeat (destruct Hin as [H|Hin]; [discriminate|]); destruct Hin. }
  destruct Hok as (Hfn & Hnull).
  destruct (tc_function toolCall) as [f|] eqn:Hf; [|destruct Hfn; reflexivity].
  pose proof (page_callback_facts WATCHDOG_ENABLED toolCall f result flags Hf Hnull)
    as (Hdet & Hout).
  cbv zeta in Hdet, Hout.
  split; [exact Hdet|]. split.
  - destruct Hout as [Hout | (message & Hout & _ & Hs & Hd & Hev & _)];
      [left; exact Hout | right; exists message; repeat split; assumption].
  - intros content plotWidth plotLength w0. unfold watchdog.
    rewrite Hdet, orb_true_r. reflexivity.
Qed.

(** ** The direct tool call of [handleSend] *)

Section DirectTool.

(** [fetch('http://localhost:8000/api/solvers/generate', ...)] with the body
    of the direct path, whose rooms carry no size. *)
Variable fetch_generate : W -> json -> W * Res BackendResponse.

(** What [normalizeParams] returns when it finds the dimensions. *)
Record Normalized := {
  widthM : num;
  heightM : num;
  nz_orientation : jsstring;
  nz_rooms : list jsstring
}.

Inductive DirectEffect :=
| DtGenerate (body : json)
| DtWarn (tag : jsstring)
| DtError (tag : jsstring)
| DtSetPlotWidth (v : num)
| DtSetPlotLength (v : num)
| DtSetRooms (rooms : list json)
| DtToast (title description : jsstring).

(** A computation on the backend and the flags of [handleSend]. *)
Definition Direct (A : Type) : Type := Effects.M (W * SendFlags) DirectEffect A.

Definition post (body : json) : Direct BackendResponse :=
  fun s =>
    let '(w', r) := fetch_generate (fst s) body in
    ((w', snd s), [DtGenerate body], r).

Definition detected : Direct unit :=
  fun s =>
    ((fst s, {| toolCallDetected := true;
                toolCallHandled := toolCallHandled (snd s) |}), [], Ok tt).

Definition handled : Direct unit :=
  fun s =>
    ((fst s, {| toolCallDetected := toolCallDetected (snd s);
                toolCallHandled := true |}), [], Ok tt).

(** [Math.round(v * 10) / 10] *)
Definition round1 (v : num) : num :=
  num_div (Math_round (num_mul v (num_of_N 10))) (num_of_N 10).

Definition direct_room (name : jsstring) (idx : nat) : json :=
  JObj [(lit "id", JStr (lit "room_" ++ decimal (idx + 1)));
        (lit "name", JStr name);
        (lit "type", JStr name)].

Definition solver_name (solver : Solver) : jsstring :=
  match solver with
  | constraint => lit "constraint"
  | graph => lit "graph"
  end.

(** [payload], and [{ ...payload, solver_type: 'graph' }]. *)
Definition direct_payload (solver : Solver) (n : Normalized) : json :=
  JObj [(lit "rooms", JArr (map_indexed direct_room 0 (nz_rooms n)));
        (lit "plotWidth", JNum (round1 (widthM n)));
        (lit "plotLength", JNum (round1 (heightM n)));
        (lit "plotShape", JStr (lit "rectangular"));
        (lit "solver_type", JStr (solver_name solver));
        (lit "constraints", JObj [(lit "house_facing", JStr (nz_orientation n))])].

Definition copied (r : json) (k : string) : list (jsstring * json) :=
  match get r (lit k) with
  | Some v => [(lit k, v)]
  | None => []
  end.

(** One element of [positionedRooms] on the direct path. *)
Definition positioned_direct (r : json) : Res json :=
  match r with
  | JNull => Throws type_error
  | _ =>
      Ok (JObj (copied r "id" ++ copied r "name" ++ copied r "type"
                ++ [(lit "x", nullish_or (get r (lit "x")) (JNum (num_of_N 0)));
                    (lit "y", nullish_or (get r (lit "y")) (JNum (num_of_N 0)));
                    (lit "width", nullish_or (get r (lit "width")) (JNum (num_of_N 5)));
                    (lit "height", nullish_or (get r (lit "height")) (JNum (num_of_N 5)))]
                ++ copied r "color"))
  end.

(** [(genJson.rooms || []).map(...)] *)
Definition positioned_rooms (rooms : option json) : Res (list json) :=
  match rooms with
  | Some v =>
      if json_truthy v then
        match v with
        | JArr items => map_res positioned_direct items
        | _ => Throws type_error
        end
      else Ok []
  | None => Ok []
  end.

(** [if (normalized) { try { ... } catch (e) { ... } }] *)
Definition direct_tool (normalized : option Normalized) : Direct unit :=
  match normalized with
  | None => ret tt
  | Some n =>
      try_catch
        (detected ;;;
         genRes <- post (direct_payload constraint n) ;;
         genRes <- (if gen_ok genRes then ret genRes
                    else emit (DtWarn (lit "[DirectTool] Constraint solver failed, retrying with graph solver")) ;;;
                         post (direct_payload graph n)) ;;
         genJson <- lift (gen_json genRes) ;;
         rooms <- lift (member genJson "rooms") ;;
         positionedRooms <- lift (positioned_rooms rooms) ;;
         match positionedRooms with
         | _ :: _ =>
             emit (DtSetPlotWidth (round1 (widthM n))) ;;;
             emit (DtSetPlotLength (round1 (heightM n))) ;;;
             emit (DtSetRooms positionedRooms) ;;;
             handled ;;;
             emit (DtToast (lit "Floor Plan Generated")
                           (lit "Generated " ++ decimal (List.length positionedRooms)
                            ++ lit " rooms ("
                            ++ to_string (truthy_or (get genJson (lit "solver_type"))
                                                    (JStr (lit "graph")))
                            ++ lit ") from normalized input"))
         | [] => ret tt
         end)
        (fun _ => emit (DtError (lit "[DirectTool][Error]")))
  end.

Definition bodies (evs : list DirectEffect) : list json :=
  flat_map (fun e => match e with DtGenerate body => [body] | _ => [] end) evs.

Definition rooms_set (evs : list DirectEffect) : list (list json) :=
  flat_map (fun e => match e with DtSetRooms rooms => [rooms] | _ => [] end) evs.

Lemma bodies_app (a b : list DirectEffect) :
  bodies (a ++ b) = bodies a ++ bodies b.
Proof. apply flat_map_app. Qed.

Lemma rooms_set_app (a b : list DirectEffect) :
  rooms_set (a ++ b) = rooms_set a ++ rooms_set b.
Proof. apply flat_map_app. Qed.

(** X28: The direct tool call of [handleSend], taken when the dimensions were
    found in the message, never throws and sets [toolCallDetected] whatever
    the backend does; it asks the constraint solver first and the graph
    solver once, only when the first response is not [ok]; it replaces the
    rooms at most once, only by a list that is not empty, and it sets
    [toolCallHandled] exactly then; a watchdog that fires afterwards does
    nothing. *)
Theorem direct_tool_settles_the_flags (n : Normalized) (s : W * SendFlags) :
  let r := direct_tool (Some n) s in
  outcome r = Ok tt
  /\ toolCallDetected (snd (world r)) = true
  /\ bodies (events r)
     = match fetch_generate (fst s) (direct_payload constraint n) with
       | (_, Ok genRes) =>
           if gen_ok genRes then [direct_payload constraint n]
           else [direct_payload constraint n; direct_payload graph n]
       | (_, Throws _) => [direct_payload constraint n]
       end
  /\ match rooms_set (events r) with
     | [] => toolCallHandled (snd (world r)) = toolCallHandled (snd s)
     | [rooms] => rooms <> [] /\ toolCallHandled (snd (world r)) = true
     | _ => False
     end
  /\ forall content plotWidth plotLength w0,
      watchdog (toolCallHandled (snd (world r))) (toolCallDetected (snd (world r)))
               content plotWidth plotLength w0
      = (w0, [], Ok tt).
Proof.
  cbv zeta.
  cut (outcome (direct_tool (Some n) s) = Ok tt
       /\ toolCallDetected (snd (world (direct_tool (Some n) s))) = true
       /\ bodies (events (direct_tool (Some n) s))
          = match fetch_generate (fst s) (direct_payload constraint n) with
            | (_, Ok genRes) =>
                if gen_ok genRes then [direct_payload constraint n]
                else [direct_payload constraint n; direct_payload graph n]
            | (_, Throws _) => [direct_payload constraint n]
            end
       /\ match rooms_set (events (direct_tool (Some n) s)) with
          | [] => toolCallHandled (snd (world (direct_tool (Some n) s)))
                  = toolCallHandled (snd s)
          | [rooms] => rooms <> []
                       /\ toolCallHandled (snd (world (direct_tool (Some n) s))) = true
          | _ => False
          end).
  { intros (H1 & H2 & H3 & H4). repeat split; try assumption.
    intros content plotWidth plotLength w0. unfold watchdog.
    rewrite H2, orb_true_r. reflexivity. }
  destruct s as [w flags]. unfold direct_tool.
  cbv beta iota zeta delta [bind ret throw lift emit try_catch events outcome
                            world post detected handled fst snd].
  set (first := direct_payload constraint n).
  set (second := direct_payload graph n).
  assert (Hdone : forall (w1 : W) (pre : list DirectEffect) (genJson : json)
                         (res : Res (list json)),
             rooms_set pre = [] ->
             let r : (W * SendFlags) * list DirectEffect * Res unit :=
               match res with
               | Ok (p :: ps) =>
                   ((w1, {| toolCallDetected := true; toolCallHandled := true |}),
                    pre ++ [DtSetPlotWidth (round1 (widthM n));
                            DtSetPlotLength (round1 (heightM n));
                            DtSetRooms (p :: ps);
                            DtToast (lit "Floor Plan Generated")
                                    (lit "Generated " ++ decimal (List.length (p :: ps))
                                     ++ lit " rooms ("
                                     ++ to_string (truthy_or (get genJson (lit "solver_type"))
                                                             (JStr (lit "graph")))
                                     ++ lit ") from normalized input")],
                    Ok tt)
               | Ok [] =>
                   ((w1, {| toolCallDetected := true;
                            toolCallHandled := toolCallHandled flags |}),
                    pre, Ok tt)
               | Throws _ =>
                   ((w1, {| toolCallDetected := true;
                            toolCallHandled := toolCallHandled flags |}),
                    pre ++ [DtError (lit "[DirectTool][Error]")], Ok tt)
               end in
             outcome r = Ok tt
             /\ toolCallDetected (snd (world r)) = true
             /\ bodies (events r) = bodies pre
             /\ match rooms_set (events r) with
                | [] => toolCallHandled (snd (world r)) = toolCallHandled flags
                | [rooms] => rooms <> [] /\ toolCallHandled (snd (world r)) = true
                | _ => False
                end).
  { intros w1 pre genJson res Hpre. cbv zeta.
    destruct res as [[|p ps]|message];
      cbn [outcome world events fst snd toolCallDetected toolCallHandled];
      rewrite ?rooms_set_app, ?bodies_app, ?Hpre;
      cbn [rooms_set bodies flat_map app]; rewrite ?app_nil_r;
      repeat split; try reflexivity; try discriminate. }
  destruct (fetch_generate w first) as [w1 [genRes|m1]];
    cbv beta iota zeta; [|repeat split].
  destruct (gen_ok genRes); cbv beta iota zeta.
  - destruct (gen_json genRes) as [genJson|m]; cbv beta iota zeta;
      [|repeat split].
    destruct (member genJson "rooms") as [rooms|m]; cbv beta iota zeta;
      [|repeat split].
    pose proof (Hdone w1 [DtGenerate first] genJson (positioned_rooms rooms) eq_refl)
      as H. cbv zeta in H.
    destruct (positioned_rooms rooms) as [[|p ps]|message];
      cbv beta iota zeta; cbn [app] in *; exact H.
  - destruct (fetch_generate w1 second) as [w2 [genRes2|m2]];
      cbv beta iota zeta; [|repeat split].
    destruct (gen_json genRes2) as [genJson|m]; cbv beta iota zeta;
      [|repeat split].
    destruct (member genJson "rooms") as [rooms|m]; cbv beta iota zeta;
      [|repeat split].
    pose proof (Hdone w2
                  [DtGenerate first;
                   DtWarn (lit "[DirectTool] Constraint solver failed, retrying with graph solver");
                   DtGenerate second]
                  genJson (positioned_rooms rooms) eq_refl)
      as H. cbv zeta in H.
    destruct (positioned_rooms rooms) as [[|p ps]|message];
      cbv beta iota zeta; cbn [app] in *; exact H.
Qed.

End DirectTool.

End Turn.

End Model.

Arguments JNull {num}.
Arguments JBool {num} b.
Arguments JStr {num} s.
Arguments EvToken {num} token.
Arguments EvToolMessage {num} m.
Arguments EvConsole {num} level tag.
Arguments EvSetIsLoading {num} b.
Arguments EvSetError {num} e.
Arguments EvToast {num} title destructive.
Arguments is_fetch {num} e.
Arguments is_stream_fetch {num} e.
Arguments is_flat_fetch {num} e.
Arguments is_generate {num} e.
Arguments is_dispatch {num} e.
Arguments no_dispatch {num} evs.
Arguments count {num} f evs.

(** * Scenarios

    Concrete conversations, run on the model.  Numbers are integers; the
    runtime functions agree with JavaScript on the values the scenarios
    use; the servers answer from a script. *)

Module Scenario.

Import Sanitizer.
Local Open Scope Z_scope.

(** *** The runtime *)

(** A JSON text, written with single quotes for the double quotes. *)
Definition json_text (s : string) : jsstring :=
  map (fun c => if (c =? 39)%N then DQUOTE else c) (lit s).

(** [JSON.parse] on the argument strings of the scenarios. *)
Definition JSON_parse (text : jsstring) : Res (json Z) :=
  if str_eqb text (lit "{}") then Ok (JObj [])
  else if str_eqb text (json_text "{'orientation':'north'}")
       then Ok (JObj [(lit "orientation", JStr (lit "north"))])
  else Throws (lit "Unexpected token in JSON").

Definition type_error : jsstring := lit "Cannot read properties of null".

Definition num_to_string (z : Z) : jsstring :=
  if z <? 0 then lit "-" ++ decimal (Z.to_nat (- z)) else decimal (Z.to_nat z).

(** [String(v)] on strings and integers. *)
Definition js_String (v : json Z) : jsstring :=
  match v with
  | JStr s => s
  | JNum n => num_to_string n
  | JBool true => lit "true"
  | JBool false => lit "false"
  | JNull => lit "null"
  | _ => lit "[object Object]"
  end.

(** The content of a tool message plays no part in the scenarios. *)
Definition JSON_stringify (v : json Z) : jsstring :=
  match v with
  | JObj [] => lit "{}"
  | _ => json_text "{'rooms':[]}"
  end.

Definition js_Number (v : option (json Z)) : Z :=
  match v with
  | Some (JNum n) => n
  | _ => 0
  end.

Definition toLowerCase (s : jsstring) : jsstring :=
  map (fun c => if ((65 <=? c) && (c <=? 90))%N then (c + 32)%N else c) s.

Definition num_truthy (z : Z) : bool := negb (z =? 0).

(** [Number(text)] on a string of digits. *)
Definition parse_number (text : jsstring) : Z :=
  fold_left (fun acc c => 10 * acc + (Z.of_N c - 48)) text 0.

(** *** The servers *)

Record Script := {
  llm : list (Res (Response Z));
  backend : list (Res (BackendResponse Z));
  tools_disabled_flag : bool
}.

Definition fetch_llm (w : Script) (rq : Request Z) : Script * Res (Response Z) :=
  match llm w with
  | [] => (w, Throws (lit "Failed to fetch"))
  | r :: rest =>
      ({| llm := rest; backend := backend w;
          tools_disabled_flag := tools_disabled_flag w |}, r)
  end.

Definition fetch_backend (w : Script) (p : Payload Z)
  : Script * Res (BackendResponse Z) :=
  match backend w with
  | [] => (w, Throws (lit "Failed to fetch"))
  | r :: rest =>
      ({| llm := llm w; backend := rest;
          tools_disabled_flag := tools_disabled_flag w |}, r)
  end.

Definition no_fields : Parsed Z :=
  {| p_message := None; p_response := None; p_thinking := None;
     p_content := None; p_text := None; p_tool_calls := None;
     p_done := false; p_delta_content := None; p_choice_content := None |}.

Definition tool_call_with (arguments : json Z) : ToolCall Z :=
  {| tc_function := Some {| fn_name := lit "generate_layout_hybrid";
                            fn_arguments := Some arguments |};
     tc_name := None; tc_arguments := None |}.

Definition message_line (content : option jsstring)
           (calls : option (list (ToolCall Z))) : Parsed Z :=
  {| p_message := Some {| m_content := content; m_thinking := None;
                          m_tool_calls := calls |};
     p_response := None; p_thinking := None; p_content := None;
     p_text := None; p_tool_calls := None; p_done := false;
     p_delta_content := None; p_choice_content := None |}.

(** The lines the model streams in the scenarios. *)
Definition line_tool_call : jsstring :=
  json_text "{'message':{'tool_calls':[{'function':{'name':'generate_layout_hybrid','arguments':'{}'}}]}}".

Definition line_bad_arguments : jsstring :=
  json_text "{'message':{'tool_calls':[{'function':{'name':'generate_layout_hybrid','arguments':'{rooms'}}]}}".

Definition line_hello : jsstring :=
  json_text "{'message':{'content':'Your plan is ready.'}}".

(** [JSON.parse] on those lines, through the [Parsed] view. *)
Definition parse_record (line : jsstring) : option (Parsed Z) :=
  if str_eqb line line_tool_call
  then Some (message_line None (Some [tool_call_with (JStr (lit "{}"))]))
  else if str_eqb line line_bad_arguments
  then Some (message_line None (Some [tool_call_with (JStr (lit "{rooms"))]))
  else if str_eqb line line_hello
  then Some (message_line (Some (lit "Your plan is ready.")) None)
  else None.

(** The UTF-8 bytes of an ASCII text. *)
Definition bytes_of (text : jsstring) : list byte :=
  map (fun c => match Byte.of_N c with Some b => b | None => x00 end) text.

Definition streamed (chunks : list jsstring) : Res (Response Z) :=
  Ok {| resp_ok := true; resp_status := 200;
        resp_body := Some (map bytes_of chunks, EndOfStream);
        resp_json := Ok no_fields |}.

Definition status (code : nat) : Res (Response Z) :=
  Ok {| resp_ok := false; resp_status := code;
        resp_body := Some ([], EndOfStream);
        resp_json := Ok no_fields |}.

Definition flat_reply (json : Parsed Z) : Res (Response Z) :=
  Ok {| resp_ok := true; resp_status := 200; resp_body := None;
        resp_json := Ok json |}.

Definition generated (ok : bool) (code : nat) (body : json Z)
  : Res (BackendResponse Z) :=
  Ok {| gen_ok := ok; gen_status := code; gen_json := Ok body |}.

(** A layout of two rooms scored 94. *)
Definition layout : json Z :=
  JObj [(lit "rooms", JArr [JObj [(lit "id", JStr (lit "kitchen_1"))];
                            JObj [(lit "id", JStr (lit "bedroom_2"))]]);
        (lit "solver_type", JStr (lit "constraint"));
        (lit "score", JNum 94)].

(** *** The caller *)

Definition config : ServerLLMConfig :=
  {| cfg_endpoint := lit "http://localhost:11434";
     cfg_model := Some (lit "gpt-oss:20b-cloud");
     cfg_type := Some ollama |}.

Definition tools : option (list (ToolDefinition Z)) :=
  Some [{| td_name := lit "generate_layout_hybrid";
           td_description := Some (lit "Generate a floor plan layout");
           td_parameters := Some (JObj [(lit "type", JStr (lit "object"))]) |}].

Definition messages : list Message :=
  [{| msg_role := system; msg_content := lit "You are a Vastu assistant.";
      msg_timestamp := 0%N |};
   {| msg_role := user; msg_content := lit "Design a 2 BHK, 30x40 ft";
      msg_timestamp := 1%N |}].

Definition generate : list Message -> Script -> Script * list (Event Z) * Res jsstring :=
  generateResponse JSON_parse JSON_stringify js_String js_Number toLowerCase
                   num_truthy Z.of_N (fun z => z) num_to_string type_error parse_record
                   fetch_llm fetch_backend tools_disabled_flag
                   config true tools true.

Definition script (l : list (Res (Response Z)))
           (b : list (Res (BackendResponse Z))) : Script :=
  {| llm := l; backend := b; tools_disabled_flag := false |}.

Definition loop : nat -> TurnState Z -> Script -> Script * list (Event Z) * Res (TurnState Z) :=
  rounds_loop JSON_parse JSON_stringify js_String js_Number toLowerCase
              num_truthy Z.of_N type_error parse_record
              fetch_llm fetch_backend tools_disabled_flag
              config true tools true.

Definition handle : TurnState Z -> ToolCall Z -> Script
                    -> Script * list (Event Z) * Res (TurnState Z) :=
  handle_tool_call JSON_parse JSON_stringify js_String js_Number toLowerCase
                   num_truthy Z.of_N type_error fetch_backend true.

Definition residual : TurnState Z * RoundState -> Script
                      -> Script * list (Event Z) * Res (TurnState Z * RoundState) :=
  handle_residual JSON_parse type_error parse_record true true.

Definition fire (handled detected : bool) (content : jsstring)
  : Script -> Script * list (Event Z) * Res unit :=
  watchdog num_truthy Z.of_N (fun z => z) parse_number Z.mul Z.div Z.max
           type_error fetch_backend handled detected content 30 30.

(** The solvers the backend was asked for, in order. *)
Definition solvers_called (evs : list (Event Z)) : list Solver :=
  flat_map (fun e => match e with
                     | EvGenerate p => [pl_solver_type p]
                     | _ => []
                     end) evs.

Definition start : TurnState Z := initial_state Z messages.

(** The first request of the turn. *)
Definition first_request : Request Z :=
  stream_request config tools false (rollingMessages start).

(** The tool message pushed for the layout, and the request of the round
    after it. *)
Definition pushed : ChatMessage :=
  tool_message JSON_stringify (lit "generate_layout_hybrid") layout.

Definition second_request : Request Z :=
  stream_request config tools true (rollingMessages start ++ [pushed; nudge]).

(** The model calls the tool, then answers in words. *)
Definition w_tool : Script :=
  script [streamed [line_tool_call ++ [LF]]; streamed [line_hello ++ [LF]]]
         [generated true 200 layout].

(** The model calls the tool, then says nothing, in the stream and in the
    retry. *)
Definition w_silent : Script :=
  script [streamed [line_tool_call ++ [LF]]; streamed []; flat_reply no_fields]
         [generated true 200 layout].

(** The model calls the tool with arguments that are no JSON, then answers
    in words. *)
Definition w_bad : Script :=
  script [streamed [line_bad_arguments ++ [LF]]; streamed [line_hello ++ [LF]]]
         [generated true 200 layout].

Definition w_status (code : nat) : Script := script [status code] [].

(** The backend answers the first solver, or refuses it and answers the
    second. *)
Definition w_backend_ok : Script := script [] [generated true 200 layout].

Definition w_backend_retry : Script :=
  script [] [generated false 500 JNull; generated true 200 layout].

Definition exhausted : TurnState Z :=
  {| fullResponse := []; rollingMessages := rollingMessages start; rounds := 3;
     haveToolResults := false; lastToolResult := None |}.

Definition trace_tool : list (Event Z) := events (generate messages w_tool).

Definition pending : RoundState :=
  {| encounteredToolCall := false; streamedCharsThisRound := 0;
     streamBuffer := line_tool_call |}.

Definition bad_call : ToolCall Z := tool_call_with (JStr (lit "{rooms")).

Definition think_only : jsstring := lit "<think></think>".

(** C1: the layout comes from the constraint solver, the only one asked,
    and says so in its [solver_type]; the model then stays silent.  The
    summary is synthesized and returned, and it names the graph solver:
    the code reads the field [solver], which the result does not have. *)
Theorem summary_names_graph_after_constraint_solver :
  solvers_called (events (generate messages w_silent)) = [constraint]
  /\ get layout (lit "solver_type") = Some (JStr (lit "constraint"))
  /\ get layout (lit "solver") = None
  /\ outcome (generate messages w_silent)
     = Ok (lit "Generated layout using graph solver (score 94). Visualized rooms (2) have been updated. Summary: 1) Plot parsed and constraints applied; 2) Vastu potential mapping considered; 3) Rule-guided placement optimized; 4) Final vector output rendered.").
Proof. vm_compute. repeat split. Qed.

Lemma loop_stops_at_three_witness :
  (maxRounds <= rounds exhausted)%nat
  /\ loop 5 exhausted w_tool = (w_tool, [], Ok exhausted).
Proof.
  assert (H : (maxRounds <= rounds exhausted)%nat) by (vm_compute; lia).
  split; [exact H|].
  destruct (generateResponse_at_most_three_rounds
              Z JSON_parse JSON_stringify js_String js_Number toLowerCase
              num_truthy Z.of_N (fun z => z) num_to_string type_error parse_record
              Script fetch_llm fetch_backend tools_disabled_flag
              config true tools true) as (_ & _ & _ & Hstop & _).
  exact (Hstop 5%nat exhausted w_tool H).
Defined.

Lemma tools_suppressed_witness :
  events (generate messages w_tool)
  = firstn 5 trace_tool ++ EvToolMessage pushed :: skipn 6 trace_tool
  /\ In (EvFetch second_request) (skipn 6 trace_tool)
  /\ rq_tools second_request = None
  /\ rq_tool_choice second_request = Some (lit "none").
Proof.
  assert (H1 : events (generate messages w_tool)
               = firstn 5 trace_tool ++ EvToolMessage pushed :: skipn 6 trace_tool)
    by (vm_compute; reflexivity).
  assert (H2 : In (EvFetch second_request) (skipn 6 trace_tool))
    by (left; vm_compute; reflexivity).
  split; [exact H1|]. split; [exact H2|].
  eapply tools_suppressed_after_tool_result; [exact H1 | exact H2].
Defined.








(** C5: the server answers the first request with status 500.  The turn
    fails with that message; the request was the only one. *)
Lemma status_500_is_thrown :
  generate messages (w_status 500)
  = (script [] [],
     [EvSetIsLoading true; EvSetError None; EvFetch first_request;
      EvSetError (Some (lit "Server responded with 500")); EvSetIsLoading false],
     Throws (lit "Server responded with 500")).
Proof. vm_compute. reflexivity. Qed.

Lemma non_ok_status_witness :
  fetch_llm (w_status 503) first_request
  = (script [] [], Ok {| resp_ok := false; resp_status := 503;
                         resp_body := Some ([], EndOfStream);
                         resp_json := Ok no_fields |})
  /\ outcome (generate messages (w_status 503))
     = Throws (lit "Server responded with 503").
Proof.
  assert (H : fetch_llm (w_status 503) first_request
              = (script [] [], Ok {| resp_ok := false; resp_status := 503;
                                     resp_body := Some ([], EndOfStream);
                                     resp_json := Ok no_fields |}))
    by reflexivity.
  split; [exact H|].
  pose proof (proj2 (non_ok_status_fails_the_turn
                       Z JSON_parse JSON_stringify js_String js_Number toLowerCase
                       num_truthy Z.of_N (fun z => z) num_to_string type_error parse_record
                       Script fetch_llm fetch_backend tools_disabled_flag
                       config true tools true)
                    messages (w_status 503) _ _ H eq_refl) as Hthrown.
  unfold generate. rewrite Hthrown. reflexivity.
Defined.

(** C6: the model calls the tool with the arguments ["{rooms"].  The turn
    goes on and ends well, the failure is logged, and the tool was not
    attempted: no backend request, no callback, no tool message.  With the
    arguments ["{}"] the backend is asked. *)
Lemma bad_arguments_are_not_dispatched :
  JSON_parse (lit "{rooms") = Throws (lit "Unexpected token in JSON")
  /\ no_dispatch (events (generate messages w_bad)) = true
  /\ solvers_called (events (generate messages w_bad)) = []
  /\ In (EvConsole Error (lit "[ServerLLM][ToolArgsParseError]"))
        (events (generate messages w_bad))
  /\ outcome (generate messages w_bad) = Ok (lit "Your plan is ready.")
  /\ solvers_called (events (generate messages w_tool)) = [constraint].
Proof.
  repeat split; try (vm_compute; reflexivity).
  vm_compute. right. right. right. left. reflexivity.
Qed.

Lemma unparsable_arguments_witness :
  rawArgs bad_call = JStr (lit "{rooms")
  /\ JSON_parse (lit "{rooms") = Throws (lit "Unexpected token in JSON")
  /\ handle start bad_call w_bad
     = (w_bad, [EvConsole Error (lit "[ServerLLM][ToolArgsParseError]")], Ok start).
Proof.
  assert (H1 : rawArgs bad_call = JStr (lit "{rooms")) by reflexivity.
  assert (H2 : JSON_parse (lit "{rooms") = Throws (lit "Unexpected token in JSON")) by reflexivity.
  split; [exact H1|]. split; [exact H2|].
  eapply unparsable_arguments_drop_the_call; [exact H1 | exact H2].
Defined.

(** C7: the watchdog fires on "3 bhk west facing".  The first request
    selects the graph solver; when it is refused, the second selects the
    constraint solver. *)
Lemma watchdog_asks_graph_first :
  solvers_called (events (fire false false (lit "3 bhk west facing") w_backend_ok))
  = [graph]
  /\ solvers_called (events (fire false false (lit "3 bhk west facing") w_backend_retry))
     = [graph; constraint].
Proof. split; vm_compute; reflexivity. Qed.

Lemma watchdog_witness :
  true || false = true
  /\ fire true false (lit "3 bhk west facing") w_backend_ok
     = (w_backend_ok, [], Ok tt).
Proof.
  assert (H : true || false = true) by reflexivity.
  split; [exact H|].
  eapply watchdog_graph_then_constraint. exact H.
Defined.

(** C9: the empty text has both parts empty, and is returned as it is. *)
Lemma empty_text_is_returned_empty :
  separate [] = ([], [])
  /\ cleanThinkingContent [] = []
  /\ cleanThinkingContent [] <> fallback_sentence.
Proof. repeat split. discriminate. Qed.

Lemma fallback_witness :
  think_only <> []
  /\ separate think_only = ([], [])
  /\ cleanThinkingContent think_only = fallback_sentence
  /\ trim (cleanThinkingContent think_only) <> [].
Proof.
  assert (H1 : think_only <> []) by discriminate.
  assert (H2 : separate think_only = ([], [])) by (vm_compute; reflexivity).
  split; [exact H1|]. split; [exact H2|].
  destruct (cleanThinkingContent_fallback think_only H1) as (Hfb & Hnb & _).
  split; [exact (Hfb H2) | exact Hnb].
Defined.

Lemma residual_witness :
  Frame.has_residual (streamBuffer pending) = true
  /\ parse_record (streamBuffer pending)
     = Some (message_line None (Some [tool_call_with (JStr (lit "{}"))]))
  /\ exists ts' rs',
      outcome (residual (start, pending) w_tool) = Ok (ts', rs')
      /\ encounteredToolCall rs' = true
      /\ no_dispatch (events (residual (start, pending) w_tool)) = true
      /\ rollingMessages ts' = rollingMessages start.
Proof.
  assert (H1 : Frame.has_residual (streamBuffer pending) = true)
    by (vm_compute; reflexivity).
  split; [exact H1|].
  assert (H2 : parse_record (streamBuffer pending)
               = Some (message_line None (Some [tool_call_with (JStr (lit "{}"))])))
    by (vm_compute; reflexivity).
  assert (H3 : tool_calls_of (message_line None (Some [tool_call_with (JStr (lit "{}"))]))
               = Some [tool_call_with (JStr (lit "{}"))])
    by reflexivity.
  split; [exact H2|].
  destruct (residual_tool_call_not_executed
              Z JSON_parse type_error parse_record Script fetch_llm config true tools
              start pending w_tool _ _ _ H1 H2 H3)
    as (ts' & rs' & Ho & He & Hd & Hm & _).
  exists ts', rs'. repeat split; assumption.
Defined.

End Scenario.

(** * The stored state of the page

    The hook [useLocalStorage] and the room handlers of [Index], which keep
    the rooms in it. *)

Module Hook.

Set Implicit Arguments.

Inductive Effect :=
| ConsoleError (text : jsstring)               (* [console.error(text, error)] *)
| Toast (title description : jsstring).        (* [toast({ title, description })] *)

Lemma str_eqb_eq (a b : jsstring) : str_eqb a b = true <-> a = b.
Proof.
  revert b. induction a as [|x a IH]; intros [|y b]; cbn [str_eqb];
    try (split; [discriminate | discriminate]); [split; reflexivity|].
  unfold code_eqb. rewrite andb_true_iff, N.eqb_eq, IH.
  split; [intros [-> ->]; reflexivity | intros [= -> ->]; split; reflexivity].
Qed.

Section UseLocalStorage.

(** The type [T] of the stored value with its JSON codec: [JSON.parse]
    throws on a text that is no JSON; [JSON_stringify v] is the text that
    [setItem] stores for [JSON.stringify(v)]. *)
Variable T : Type.
Variable JSON_parse : jsstring -> Res T.
Variable JSON_stringify : T -> jsstring.

(** [window.localStorage]; both operations can throw. *)
Variable Storage : Type.
Variable getItem : Storage -> jsstring -> Res (option jsstring).
Variable setItem : Storage -> jsstring -> jsstring -> Res Storage.

Variable key : jsstring.
Variable initialValue : T.

(** [item ? JSON.parse(item) : fallback] *)
Definition parse_or (item : option jsstring) (fallback : T) : Res T :=
  match item with
  | Some (c :: text) => JSON_parse (c :: text)
  | _ => Ok fallback
  end.

(** The initializer of [useState]. *)
Definition initial_value : Effects.M Storage Effect T :=
  try_catch
    (item <- (fun s => (s, [], getItem s key)) ;;
     lift (parse_or item initialValue))
    (fun _ =>
       emit (ConsoleError (lit "Error loading " ++ key ++ lit " from localStorage:")) ;;;
       ret initialValue).

(** The storage and the two cells of the hook. *)
Record World := {
  storage : Storage;
  storedValue : T;
  storedValueRef : T            (* [storedValueRef.current] *)
}.

(** The hook when the component mounts. *)
Definition mount (s : Storage) : World :=
  let value :=
    match outcome (initial_value s) with
    | Ok v => v
    | Throws _ => initialValue
    end in
  {| storage := s; storedValue := value; storedValueRef := value |}.

Definition read_item : Effects.M World Effect (option jsstring) :=
  fun w => (w, [], getItem (storage w) key).

Definition read_ref : Effects.M World Effect T :=
  fun w => (w, [], Ok (storedValueRef w)).

Definition setStoredValue (v : T) : Effects.M World Effect unit :=
  fun w =>
    ({| storage := storage w; storedValue := v;
        storedValueRef := storedValueRef w |}, [], Ok tt).

Definition write_ref (v : T) : Effects.M World Effect unit :=
  fun w =>
    ({| storage := storage w; storedValue := storedValue w;
        storedValueRef := v |}, [], Ok tt).

Definition write_item (text : jsstring) : Effects.M World Effect unit :=
  fun w =>
    match setItem (storage w) key text with
    | Ok s => ({| storage := s; storedValue := storedValue w;
                  storedValueRef := storedValueRef w |}, [], Ok tt)
    | Throws message => (w, [], Throws message)
    end.

(** The argument of [setValue]: a value, or a function of the current
    value, which may throw. *)
Inductive Update :=
| Value (v : T)
| Updater (f : T -> Res T).

Definition setValue (value : Update) : Effects.M World Effect unit :=
  try_catch
    (currentValue <-
       match value with
       | Updater _ =>
           item <- read_item ;;
           match item with
           | Some (c :: text) => lift (JSON_parse (c :: text))
           | _ => read_ref
           end
       | Value _ => read_ref
       end ;;
     valueToStore <-
       lift (match value with
             | Updater f => f currentValue
             | Value v => Ok v
             end) ;;
     setStoredValue valueToStore ;;;
     write_ref valueToStore ;;;
     write_item (JSON_stringify valueToStore))
    (fun _ =>
       emit (ConsoleError (lit "Error saving " ++ key ++ lit " to localStorage:"))).

Ltac run_hook :=
  cbv beta iota zeta delta [bind ret throw lift emit try_catch events outcome
                            world read_item read_ref setStoredValue write_ref
                            write_item fst snd] in *;
  cbn [storage storedValue storedValueRef] in *.

(** X19: The initializer never throws and leaves the storage alone.  It yields
    the parsed item when the item is a text that is not empty and parses;
    in every other case (no item, an empty item, an item that is no JSON,
    a storage that cannot be read) it yields [initialValue], with an error
    logged in the last two. *)
Theorem initial_value_falls_back (s : Storage) :
  world (initial_value s) = s
  /\ match getItem s key with
     | Ok (Some (c :: text)) =>
         match JSON_parse (c :: text) with
         | Ok v => outcome (initial_value s) = Ok v /\ events (initial_value s) = []
         | Throws _ =>
             outcome (initial_value s) = Ok initialValue
             /\ List.length (events (initial_value s)) = 1
         end
     | Ok _ => outcome (initial_value s) = Ok initialValue
               /\ events (initial_value s) = []
     | Throws _ => outcome (initial_value s) = Ok initialValue
                   /\ List.length (events (initial_value s)) = 1
     end.
Proof.
  unfold initial_value, parse_or. run_hook.
  destruct (getItem s key) as [[[|c text]|]|message]; cbv beta iota zeta;
    try (repeat split; reflexivity).
  destruct (JSON_parse (c :: text)); repeat split; reflexivity.
Qed.

(** X20: [setValue] never throws, logs at most one error, and keeps the ref
    equal to the state; when it logs, the storage is as it was. *)
Theorem setValue_never_throws (value : Update) (w : World) :
  storedValueRef w = storedValue w ->
  let r := setValue value w in
  outcome r = Ok tt
  /\ storedValueRef (world r) = storedValue (world r)
  /\ (events r = []
      \/ (List.length (events r) = 1 /\ storage (world r) = storage w)).
Proof.
  intros Hsync. cbv zeta. unfold setValue.
  assert (Hcatch : let r : World * list Effect * Res unit :=
                     (w, [ConsoleError (lit "Error saving " ++ key
                                         ++ lit " to localStorage:")], Ok tt) in
                   outcome r = Ok tt
                   /\ storedValueRef (world r) = storedValue (world r)
                   /\ (events r = []
                       \/ (List.length (events r) = 1
                           /\ storage (world r) = storage w))).
  { cbv zeta. cbn [outcome world events fst snd]. split; [reflexivity|].
    split; [exact Hsync|]. right. split; reflexivity. }
  destruct value as [v|f]; run_hook.
  - destruct (setItem (storage w) key (JSON_stringify v));
      cbv beta iota zeta; cbn [storage storedValue storedValueRef];
      (split; [reflexivity|]); (split; [reflexivity|]);
      [left | right; split]; reflexivity.
  - destruct (getItem (storage w) key) as [[[|c text]|]|message];
      cbv beta iota zeta; [| |  |exact Hcatch];
      try (destruct (JSON_parse (c :: text)) as [current|message];
           cbv beta iota zeta; [|exact Hcatch]);
      match goal with
      | |- context [f ?x] => destruct (f x) as [v|message]
      end; cbv beta iota zeta; try exact Hcatch;
      destruct (setItem (storage w) key (JSON_stringify v));
      cbv beta iota zeta; cbn [storage storedValue storedValueRef];
      (split; [reflexivity|]); (split; [reflexivity|]);
      [left | right; split | left | right; split | left | right; split];
      reflexivity.
Qed.

(** X21: A value that is set survives a reload: when the write succeeds and the
    storage gives back what was written, the state is the value, nothing is
    logged, and a component that mounts on the storage afterwards starts
    from the value, provided the codec returns it. *)
Theorem stored_value_survives_reload (v : T) (w : World) (s' : Storage) :
  setItem (storage w) key (JSON_stringify v) = Ok s' ->
  getItem s' key = Ok (Some (JSON_stringify v)) ->
  JSON_stringify v <> [] ->
  JSON_parse (JSON_stringify v) = Ok v ->
  let r := setValue (Value v) w in
  events r = []
  /\ storedValue (world r) = v
  /\ storage (world r) = s'
  /\ storedValue (mount (storage (world r))) = v.
Proof.
  intros Hset Hget Hne Hparse. cbv zeta.
  assert (Hrun : setValue (Value v) w
                 = ({| storage := s'; storedValue := v; storedValueRef := v |},
                    [], Ok tt)).
  { unfold setValue. run_hook. rewrite Hset. reflexivity. }
  rewrite Hrun. cbn [events world outcome fst snd storage storedValue].
  repeat split. unfold mount, initial_value, parse_or. run_hook.
  rewrite Hget. destruct (JSON_stringify v) as [|c text]; [destruct Hne; reflexivity|].
  cbv beta iota zeta. rewrite Hparse. reflexivity.
Qed.

(** X22: An updater is applied to what the storage holds, not to the state of
    the component: two updates in a row compose on the stored value even
    when the state and the ref are stale. *)
Theorem updaters_compose_on_the_storage
        (f g : T -> Res T) (w : World) (v0 v1 v2 : T) (s1 s2 : Storage) :
  getItem (storage w) key = Ok (Some (JSON_stringify v0)) ->
  JSON_stringify v0 <> [] -> JSON_parse (JSON_stringify v0) = Ok v0 ->
  f v0 = Ok v1 ->
  setItem (storage w) key (JSON_stringify v1) = Ok s1 ->
  getItem s1 key = Ok (Some (JSON_stringify v1)) ->
  JSON_stringify v1 <> [] -> JSON_parse (JSON_stringify v1) = Ok v1 ->
  g v1 = Ok v2 ->
  setItem s1 key (JSON_stringify v2) = Ok s2 ->
  let r := (setValue (Updater f) ;;; setValue (Updater g)) w in
  outcome r = Ok tt
  /\ events r = []
  /\ world r = {| storage := s2; storedValue := v2; storedValueRef := v2 |}.
Proof.
  intros Hget0 Hne0 Hparse0 Hf Hset1 Hget1 Hne1 Hparse1 Hg Hset2. cbv zeta.
  assert (Hstep : forall h w0 u u' s,
             getItem (storage w0) key = Ok (Some (JSON_stringify u)) ->
             JSON_stringify u <> [] -> JSON_parse (JSON_stringify u) = Ok u ->
             h u = Ok u' ->
             setItem (storage w0) key (JSON_stringify u') = Ok s ->
             setValue (Updater h) w0
             = ({| storage := s; storedValue := u'; storedValueRef := u' |},
                [], Ok tt)).
  { intros h w0 u u' s H1 H2 H3 H4 H5. unfold setValue. run_hook.
    rewrite H1. destruct (JSON_stringify u) as [|c text]; [destruct H2; reflexivity|].
    cbv beta iota zeta. rewrite H3. cbv beta iota zeta. rewrite H4.
    cbv beta iota zeta. rewrite H5. reflexivity. }
  unfold bind.
  rewrite (Hstep f w v0 v1 s1 Hget0 Hne0 Hparse0 Hf Hset1).
  rewrite (Hstep g {| storage := s1; storedValue := v1; storedValueRef := v1 |}
                 v1 v2 s2 Hget1 Hne1 Hparse1 Hg Hset2).
  repeat split.
Qed.

(** X23: A write that the storage refuses: the state takes the value all the
    same, the storage keeps what it had, and one error is logged. *)
Theorem refused_write_leaves_the_state_ahead
        (v : T) (w : World) (message : jsstring) :
  setItem (storage w) key (JSON_stringify v) = Throws message ->
  let r := setValue (Value v) w in
  outcome r = Ok tt
  /\ storedValue (world r) = v
  /\ storage (world r) = storage w
  /\ events r
     = [ConsoleError (lit "Error saving " ++ key ++ lit " to localStorage:")].
Proof.
  intros Hset. cbv zeta. unfold setValue. run_hook. rewrite Hset.
  repeat split.
Qed.

End UseLocalStorage.

(** ** The room handlers of [Index] *)

Section RoomHandlers.

(** The type [Room] of the adjustment panel is not part of these sources:
    a room has an [id]; [spread room updates] is [{ ...room, ...updates }]. *)
Variable Room : Type.
Variable room_id : Room -> jsstring.
Variable Partial : Type.
Variable spread : Room -> Partial -> Room.

Variable JSON_parse : jsstring -> Res (list Room).
Variable JSON_stringify : list Room -> jsstring.
Variable Storage : Type.
Variable getItem : Storage -> jsstring -> Res (option jsstring).
Variable setItem : Storage -> jsstring -> jsstring -> Res Storage.

Definition Rooms : Type := World (list Room) Storage.

(** [const [rooms, setRooms] = useLocalStorage<Room[]>('vastu-rooms', [])] *)
Definition setRooms (rooms : list Room) : Effects.M Rooms Effect unit :=
  setValue JSON_parse JSON_stringify getItem setItem (lit "vastu-rooms")
           (Value rooms).

(** In the handlers [rooms] is the state of the render they belong to. *)
Definition handleUpdateRoom (rooms : list Room) (roomId : jsstring)
           (updates : Partial) : Effects.M Rooms Effect unit :=
  setRooms (map (fun room => if str_eqb (room_id room) roomId
                             then spread room updates else room) rooms) ;;;
  emit (Toast (lit "Room updated") (lit "Room properties have been modified")).

Definition handleDeleteRoom (rooms : list Room) (roomId : jsstring)
  : Effects.M Rooms Effect unit :=
  setRooms (filter (fun room => negb (str_eqb (room_id room) roomId)) rooms) ;;;
  emit (Toast (lit "Room deleted") (lit "Room has been removed from floor plan")).

Definition handleAddRoom (rooms : list Room) (room : Room)
  : Effects.M Rooms Effect unit :=
  setRooms (rooms ++ [room]) ;;;
  emit (Toast (lit "Room added") (lit "New room has been added to floor plan")).

(** What [setRooms] leaves in the state, whatever the storage does. *)
Lemma setRooms_state (rooms : list Room) (w : Rooms) :
  outcome (setRooms rooms w) = Ok tt
  /\ storedValue (world (setRooms rooms w)) = rooms.
Proof.
  unfold setRooms, setValue.
  cbv beta iota zeta delta [bind ret throw lift emit try_catch events outcome
                            world read_item read_ref setStoredValue write_ref
                            write_item fst snd].
  cbn [storage storedValue storedValueRef].
  destruct (setItem (storage w) (lit "vastu-rooms") (JSON_stringify rooms));
    split; reflexivity.
Qed.

Lemma handler_state (rooms : list Room) (toast : Effect) (w : Rooms) :
  let r := (setRooms rooms ;;; emit toast) w in
  outcome r = Ok tt
  /\ storedValue (world r) = rooms
  /\ exists logged, events r = logged ++ [toast].
Proof.
  cbv zeta. destruct (setRooms_state rooms w) as (Hout & Hstate).
  unfold bind, emit.
  destruct (setRooms rooms w) as [[w1 e1] o1]. cbn [outcome snd] in Hout.
  subst o1. cbn [world events outcome fst snd] in *.
  repeat split; [exact Hstate|]. exists e1. reflexivity.
Qed.


(** X25: Updating a room with properties that do not touch the id keeps the
    rooms in place: the ids are the same, in the same order, and a room
    with another id is what it was. *)
Theorem update_room_keeps_the_others
        (rooms : list Room) (roomId : jsstring) (updates : Partial) (w : Rooms) :
  (forall room, room_id (spread room updates) = room_id room) ->
  let r := handleUpdateRoom rooms roomId updates w in
  outcome r = Ok tt
  /\ map room_id (storedValue (world r)) = map room_id rooms
  /\ forall i room,
      nth_error rooms i = Some room ->
      nth_error (storedValue (world r)) i
      = Some (if str_eqb (room_id room) roomId then spread room updates else room).
Proof.
  intros Hid. cbv zeta. unfold handleUpdateRoom.
  destruct (handler_state
              (map (fun room => if str_eqb (room_id room) roomId
                                then spread room updates else room) rooms)
              (Toast (lit "Room updated")
                     (lit "Room properties have been modified")) w)
    as (Hout & Hstate & _).
  split; [exact Hout|]. rewrite Hstate. split.
  - rewrite map_map. apply map_ext. intros room.
    destruct (str_eqb (room_id room) roomId); [apply Hid | reflexivity].
  - intros i room Hnth. rewrite nth_error_map, Hnth. reflexivity.
Qed.

(** X26: An id that no room has: updating and deleting leave the rooms as they
    are, and still show their toast. *)
Theorem unknown_room_changes_nothing
        (rooms : list Room) (roomId : jsstring) (updates : Partial) (w : Rooms) :
  (forall room, In room rooms -> room_id room <> roomId) ->
  storedValue (world (handleUpdateRoom rooms roomId updates w)) = rooms
  /\ storedValue (world (handleDeleteRoom rooms roomId w)) = rooms
  /\ In (Toast (lit "Room updated") (lit "Room properties have been modified"))
        (events (handleUpdateRoom rooms roomId updates w))
  /\ In (Toast (lit "Room deleted") (lit "Room has been removed from floor plan"))
        (events (handleDeleteRoom rooms roomId w)).
Proof.
  intros Hfresh.
  assert (Hno : forall room, In room rooms -> str_eqb (room_id room) roomId = false).
  { intros room Hin. destruct (str_eqb (room_id room) roomId) eqn:Heq;
      [|reflexivity].
    apply str_eqb_eq in Heq. destruct (Hfresh room Hin Heq). }
  unfold handleUpdateRoom, handleDeleteRoom.
  destruct (handler_state
              (map (fun room => if str_eqb (room_id room) roomId
                                then spread room updates else room) rooms)
              (Toast (lit "Room updated")
                     (lit "Room properties have been modified")) w)
    as (_ & -> & logged1 & ->).
  destruct (handler_state
              (filter (fun room => negb (str_eqb (room_id room) roomId)) rooms)
              (Toast (lit "Room deleted")
                     (lit "Room has been removed from floor plan")) w)
    as (_ & -> & logged2 & ->).
  repeat split.
  - rewrite <- (map_id rooms) at 2. apply map_ext_in. intros room Hin.
    rewrite (Hno room Hin). reflexivity.
  - clear -Hno. induction rooms as [|room rooms IH]; [reflexivity|].
    cbn [filter]. rewrite (Hno room (or_introl eq_refl)). cbn [negb].
    f_equal. apply IH. intros r Hin. apply Hno. right. exact Hin.
  - apply in_or_app. right. left. reflexivity.
  - apply in_or_app. right. left. reflexivity.
Qed.

(** X27: Adding a room whose id is new and deleting it in the next render gives
    the rooms back. *)
Theorem add_then_delete_restores
        (rooms : list Room) (room : Room) (w : Rooms) :
  (forall other, In other rooms -> room_id other <> room_id room) ->
  let added := world (handleAddRoom rooms room w) in
  storedValue added = rooms ++ [room]
  /\ storedValue (world (handleDeleteRoom (storedValue added) (room_id room) added))
     = rooms.
Proof.
  intros Hfresh. cbv zeta. unfold handleAddRoom.
  destruct (handler_state (rooms ++ [room])
              (Toast (lit "Room added")
                     (lit "New room has been added to floor plan")) w)
    as (_ & Hstate & _).
  split; [exact Hstate|]. rewrite Hstate. unfold handleDeleteRoom.
  match goal with
  | |- context [(setRooms ?l ;;; emit ?t) ?w0] =>
      destruct (handler_state l t w0) as (_ & -> & _)
  end.
  rewrite filter_app. cbn [filter].
  assert (Hself : str_eqb (room_id room) (room_id room) = true)
    by (apply str_eqb_eq; reflexivity).
  rewrite Hself. cbn [negb]. rewrite app_nil_r.
  clear -Hfresh. induction rooms as [|other rooms IH]; [reflexivity|].
  cbn [filter].
  destruct (str_eqb (room_id other) (room_id room)) eqn:Heq.
  - apply str_eqb_eq in Heq. destruct (Hfresh other (or_introl eq_refl) Heq).
  - cbn [negb]. f_equal. apply IH. intros r Hin. apply Hfresh. right. exact Hin.
Qed.

End RoomHandlers.

End Hook.

(** * More scenarios *)

Module Cases.

Import Sanitizer.
Import Scenario.

(** ** The turn *)

(** An endpoint of the OpenAI dialect. *)
Definition config_lmstudio : ServerLLMConfig :=
  {| cfg_endpoint := lit "http://localhost:1234";
     cfg_model := None;
     cfg_type := Some lmstudio |}.

Definition generate_lmstudio
  : list Message -> Script -> Script * list (Event Z) * Res jsstring :=
  generateResponse JSON_parse JSON_stringify js_String js_Number toLowerCase
                   num_truthy Z.of_N (fun z => z) num_to_string type_error parse_record
                   fetch_llm fetch_backend tools_disabled_flag
                   config_lmstudio true tools true.

(** The server streams a line that would be a tool call for Ollama, then
    answers the retry with nothing. *)
Definition w_lmstudio : Script :=
  script [streamed [line_tool_call ++ [LF]]; flat_reply no_fields] [].

Lemma returned_text_witness :
  outcome (generate messages w_tool) = Ok (lit "Your plan is ready.")
  /\ tokens Z (events (generate messages w_tool)) = lit "Your plan is ready."
  /\ lit "Your plan is ready."
     = cleanThinkingContent (tokens Z (events (generate messages w_tool))).
Proof.
  assert (H1 : outcome (generate messages w_tool) = Ok (lit "Your plan is ready."))
    by (vm_compute; reflexivity).
  assert (H2 : tokens Z (events (generate messages w_tool)) = lit "Your plan is ready.")
    by (vm_compute; reflexivity).
  assert (H3 : tokens Z (events (generate messages w_tool)) <> []
               \/ has_tool_message Z (events (generate messages w_tool)) = false)
    by (left; rewrite H2; discriminate).
  split; [exact H1|]. split; [exact H2|].
  exact (returned_text_is_what_was_streamed
           Z JSON_parse JSON_stringify js_String js_Number toLowerCase
           num_truthy Z.of_N (fun z => z) num_to_string type_error parse_record
           Script fetch_llm fetch_backend tools_disabled_flag
           config true tools true messages w_tool _ eq_refl H1 H3).
Defined.

Lemma requests_carry_witness :
  In (EvFetch second_request) (events (generate messages w_tool))
  /\ exists suffix,
      rq_messages second_request = rollingMessages start ++ suffix
      /\ Forall is_appended suffix.
Proof.
  assert (H1 : In (EvFetch second_request) (events (generate messages w_tool))).
  { vm_compute. repeat (first [left; reflexivity | right]). }
  split; [exact H1|].
  exact (requests_carry_the_conversation
           Z JSON_parse JSON_stringify js_String js_Number toLowerCase
           num_truthy Z.of_N (fun z => z) num_to_string type_error parse_record
           Script fetch_llm fetch_backend tools_disabled_flag
           config true tools true messages w_tool second_request H1).
Defined.

Lemma other_dialects_witness :
  isOllama config_lmstudio = false
  /\ count is_stream_fetch (events (generate_lmstudio messages w_lmstudio)) = 1%nat
  /\ no_dispatch (events (generate_lmstudio messages w_lmstudio)) = true.
Proof.
  assert (H1 : isOllama config_lmstudio = false) by (vm_compute; reflexivity).
  split; [exact H1|].
  destruct (other_dialects_take_one_round
              Z JSON_parse JSON_stringify js_String js_Number toLowerCase
              num_truthy Z.of_N (fun z => z) num_to_string type_error parse_record
              Script fetch_llm fetch_backend tools_disabled_flag
              config_lmstudio true tools true messages w_lmstudio H1)
    as (Hone & Hquiet & _).
  split; [exact Hone | exact Hquiet].
Defined.

(** ** The tool *)


Definition payload_of : json Z -> Payload Z :=
  layout_payload js_String js_Number toLowerCase num_truthy Z.of_N.




(** A message that names its BHK number at once. *)
Definition three_bhk : jsstring := lit "3 BHK flat, east facing".

Lemma watchdog_rooms_witness :
  three_bhk = [] ++ 51%N :: lit " BHK flat, east facing"
  /\ map (@room_type Z)
         (pl_rooms (watchdog_payload Z.of_N (fun z => z) parse_number
                                     Z.mul Z.div Z.max three_bhk 30%Z 40%Z))
     = [Some (lit "living"); Some (lit "kitchen"); Some (lit "master_bedroom");
        Some (lit "bedroom"); Some (lit "bedroom"); Some (lit "bathroom");
        Some (lit "bathroom")].
Proof.
  assert (H1 : three_bhk = [] ++ 51%N :: lit " BHK flat, east facing")
    by reflexivity.
  assert (H2 : is_digit 51 = true) by reflexivity.
  assert (H3 : strip_prefix_ci (lit "bhk") (trimStart (lit " BHK flat, east facing"))
               = Some (lit " flat, east facing")) by reflexivity.
  assert (H4 : forall (b' : jsstring) (d' : N) (a' : jsstring),
             [] = b' ++ d' :: a' -> is_digit d' = true ->
             strip_prefix_ci (lit "bhk")
               (trimStart (a' ++ 51%N :: lit " BHK flat, east facing")) = None).
  { intros b' d' a' H. destruct b'; discriminate H. }
  split; [exact H1|].
  destruct (watchdog_asks_for_these_rooms
              Z Z.of_N (fun z => z) parse_number Z.mul Z.div Z.max
              three_bhk 30%Z 40%Z) as (Hfound & _).
  exact (Hfound [] 51%N (lit " BHK flat, east facing")
                (lit " flat, east facing") H1 H2 H3 H4).
Defined.

(** The backend cannot be reached. *)
Definition w_offline : Script := script [] [].

Lemma failed_tool_call_witness :
  resolve_args JSON_parse type_error (tool_call_with (JStr (lit "{}")))
  = Ok (JObj [])
  /\ fetch_backend w_offline (payload_of (JObj []))
     = (w_offline, Throws (lit "Failed to fetch"))
  /\ exists ts',
      outcome (handle start (tool_call_with (JStr (lit "{}"))) w_offline) = Ok ts'
      /\ lastToolResult ts' = Some (error_result Z (lit "Failed to fetch"))
      /\ cleanThinkingContent
           (fullResponse (synthesize js_String num_truthy (fun z => z)
                                     num_to_string ts'))
         = bare_summary.
Proof.
  assert (H1 : resolve_args JSON_parse type_error (tool_call_with (JStr (lit "{}")))
               = Ok (JObj []))
    by (vm_compute; reflexivity).
  assert (H2 : function_name type_error (tool_call_with (JStr (lit "{}")))
               = Ok (lit "generate_layout_hybrid"))
    by reflexivity.
  assert (H3 : fetch_backend w_offline (payload_of (JObj []))
               = (w_offline, Throws (lit "Failed to fetch")))
    by reflexivity.
  assert (H4 : fullResponse start = []) by reflexivity.
  split; [exact H1|]. split; [exact H3|].
  destruct (failed_tool_call_is_reported_as_generated
              Z JSON_parse JSON_stringify js_String js_Number toLowerCase
              num_truthy Z.of_N (fun z => z) num_to_string type_error
              Script fetch_backend true start (tool_call_with (JStr (lit "{}")))
              (JObj []) w_offline w_offline (lit "Failed to fetch")
              H1 H2 H3 H4)
    as (ts' & Hout & Hlast & _ & Hclean).
  exists ts'. split; [exact Hout|]. split; [exact Hlast | exact Hclean].
Defined.

(** ** The sanitizer *)

Definition plain_answer : jsstring := lit "  Your plan is ready. ".

Definition musing : jsstring := lit "Okay, the user wants a plan.".

Lemma plain_text_witness :
  think_match plain_answer = None
  /\ looksLikeThinking plain_answer = false
  /\ cleanThinkingContent plain_answer = lit "Your plan is ready.".
Proof.
  assert (H1 : think_match plain_answer = None) by (vm_compute; reflexivity).
  assert (H2 : looksLikeThinking plain_answer = false) by (vm_compute; reflexivity).
  assert (H3 : trim plain_answer <> []) by (vm_compute; discriminate).
  split; [exact H1|]. split; [exact H2|].
  rewrite (plain_text_passes_through plain_answer H1 H2 H3).
  vm_compute. reflexivity.
Defined.

Lemma untagged_reasoning_witness :
  think_match musing = None
  /\ looksLikeThinking musing = true
  /\ cleanThinkingContent musing ++ [LF; LF] = details_block musing.
Proof.
  assert (H1 : think_match musing = None) by (vm_compute; reflexivity).
  assert (H2 : looksLikeThinking musing = true) by (vm_compute; reflexivity).
  split; [exact H1|]. split; [exact H2|].
  exact (untagged_reasoning_is_folded musing H1 H2).
Defined.

(** ** The frame decoder *)

(** Two lines of ASCII cut inside the second. *)
Definition two_chunks : list (list byte) :=
  [[x61; x0a; x62]; [x63; x0a]].

Lemma records_of_ascii_witness :
  forallb is_ascii two_chunks = true
  /\ Frame.records two_chunks = Frame.records [List.concat two_chunks].
Proof.
  assert (H1 : forallb is_ascii two_chunks = true) by (vm_compute; reflexivity).
  split; [exact H1|].
  exact (records_of_ascii_ignore_chunking two_chunks H1).
Defined.

(** ** The callback of the page *)

Definition the_call : ToolCall Z := tool_call_with (JStr (lit "{}")).

Definition the_function : FunctionCall Z :=
  {| fn_name := lit "generate_layout_hybrid";
     fn_arguments := Some (JStr (lit "{}")) |}.

Definition succeeded : json Z :=
  JObj [(lit "status", JStr (lit "success")); (lit "rooms", JArr [])].

(** A generation that reports success and names its solver by an object
    that has no text. *)
Definition unprintable : json Z :=
  JObj [(lit "status", JStr (lit "success"));
        (lit "solver", JObj [(lit "toString", JNum 1%Z)])].

Definition no_flags : SendFlags :=
  {| toolCallDetected := false; toolCallHandled := false |}.

(** [ToString] on the values of the scenarios: an object with a [toString]
    of its own, which no JSON value can make a function, has no text. *)
Definition conversion_error (v : json Z) : option jsstring :=
  match v with
  | JObj fields =>
      match lookup (lit "toString") fields with
      | Some _ => Some (lit "Cannot convert object to primitive value")
      | None => None
      end
  | _ => None
  end.

Definition callback : bool -> ToolCall Z -> json Z -> SendFlags
                      -> SendFlags * list (PageEffect Z) * Res unit :=
  page_onToolCall Z js_String num_truthy type_error conversion_error.

Lemma page_callback_witness :
  tc_function the_call = Some the_function
  /\ succeeded <> JNull
  /\ unprintable <> JNull
  /\ (outcome (callback true the_call succeeded no_flags) = Ok tt
      /\ toolCallHandled (world (callback true the_call succeeded no_flags)) = true
      /\ events (callback true the_call succeeded no_flags)
         = [@PgSetRooms Z (Some (JArr []));
            @PgToast Z (lit "Floor Plan Generated")
                    (lit "Generated 0 rooms using hybrid solver") false;
            @PgClearWatchdog Z])
  /\ (outcome (callback true the_call unprintable no_flags)
      = Throws (lit "Cannot convert object to primitive value")
      /\ toolCallHandled (world (callback true the_call unprintable no_flags))
         = false
      /\ events (callback true the_call unprintable no_flags) = [@PgSetRooms Z None])
  /\ toolCallDetected (world (callback true the_call unprintable no_flags)) = true.
Proof.
  assert (H1 : tc_function the_call = Some the_function) by reflexivity.
  assert (H2 : succeeded <> JNull) by discriminate.
  assert (H3 : unprintable <> JNull) by discriminate.
  split; [exact H1|]. split; [exact H2|]. split; [exact H3|].
  destruct (page_callback_settles_the_flags
              Z js_String num_truthy type_error conversion_error
              true the_call the_function succeeded no_flags H1 H2)
    as (_ & Hgood).
  destruct (page_callback_settles_the_flags
              Z js_String num_truthy type_error conversion_error
              true the_call the_function unprintable no_flags H1 H3)
    as (Hdet & Hbad).
  vm_compute in Hgood, Hbad.
  split; [exact Hgood|]. split; [exact Hbad | exact Hdet].
Defined.

Lemma page_callback_in_a_turn_witness :
  In (EvOnToolCall the_call layout) (events (generate messages w_tool))
  /\ toolCallDetected (world (callback true the_call layout no_flags)) = true
  /\ fire (toolCallHandled (world (callback true the_call layout no_flags))) true
          (lit "Design a 2 BHK, 30x40 ft") w_backend_ok
     = (w_backend_ok, [], Ok tt).
Proof.
  assert (H1 : In (EvOnToolCall the_call layout) (events (generate messages w_tool))).
  { vm_compute. repeat (first [left; reflexivity | right]). }
  split; [exact H1|].
  destruct (page_callback_disarms_the_watchdog
              Z JSON_parse JSON_stringify js_String js_Number toLowerCase
              num_truthy Z.of_N (fun z => z) num_to_string parse_number
              Z.mul Z.div Z.max type_error parse_record
              Script fetch_llm fetch_backend tools_disabled_flag
              config true tools true conversion_error messages w_tool
              the_call layout H1 true no_flags)
    as (Hdet & _ & Hwatch).
  split; [exact Hdet|].
  rewrite Hdet in Hwatch.
  exact (Hwatch (lit "Design a 2 BHK, 30x40 ft") 30%Z 30%Z w_backend_ok).
Defined.

(** ** The stored state *)

(** A storage with a quota on the length of a value. *)
Record Store := {
  items : list (jsstring * jsstring);
  quota : nat
}.

Fixpoint item_of (k : jsstring) (l : list (jsstring * jsstring)) : option jsstring :=
  match l with
  | [] => None
  | (k', v) :: rest => if str_eqb k k' then Some v else item_of k rest
  end.

Definition getItem (s : Store) (k : jsstring) : Res (option jsstring) :=
  Ok (item_of k (items s)).

Definition setItem (s : Store) (k text : jsstring) : Res Store :=
  if Nat.leb (List.length text) (quota s)
  then Ok {| items := (k, text) :: items s; quota := quota s |}
  else Throws (lit "QuotaExceededError").

(** The codec of a boolean, the value behind [sidebar-collapsed]. *)
Definition parse_bool (text : jsstring) : Res bool :=
  if str_eqb text (lit "true") then Ok true
  else if str_eqb text (lit "false") then Ok false
  else Throws (lit "Unexpected token in JSON").

Definition stringify_bool (b : bool) : jsstring :=
  if b then lit "true" else lit "false".

Definition sidebar_key : jsstring := lit "sidebar-collapsed".

Definition set_sidebar
  : Hook.Update bool -> Hook.World bool Store
    -> Hook.World bool Store * list Hook.Effect * Res unit :=
  Hook.setValue parse_bool stringify_bool getItem setItem sidebar_key.

Definition empty_store : Store := {| items := []; quota := 100 |}.

Definition full_store : Store := {| items := []; quota := 0 |}.

(** The storage holds a text that is no JSON. *)
Definition corrupt_store : Store :=
  {| items := [(sidebar_key, lit "{")]; quota := 100 |}.

(** The storage holds [false], and the component a stale [true]. *)
Definition stale : Hook.World bool Store :=
  {| Hook.storage := {| items := [(sidebar_key, lit "false")]; quota := 100 |};
     Hook.storedValue := true;
     Hook.storedValueRef := true |}.

Definition fresh (s : Store) : Hook.World bool Store :=
  Hook.mount parse_bool getItem sidebar_key false s.

Definition toggle (b : bool) : Res bool := Ok (negb b).

Lemma setValue_witness :
  Hook.storedValueRef (fresh corrupt_store) = Hook.storedValue (fresh corrupt_store)
  /\ outcome (set_sidebar (Hook.Updater toggle) (fresh corrupt_store)) = Ok tt
  /\ List.length (events (set_sidebar (Hook.Updater toggle) (fresh corrupt_store)))
     = 1%nat.
Proof.
  assert (H1 : Hook.storedValueRef (fresh corrupt_store)
               = Hook.storedValue (fresh corrupt_store))
    by reflexivity.
  split; [exact H1|].
  destruct (@Hook.setValue_never_throws
              bool parse_bool stringify_bool Store getItem setItem sidebar_key
              (Hook.Updater toggle) (fresh corrupt_store) H1)
    as (Hout & _ & _).
  split; [exact Hout|]. vm_compute. reflexivity.
Defined.

Lemma stored_value_witness :
  setItem empty_store sidebar_key (stringify_bool true)
  = Ok {| items := [(sidebar_key, lit "true")]; quota := 100 |}
  /\ parse_bool (stringify_bool true) = Ok true
  /\ Hook.storedValue
       (fresh (Hook.storage
                 (world (set_sidebar (Hook.Value true) (fresh empty_store)))))
     = true.
Proof.
  assert (H1 : setItem (Hook.storage (fresh empty_store)) sidebar_key
                       (stringify_bool true)
               = Ok {| items := [(sidebar_key, lit "true")]; quota := 100 |})
    by reflexivity.
  assert (H2 : getItem {| items := [(sidebar_key, lit "true")]; quota := 100 |}
                       sidebar_key
               = Ok (Some (stringify_bool true)))
    by reflexivity.
  assert (H3 : stringify_bool true <> []) by discriminate.
  assert (H4 : parse_bool (stringify_bool true) = Ok true) by reflexivity.
  split; [exact H1|]. split; [exact H4|].
  destruct (@Hook.stored_value_survives_reload
              bool parse_bool stringify_bool Store getItem setItem sidebar_key
              false true (fresh empty_store) _ H1 H2 H3 H4)
    as (_ & _ & _ & Hreload).
  exact Hreload.
Defined.

Lemma updaters_witness :
  Hook.storedValue stale = true
  /\ getItem (Hook.storage stale) sidebar_key = Ok (Some (stringify_bool false))
  /\ Hook.storedValue
       (world (bind (set_sidebar (Hook.Updater toggle))
                    (fun _ => set_sidebar (Hook.Updater toggle)) stale))
     = false.
Proof.
  assert (H0 : getItem (Hook.storage stale) sidebar_key
               = Ok (Some (stringify_bool false)))
    by reflexivity.
  split; [reflexivity|]. split; [exact H0|].
  destruct (@Hook.updaters_compose_on_the_storage
              bool parse_bool stringify_bool Store getItem setItem sidebar_key
              toggle toggle stale false true false
              {| items := [(sidebar_key, lit "true"); (sidebar_key, lit "false")];
                 quota := 100 |}
              {| items := [(sidebar_key, lit "false"); (sidebar_key, lit "true");
                           (sidebar_key, lit "false")];
                 quota := 100 |}
              H0 ltac:(discriminate) eq_refl eq_refl eq_refl eq_refl
              ltac:(discriminate) eq_refl eq_refl eq_refl)
    as (_ & _ & Hworld).
  unfold set_sidebar. rewrite Hworld. reflexivity.
Defined.

Lemma refused_write_witness :
  setItem full_store sidebar_key (stringify_bool true)
  = Throws (lit "QuotaExceededError")
  /\ Hook.storedValue (world (set_sidebar (Hook.Value true) (fresh full_store)))
     = true
  /\ Hook.storage (world (set_sidebar (Hook.Value true) (fresh full_store)))
     = full_store.
Proof.
  assert (H1 : setItem (Hook.storage (fresh full_store)) sidebar_key
                       (stringify_bool true)
               = Throws (lit "QuotaExceededError"))
    by reflexivity.
  split; [exact H1|].
  destruct (@Hook.refused_write_leaves_the_state_ahead
              bool parse_bool stringify_bool Store getItem setItem sidebar_key
              true (fresh full_store) _ H1)
    as (_ & Hstate & Hstorage & _).
  split; [exact Hstate | exact Hstorage].
Defined.

(** ** The room handlers *)

(** A room as its id and its width; an update sets the width. *)
Definition SmallRoom : Type := jsstring * N.

Definition widen (room : SmallRoom) (width : N) : SmallRoom := (fst room, width).

Definition parse_rooms (text : jsstring) : Res (list SmallRoom) := Ok [].

Definition stringify_rooms (rooms : list SmallRoom) : jsstring := lit "[]".

Definition two_rooms : list SmallRoom :=
  [(lit "kitchen_1", 8%N); (lit "bed_1", 12%N)].

Definition page_rooms : Hook.World (list SmallRoom) Store :=
  {| Hook.storage := empty_store; Hook.storedValue := two_rooms;
     Hook.storedValueRef := two_rooms |}.

Definition update_room :=
  Hook.handleUpdateRoom (@fst jsstring N) widen parse_rooms stringify_rooms
                        getItem setItem.

Definition delete_room :=
  Hook.handleDeleteRoom (@fst jsstring N) parse_rooms stringify_rooms
                        getItem setItem.

Definition add_room :=
  Hook.handleAddRoom parse_rooms stringify_rooms getItem setItem.

Lemma update_room_witness :
  (forall room : SmallRoom, fst (widen room 10%N) = fst room)
  /\ nth_error
       (Hook.storedValue
          (world (update_room two_rooms (lit "bed_1") 10%N page_rooms))) 1
     = Some (lit "bed_1", 10%N).
Proof.
  assert (H1 : forall room : SmallRoom, fst (widen room 10%N) = fst room)
    by (intros room; reflexivity).
  split; [exact H1|].
  destruct (@Hook.update_room_keeps_the_others
              SmallRoom (@fst jsstring N) N widen parse_rooms stringify_rooms
              Store getItem setItem two_rooms (lit "bed_1") 10%N page_rooms H1)
    as (_ & _ & Hnth).
  exact (Hnth 1%nat (lit "bed_1", 12%N) eq_refl).
Defined.

Lemma unknown_room_witness :
  (forall room : SmallRoom, In room two_rooms -> fst room <> lit "garage_1")
  /\ Hook.storedValue (world (update_room two_rooms (lit "garage_1") 10%N page_rooms))
     = two_rooms
  /\ Hook.storedValue (world (delete_room two_rooms (lit "garage_1") page_rooms))
     = two_rooms.
Proof.
  assert (H1 : forall room : SmallRoom,
             In room two_rooms -> fst room <> lit "garage_1").
  { intros room [<-|[<-|[]]]; vm_compute; discriminate. }
  split; [exact H1|].
  destruct (@Hook.unknown_room_changes_nothing
              SmallRoom (@fst jsstring N) N widen parse_rooms stringify_rooms
              Store getItem setItem two_rooms (lit "garage_1") 10%N page_rooms H1)
    as (Hupdate & Hdelete & _).
  split; [exact Hupdate | exact Hdelete].
Defined.

Lemma add_then_delete_witness :
  (forall other : SmallRoom,
      In other two_rooms -> fst other <> fst (lit "gym_1", 9%N))
  /\ Hook.storedValue
       (world (delete_room
                 (Hook.storedValue
                    (world (add_room two_rooms (lit "gym_1", 9%N) page_rooms)))
                 (lit "gym_1")
                 (world (add_room two_rooms (lit "gym_1", 9%N) page_rooms))))
     = two_rooms.
Proof.
  assert (H1 : forall other : SmallRoom,
             In other two_rooms -> fst other <> fst (lit "gym_1", 9%N)).
  { intros other [<-|[<-|[]]]; vm_compute; discriminate. }
  split; [exact H1|].
  destruct (@Hook.add_then_delete_restores
              SmallRoom (@fst jsstring N) parse_rooms stringify_rooms
              Store getItem setItem two_rooms (lit "gym_1", 9%N) page_rooms H1)
    as (_ & Hback).
  exact Hback.
Defined.

End Cases.
